(** * Org summary pipeline: a shallow embedding of [src/index.ts]

    The pipeline of [summarizeOrg] is embedded as pure functions over an
    explicit record of what its external collaborators answer (the command
    runner, the HTTP client, the tabular parser, the file system).  A call that
    can throw returns a [result]; the unbounded polling loop takes fuel.

    Numbers.  A JavaScript number is modelled by [JsNum]: a rational, or one
    of the three non-finite values.  The sum, difference, product and
    quotient of two finite numbers are the exact results rounded to the
    binary64 format ([round64]: nearest, ties to even, overflow to an
    infinity).  The sign of zero is not modelled.  Lengths are [nat].

    Objects.  An object whose properties are assigned under computed keys (the
    inventory of the report) is a [JsObj]: its own properties in the order of
    [Object.keys], array indices first and in ascending order, then the other
    keys in the order of their creation; an assignment to [__proto__] creates
    no own property.  What [JSON.parse] yields for a primitive is a [JsVal].

    Parsed rows.  [parse(csvData, { columns: true })] is called without the
    parser's [cast] option, so each field of a row is a string; a row is a
    finite map from column names to strings, and reading a column that is
    absent gives [undefined].  The conversions between strings and numbers
    that the operators of the language then apply are a parameter
    ([Coercions]).

    Text.  The run identifier and the scanner file are read from strings whose
    characters stand for code units below 256; the patterns and [trim] are
    written out on them.

    Upload.  [uploadSummary] is embedded over a connection that answers each
    [create] in turn, as steps that thread the list of the records whose
    creation was acknowledged. *)

From Stdlib Require Import ZArith QArith Qabs Qround Lia Lqa.
From Stdlib Require Ascii.
From stdpp Require Import base option list strings gmap pretty.

Local Open Scope string_scope.
Local Open Scope list_scope.

(** ** JavaScript values and exceptions *)

Module Js.

(** What [throw] carries: an [Error] with its [message], and the [stderr]
    property that [execSync] adds to the error of a failed command (the errors
    of [fs] and of the parser have none). *)
Record JsError := mkError { message : string; stderr : option string }.

(** The outcome of a call that may throw. *)
Inductive result (A : Type) : Type :=
| Ok (a : A)
| Throw (e : JsError).
Arguments Ok {A} a.
Arguments Throw {A} e.

Definition bind {A B} (r : result A) (k : A -> result B) : result B :=
  match r with
  | Ok a => k a
  | Throw e => Throw e
  end.

(** The [TypeError] of a property read on [undefined]. *)
Definition typeError (prop : string) : JsError :=
  mkError ("Cannot read properties of undefined (reading '" +:+ prop +:+ "')") None.

Inductive JsNum : Type :=
| Fin (q : Q)
| PosInf
| NegInf
| NaN.

(** Rounding to the nearest number of the binary64 format, ties to the even
    significand, overflow to an infinity.  [pow2 k] is 2 to the power [k];
    [floorLog2 q], for a positive [q], is the exponent of the binade of [q];
    the unit in the last place is that of a normal number, or 2^-1074 below
    the normal range. *)
Definition pow2 (k : Z) : Q :=
  match k with
  | Z0 => 1%Q
  | Zpos p => (Zpos (2 ^ p) # 1)%Q
  | Zneg p => (1 # (2 ^ p))%Q
  end.

Definition floorLog2 (q : Q) : Z :=
  let k := (Z.log2 (Qnum q) - Z.log2 (Zpos (Qden q)))%Z in
  if Qle_bool (pow2 k) q then k else (k - 1)%Z.

Definition roundHalfEven (q : Q) : Z :=
  let f := Qfloor q in
  match Qcompare (q - inject_Z f)%Q (1 # 2)%Q with
  | Lt => f
  | Gt => (f + 1)%Z
  | Eq => if Z.even f then f else (f + 1)%Z
  end.

(** The nearest multiple of the unit in the last place of a positive [a]. *)
Definition nearest64 (a : Q) : Q :=
  let e := Z.max (floorLog2 a) (-1022) in
  let ulp := pow2 (e - 52) in
  (inject_Z (roundHalfEven (a / ulp)) * ulp)%Q.

Definition round64 (q : Q) : JsNum :=
  match Qcompare q 0 with
  | Eq => Fin 0
  | Gt =>
      let r := nearest64 q in
      if Qle_bool (pow2 1024) r then PosInf else Fin (Qred r)
  | Lt =>
      let r := nearest64 (- q) in
      if Qle_bool (pow2 1024) r then NegInf else Fin (Qred (- r))
  end.

(** The length of an array as a number: lengths are below 2^32, and exact. *)
Definition num_of_nat (n : nat) : JsNum := Fin (inject_Z (Z.of_nat n)).

Definition num_add (a b : JsNum) : JsNum :=
  match a, b with
  | NaN, _ | _, NaN => NaN
  | Fin p, Fin q => round64 (p + q)%Q
  | PosInf, NegInf | NegInf, PosInf => NaN
  | PosInf, _ | _, PosInf => PosInf
  | NegInf, _ | _, NegInf => NegInf
  end.

Definition num_neg (a : JsNum) : JsNum :=
  match a with
  | Fin p => Fin (- p)%Q
  | PosInf => NegInf
  | NegInf => PosInf
  | NaN => NaN
  end.

Definition num_sub (a b : JsNum) : JsNum := num_add a (num_neg b).

Definition num_mul (a b : JsNum) : JsNum :=
  match a, b with
  | NaN, _ | _, NaN => NaN
  | Fin p, Fin q => round64 (p * q)%Q
  | Fin p, PosInf | PosInf, Fin p =>
      match Qcompare p 0 with Eq => NaN | Gt => PosInf | Lt => NegInf end
  | Fin p, NegInf | NegInf, Fin p =>
      match Qcompare p 0 with Eq => NaN | Gt => NegInf | Lt => PosInf end
  | PosInf, PosInf | NegInf, NegInf => PosInf
  | PosInf, NegInf | NegInf, PosInf => NegInf
  end.

(** Division; a zero divisor is taken as [+0]. *)
Definition num_div (a b : JsNum) : JsNum :=
  match a, b with
  | NaN, _ | _, NaN => NaN
  | Fin p, Fin q =>
      match Qcompare q 0 with
      | Eq => match Qcompare p 0 with Eq => NaN | Gt => PosInf | Lt => NegInf end
      | _ => round64 (p / q)%Q
      end
  | Fin _, PosInf | Fin _, NegInf => Fin 0
  | PosInf, Fin q => if Qle_bool 0 q then PosInf else NegInf
  | NegInf, Fin q => if Qle_bool 0 q then NegInf else PosInf
  | _, _ => NaN
  end.

(** [a > b] on numbers: false as soon as one side is NaN. *)
Definition num_gt (a b : JsNum) : bool :=
  match a, b with
  | NaN, _ | _, NaN => false
  | Fin p, Fin q => negb (Qle_bool p q)
  | PosInf, PosInf => false
  | PosInf, _ => true
  | _, NegInf => match a with NegInf => false | _ => true end
  | _, _ => false
  end.

Inductive JsVal : Type :=
| VUndef
| VNull
| VBool (b : bool)
| VNum (n : JsNum)
| VStr (s : string).

(** [a === b]: no coercion, values of different types are never equal, and
    NaN equals nothing. *)
Definition strict_eq (a b : JsVal) : bool :=
  match a, b with
  | VUndef, VUndef => true
  | VNull, VNull => true
  | VBool b, VBool c => Bool.eqb b c
  | VStr s, VStr t => String.eqb s t
  | VNum (Fin p), VNum (Fin q) => Qeq_bool p q
  | VNum PosInf, VNum PosInf => true
  | VNum NegInf, VNum NegInf => true
  | _, _ => false
  end.

(** [a ?? b] *)
Definition nullish_or (a b : JsVal) : JsVal :=
  match a with
  | VUndef | VNull => b
  | _ => a
  end.

(** [a || b] on values: [a] when it is truthy. *)
Definition truthy (a : JsVal) : bool :=
  match a with
  | VUndef | VNull => false
  | VBool b => b
  | VNum NaN => false
  | VNum (Fin q) => negb (Qeq_bool q 0)
  | VNum _ => true
  | VStr s => negb (String.eqb s "")
  end.

(** What [JSON.stringify] writes for a number: [null] for NaN and for the
    infinities. *)
Definition json_of_num (n : JsNum) : JsVal :=
  match n with
  | Fin q => VNum (Fin q)
  | _ => VNull
  end.

(** The conversions of the language between strings and numbers
    (StringToNumber and Number::toString), left abstract. *)
Class Coercions := {
  string_to_number : string -> JsNum;
  number_to_string : JsNum -> string
}.

Section Operators.
Context `{Coercions}.

Definition to_number (v : JsVal) : JsNum :=
  match v with
  | VUndef => NaN
  | VNull => Fin 0
  | VBool b => if b then Fin 1 else Fin 0
  | VNum n => n
  | VStr s => string_to_number s
  end.

Definition to_string (v : JsVal) : string :=
  match v with
  | VUndef => "undefined"
  | VNull => "null"
  | VBool b => if b then "true" else "false"
  | VNum n => number_to_string n
  | VStr s => s
  end.

(** [a + b]: concatenation as soon as one operand is a string. *)
Definition js_add (a b : JsVal) : JsVal :=
  match a, b with
  | VStr _, _ | _, VStr _ => VStr (to_string a +:+ to_string b)
  | _, _ => VNum (num_add (to_number a) (to_number b))
  end.

Definition js_sub (a b : JsVal) : JsVal := VNum (num_sub (to_number a) (to_number b)).

Definition js_div (a b : JsVal) : JsVal := VNum (num_div (to_number a) (to_number b)).

Definition js_mul (a b : JsVal) : JsVal := VNum (num_mul (to_number a) (to_number b)).

(** [a > n] against a number: the left operand is converted. *)
Definition js_gt_num (a : JsVal) (n : JsNum) : bool := num_gt (to_number a) n.

End Operators.

(** [s.includes(sub)] *)
Definition includes (s sub : string) : bool :=
  match String.index 0 sub s with
  | Some _ => true
  | None => false
  end.

(** A row of the tabular parser and the read of one of its columns. *)
Abbreviation CsvRow := (gmap string string).

Definition field (r : CsvRow) (column : string) : JsVal :=
  match r !! column with
  | Some s => VStr s
  | None => VUndef
  end.

(** An object with properties of type [V], themselves objects: the own
    properties, in the order in which [Object.keys] lists them. *)
Record JsObj (V : Type) := mkObj { props : list (string * V) }.
Arguments mkObj {V} props.
Arguments props {V} _.

(** The array index that a key spells: a canonical decimal numeral below
    2^32 - 1. *)
Fixpoint decimal (s : string) (acc : N) : option N :=
  match s with
  | EmptyString => Some acc
  | String c rest =>
      let code := Ascii.N_of_ascii c in
      if ((48 <=? code) && (code <=? 57))%N
      then decimal rest (10 * acc + (code - 48))%N
      else None
  end.

Definition arrayIndex (key : string) : option N :=
  match key with
  | EmptyString => None
  | String c rest =>
      if (Ascii.N_of_ascii c =? 48)%N && negb (String.eqb rest "") then None
      else
        match decimal key 0 with
        | Some n => if (n <? 4294967295)%N then Some n else None
        | None => None
        end
  end.

(** Whether a new key comes before an existing one in the order of the own
    keys. *)
Definition precedes (new old : option N) : bool :=
  match new, old with
  | Some n, Some m => (n <? m)%N
  | Some _, None => true
  | None, _ => false
  end.

Fixpoint placeProp {V} (key : string) (v : V) (l : list (string * V))
    : list (string * V) :=
  match l with
  | [] => [(key, v)]
  | (key', v') :: rest =>
      if precedes (arrayIndex key) (arrayIndex key') then (key, v) :: l
      else (key', v') :: placeProp key v rest
  end.

Definition getProp {V} (key : string) (l : list (string * V)) : option V :=
  snd <$> find (fun entry => String.eqb entry.1 key) l.

Definition setProp {V} (key : string) (v : V) (l : list (string * V))
    : list (string * V) :=
  match getProp key l with
  | Some _ => map (fun entry => if String.eqb entry.1 key then (key, v) else entry) l
  | None => placeProp key v l
  end.

(** [{}], the own property [o[key]], and the assignment [o[key] = v] of an
    object [v]: under [__proto__] it sets the prototype and leaves the own
    properties as they are. *)
#[global] Instance jsobj_empty {V} : Empty (JsObj V) := mkObj [].

#[global] Instance jsobj_lookup {V} : Lookup string V (JsObj V) :=
  fun key o => getProp key (props o).

#[global] Instance jsobj_insert {V} : Insert string V (JsObj V) :=
  fun key v o =>
    if String.eqb key "__proto__" then o else mkObj (setProp key v (props o)).

(** [Object.keys(o)] *)
Definition ownKeys {V} (o : JsObj V) : list string := map fst (props o).

(** Truthiness of an optional string: absent and [''] are falsy. *)
Definition str_truthy (o : option string) : bool :=
  match o with
  | Some s => negb (String.eqb s "")
  | None => false
  end.

End Js.
Export Js.

Notation "x <- r ;; k" := (Js.bind r (fun x => k))
  (at level 100, r at next level, right associativity, only parsing).

(** ** Data model ([src/models/summary] and the interfaces of [index.ts]) *)

Module Model.

Record OrgInfo := {
  username : string;
  accessToken : string;
  instanceUrl : string;
  orgId : string
}.

Record ComponentSummary := {
  cs_Total : nat;
  cs_LastModifiedDate : JsVal
}.

Record LinesOfCode := {
  Total : nat;
  Comments : nat;
  Code : Z
}.

Record LanguageLines := {
  lang_Total : nat;
  lang_Comments : nat;
  lang_Code : Z;
  lang_Details : list (string * LinesOfCode)
}.

Record CodeDetails := {
  Apex : LanguageLines;
  JavaScript : LanguageLines
}.

Record CodeAnalysis := {
  code_LinesOfCode : nat;
  Risks : nat;
  RisksPerLineRatio : JsNum;
  LineDetails : CodeDetails;
  RiskDetails : list CsvRow
}.

Record HealthCheckSummary := {
  Score : JsVal;
  Criteria : nat;
  Compliant : nat;
  hc_Risks : nat;
  hc_Details : list CsvRow
}.

Record Limit := {
  Name : string;
  Description : string;
  Max : JsVal;
  Remaining : JsVal;
  Usage : JsVal
}.

Record LimitSummary := {
  Applicable : nat;
  Reached : nat;
  Unattained : nat;
  Details : list Limit
}.

Record FlowCoverage := {
  flow_Name : JsVal;
  flow_CoveragePercentage : JsNum
}.

Record ApexClassCoverage := {
  apex_Name : JsVal;
  apex_CoveragePercentage : JsVal
}.

Record TestSummary := {
  ApexUnitTests : JsVal;
  TestDuration : JsVal;
  TestMethodsCompleted : JsVal;
  TestMethodsFailed : JsVal;
  TestOutcome : string;
  ApexCoverageTotal : JsVal;
  ApexCoverageDetails : list ApexClassCoverage;
  FlowCoverageTotal : JsNum;
  FlowCoverageDetails : list FlowCoverage
}.

Record OrgSummary := {
  Timestamp : string;
  ResultState : string;
  OrgId : string;
  OrgInstanceURL : string;
  Username : string;
  Metadata : option (JsObj ComponentSummary);
  CodeFragment : option CodeAnalysis;
  HealthCheck : option HealthCheckSummary;
  Limits : option LimitSummary;
  Tests : option TestSummary
}.

(** The assignments [baseSummary.X = ...] of [summarizeOrg]. *)
Definition set_ResultState (v : string) (s : OrgSummary) : OrgSummary :=
  {| Timestamp := Timestamp s; ResultState := v; OrgId := OrgId s;
     OrgInstanceURL := OrgInstanceURL s; Username := Username s;
     Metadata := Metadata s; CodeFragment := CodeFragment s;
     HealthCheck := HealthCheck s; Limits := Limits s; Tests := Tests s |}.

Definition set_Metadata (v : JsObj ComponentSummary) (s : OrgSummary) : OrgSummary :=
  {| Timestamp := Timestamp s; ResultState := ResultState s; OrgId := OrgId s;
     OrgInstanceURL := OrgInstanceURL s; Username := Username s;
     Metadata := Some v; CodeFragment := CodeFragment s;
     HealthCheck := HealthCheck s; Limits := Limits s; Tests := Tests s |}.

Definition set_Code (v : CodeAnalysis) (s : OrgSummary) : OrgSummary :=
  {| Timestamp := Timestamp s; ResultState := ResultState s; OrgId := OrgId s;
     OrgInstanceURL := OrgInstanceURL s; Username := Username s;
     Metadata := Metadata s; CodeFragment := Some v;
     HealthCheck := HealthCheck s; Limits := Limits s; Tests := Tests s |}.

Definition set_HealthCheck (v : HealthCheckSummary) (s : OrgSummary) : OrgSummary :=
  {| Timestamp := Timestamp s; ResultState := ResultState s; OrgId := OrgId s;
     OrgInstanceURL := OrgInstanceURL s; Username := Username s;
     Metadata := Metadata s; CodeFragment := CodeFragment s;
     HealthCheck := Some v; Limits := Limits s; Tests := Tests s |}.

Definition set_Limits (v : LimitSummary) (s : OrgSummary) : OrgSummary :=
  {| Timestamp := Timestamp s; ResultState := ResultState s; OrgId := OrgId s;
     OrgInstanceURL := OrgInstanceURL s; Username := Username s;
     Metadata := Metadata s; CodeFragment := CodeFragment s;
     HealthCheck := HealthCheck s; Limits := Some v; Tests := Tests s |}.

Definition set_Tests (v : TestSummary) (s : OrgSummary) : OrgSummary :=
  {| Timestamp := Timestamp s; ResultState := ResultState s; OrgId := OrgId s;
     OrgInstanceURL := OrgInstanceURL s; Username := Username s;
     Metadata := Metadata s; CodeFragment := CodeFragment s;
     HealthCheck := HealthCheck s; Limits := Limits s; Tests := Some v |}.

(** The options of an invocation ([interface flags]); an absent boolean is
    [false], an absent string [None]. *)
Record flags := {
  outputdirectory : option string;
  metadata : option string;
  keepdata : bool;
  healthcheck : bool;
  limits : bool;
  codeanalysis : bool;
  tests : bool;
  targetusername : option string
}.

(** What the code pushes on an error list: [null], a caught [Error], or an
    object with one property, [{ key: message }]. *)
Inductive ErrorItem : Type :=
| ENull
| EError (e : JsError)
| EPhase (key msg : string).

(** [error && error.dataPoint === dataPoint] *)
Definition error_on_dataPoint (dataPoint : string) (error : ErrorItem) : bool :=
  match error with
  | ENull => false
  | EError _ => false
  | EPhase key msg => String.eqb key "dataPoint" && String.eqb msg dataPoint
  end.

(** One entry of the limits payload and the records of the flow queries, as
    [JSON.parse] gives them: a property is a primitive value, [undefined]
    when the object has no such property. *)
Record LimitInfo := {
  info_Max : JsVal;
  info_Remaining : JsVal
}.

Record FlowCoverageRecord := {
  FlowVersionId : JsVal;
  NumElementsCovered : JsVal;
  NumElementsNotCovered : JsVal
}.

Record FlowDefinitionViewRecord := {
  ActiveVersionId : JsVal;
  Label : JsVal
}.

(** One source file as [countCodeLines] reads it: its lines that are not
    blank, and the matches of the comment pattern in it. *)
Record FileStat := {
  nonBlankLines : nat;
  commentMatches : nat
}.

End Model.
Export Model.

(** ** The report as it is written ([JSON.stringify])

    The value of the text that [JSON.stringify] writes for a summary: a
    property whose value is [undefined] is left out, a number that is not
    finite is written [null], and the members of an object are a finite map
    (their order in the text is not part of the value). *)

Module Serial.

#[warnings="-register-all"]
Inductive Json : Type :=
| JNull
| JBool (b : bool)
| JNumber (q : Q)
| JString (s : string)
| JArray (items : list Json)
| JObject (members : gmap string Json).

Definition member (key : string) (j : Json) : option Json :=
  match j with
  | JObject members => members !! key
  | _ => None
  end.

Definition jsonOfNum (n : JsNum) : Json :=
  match n with
  | Fin q => JNumber q
  | _ => JNull
  end.

Definition jsonOfVal (v : JsVal) : option Json :=
  match v with
  | VUndef => None
  | VNull => Some JNull
  | VBool b => Some (JBool b)
  | VNum n => Some (jsonOfNum n)
  | VStr s => Some (JString s)
  end.

Definition jsonOfNat (n : nat) : Json := JNumber (inject_Z (Z.of_nat n)).

Definition jsonOfRow (row : CsvRow) : Json := JObject (JString <$> row).

(** An object literal: the properties that have a value. *)
Definition object (properties : list (string * option Json)) : Json :=
  JObject (list_to_map (omap (fun property => pair property.1 <$> property.2) properties)).

Definition jsonOfLines (l : LinesOfCode) : Json :=
  object [ ("Total", Some (jsonOfNat (Total l)));
           ("Comments", Some (jsonOfNat (Comments l)));
           ("Code", Some (JNumber (inject_Z (Code l)))) ].

Definition jsonOfLanguage (l : LanguageLines) : Json :=
  object [ ("Total", Some (jsonOfNat (lang_Total l)));
           ("Comments", Some (jsonOfNat (lang_Comments l)));
           ("Code", Some (JNumber (inject_Z (lang_Code l))));
           ("Details",
            Some (object (map (fun d => (d.1, Some (jsonOfLines d.2))) (lang_Details l)))) ].

Definition jsonOfCode (c : CodeAnalysis) : Json :=
  object [ ("Risks", Some (jsonOfNat (Risks c)));
           ("RiskDetails", Some (JArray (map jsonOfRow (RiskDetails c))));
           ("LinesOfCode", Some (jsonOfNat (code_LinesOfCode c)));
           ("RisksPerLineRatio", Some (jsonOfNum (RisksPerLineRatio c)));
           ("LineDetails",
            Some (object [ ("Apex", Some (jsonOfLanguage (Apex (LineDetails c))));
                           ("JavaScript",
                            Some (jsonOfLanguage (JavaScript (LineDetails c)))) ])) ].

Definition jsonOfHealthCheck (h : HealthCheckSummary) : Json :=
  object [ ("Score", jsonOfVal (Score h));
           ("Criteria", Some (jsonOfNat (Criteria h)));
           ("Compliant", Some (jsonOfNat (Compliant h)));
           ("Risks", Some (jsonOfNat (hc_Risks h)));
           ("Details", Some (JArray (map jsonOfRow (hc_Details h)))) ].

Definition jsonOfLimit (l : Limit) : Json :=
  object [ ("Name", Some (JString (Name l)));
           ("Max", jsonOfVal (Max l));
           ("Remaining", jsonOfVal (Remaining l));
           ("Usage", jsonOfVal (Usage l));
           ("Description", Some (JString (Description l))) ].

Definition jsonOfLimits (l : LimitSummary) : Json :=
  object [ ("Applicable", Some (jsonOfNat (Applicable l)));
           ("Reached", Some (jsonOfNat (Reached l)));
           ("Unattained", Some (jsonOfNat (Unattained l)));
           ("Details", Some (JArray (map jsonOfLimit (Details l)))) ].

Definition jsonOfTests (t : TestSummary) : Json :=
  object [ ("ApexUnitTests", jsonOfVal (ApexUnitTests t));
           ("TestDuration", jsonOfVal (TestDuration t));
           ("TestMethodsCompleted", jsonOfVal (TestMethodsCompleted t));
           ("TestMethodsFailed", jsonOfVal (TestMethodsFailed t));
           ("TestOutcome", Some (JString (TestOutcome t)));
           ("ApexCoverageDetails",
            Some (object
                    [ ("Total", jsonOfVal (ApexCoverageTotal t));
                      ("Details",
                       Some (JArray
                               (map (fun c =>
                                       object [ ("Name", jsonOfVal (apex_Name c));
                                                ("CoveragePercentage",
                                                 jsonOfVal (apex_CoveragePercentage c)) ])
                                    (ApexCoverageDetails t)))) ]));
           ("FlowCoverageDetails",
            Some (object
                    [ ("Total", Some (jsonOfNum (FlowCoverageTotal t)));
                      ("Details",
                       Some (JArray
                               (map (fun f =>
                                       object [ ("Name", jsonOfVal (flow_Name f));
                                                ("CoveragePercentage",
                                                 Some (jsonOfNum (flow_CoveragePercentage f))) ])
                                    (FlowCoverageDetails t)))) ])) ].

Definition jsonOfComponent (c : ComponentSummary) : Json :=
  object [ ("Total", Some (jsonOfNat (cs_Total c)));
           ("LastModifiedDate", jsonOfVal (cs_LastModifiedDate c)) ].

Definition jsonOfMetadata (m : JsObj ComponentSummary) : Json :=
  object (map (fun entry => (entry.1, Some (jsonOfComponent entry.2))) (props m)).

(** [JSON.stringify(summaryData, null, 2)] *)
Definition jsonOfSummary (s : OrgSummary) : Json :=
  object [ ("Timestamp", Some (JString (Timestamp s)));
           ("ResultState", Some (JString (ResultState s)));
           ("OrgId", Some (JString (OrgId s)));
           ("Username", Some (JString (Username s)));
           ("OrgInstanceURL", Some (JString (OrgInstanceURL s)));
           ("HealthCheck", jsonOfHealthCheck <$> HealthCheck s);
           ("Limits", jsonOfLimits <$> Limits s);
           ("Code", jsonOfCode <$> CodeFragment s);
           ("Tests", jsonOfTests <$> Tests s);
           ("Metadata", jsonOfMetadata <$> Metadata s) ].

End Serial.
Export Serial.

(** ** The external collaborators

    One field per call site of the pipeline: what the call returns, or the
    error it throws, at the point of the run where it is made and in the
    state that the earlier calls have left (the working directory, which the
    code phase changes, and the files of the run directory).  A query field
    stands for the three steps that [queryMetadata] and [getHealthCheckScore]
    make in a row: [execSync] of the command, [readFileSync] of its output
    file, [parse] of the text.  A call is taken to answer: a command or a
    request that never comes back is not modelled. *)

Module Collect.

Record World := {
  (** [Date.now().toString()] and [__dirname] *)
  now : string;
  dirname : string;
  (** [execSync('sfdx force:org:display ...')] and [JSON.parse] of its output *)
  orgDisplay : result OrgInfo;
  (** [fs.existsSync] and [fs.mkdirSync] of the run's directory *)
  mkdirSync : result unit;
  (** the two queries of the health check, each written to its own file and
      read from it *)
  healthScoreQuery : result (list CsvRow);
  healthRisksQuery : result (list CsvRow);
  (** the risks query as it is made without an alias: the command writes to
      [HCS.csv], and the code reads and parses [HCR.csv], which the run has
      not written ([ENOENT] in a directory made for the run) *)
  healthRisksStale : result (list CsvRow);
  (** [axios.get] on the limits endpoint: the own properties of [data] in the
      order of [for ... in]; [None] for a value that is falsy or has no
      properties of its own to read *)
  limitsApi : result (list (string * option LimitInfo));
  (** [chdir], project creation, retrieval and scanner run of the code phase *)
  codeSetup : result unit;
  (** [preprocessResults()]: the rows of [CLIScannerResults.csv] *)
  scannerResults : result (list CsvRow);
  (** the files of a directory with a given extension, read one by one *)
  sourceFiles : string -> string -> result (list FileStat);
  (** the final [process.chdir('../../../../')] *)
  chdirBack : result unit;
  (** submission of the test run, and what [extractTestRunId] finds *)
  testRun : result unit;
  testRunId : option string;
  (** the status query for a job at the n-th tick of the poller *)
  statusQuery : string -> nat -> result (list CsvRow);
  testRunDetailsQuery : string -> result (list CsvRow);
  orgWideCoverageQuery : result (list CsvRow);
  classCoverageQuery : result (list CsvRow);
  (** [getFlowCoverage] at its n-th call and [getFlowDefinitionViews]: the
      [records] of the [result] property, [None] when there is no [result] *)
  flowCoverage : nat -> result (option (list FlowCoverageRecord));
  flowDefinitionViews : result (option (list FlowDefinitionViewRecord));
  (** the inventory query issued for a data point *)
  componentQuery : string -> result (list CsvRow);
  (** the two steps of [finish] *)
  cleanUpDirectory : result unit;
  writeFileSync : result unit
}.

(** [handleQueryError(dataPoint, error, errors)]: the list after the push, or
    the [TypeError] of [error.stderr.includes] when [error] has no [stderr]. *)
Definition handleQueryError (dataPoint : string) (error : JsError)
    (errors : list ErrorItem) : result (list ErrorItem) :=
  match stderr error with
  | None => Throw (typeError "includes")
  | Some err =>
      let isUnsupportedTypeError :=
        includes err "sObject type" && includes err "is not supported" in
      if isUnsupportedTypeError
      then Ok (errors ++ [ENull])
      else Ok (errors ++ [EError error])
  end.

(** [queryMetadata(query, outputCsv, orgAlias)], given what its command
    answers.  The list handed to [handleQueryError] is a fresh [[]] and is
    dropped. *)
Definition queryMetadata (query : string) (answer : result (list CsvRow))
    : result (list CsvRow) :=
  match answer with
  | Ok rows => Ok rows
  | Throw error =>
      _ <- handleQueryError query error [] ;;
      Ok []
  end.

(** [getOrgInfo(orgAlias)] *)
Definition getOrgInfo (w : World) : OrgInfo :=
  match orgDisplay w with
  | Ok info => info
  | Throw _ =>
      {| username := ""; accessToken := ""; instanceUrl := ""; orgId := "" |}
  end.

End Collect.
Export Collect.

(** ** Metric derivation and the phase bodies *)

Module Phases.

Section WithCoercions.
Context `{Coercions}.

(** [calculateCoveragePercentage(linesCovered, linesUncovered)] *)
Definition calculateCoveragePercentage (linesCovered linesUncovered : JsVal) : JsVal :=
  let totalLines := js_add linesCovered linesUncovered in
  if js_gt_num totalLines (Fin 0)
  then js_mul (js_div linesCovered totalLines) (VNum (Fin 100))
  else VNum (Fin 0).

(** [getApexClassCoverageDetails(path, orgAlias)] *)
Definition getApexClassCoverageDetails (w : World) : list ApexClassCoverage :=
  let query := "SELECT ApexClassOrTrigger.Name, NumLinesCovered, NumLinesUncovered FROM ApexCodeCoverageAggregate" in
  match queryMetadata query (classCoverageQuery w) with
  | Ok results =>
      map (fun r =>
             {| apex_Name :=
                  if truthy (field r "ApexClassOrTrigger.Name")
                  then field r "ApexClassOrTrigger.Name" else VStr "N/A";
                apex_CoveragePercentage :=
                  calculateCoveragePercentage (field r "NumLinesCovered")
                                              (field r "NumLinesUncovered") |})
          results
  | Throw _ => []
  end.

(** [getOrgWideApexCoverage(path, orgAlias)]: the reduced sum over the length,
    or [null] from the catch block. *)
Definition getOrgWideApexCoverage (w : World) : JsVal :=
  let query := "SELECT PercentCovered FROM ApexOrgWideCoverage" in
  match queryMetadata query (orgWideCoverageQuery w) with
  | Ok results =>
      js_div (fold_left (fun sum r => js_add sum (field r "PercentCovered"))
                        results (VNum (Fin 0)))
             (VNum (num_of_nat (length results)))
  | Throw _ => VNull
  end.

End WithCoercions.

(** The conditional of [getTestRunDetails] that classifies a run. *)
Definition testRunOutcome (status methodsFailed : JsVal) : string :=
  if strict_eq status (VStr "Completed") && strict_eq methodsFailed (VNum (Fin 0))
  then "Pass" else "Fail".

Record TestRunDetails := {
  outcome : string;
  runtime : JsVal;
  methodsCompleted : JsVal;
  methodsFailed : JsVal
}.

(** [getTestRunDetails(jobId, path, orgAlias)] *)
Definition getTestRunDetails (w : World) (jobId : string) : option TestRunDetails :=
  let query := "SELECT Id, AsyncApexJobId, Status, StartTime, EndTime, TestTime, MethodsCompleted, MethodsFailed FROM ApexTestRunResult WHERE AsyncApexJobId = '" +:+ jobId +:+ "'" in
  match queryMetadata query (testRunDetailsQuery w jobId) with
  | Ok (testRunResult :: _) =>
      Some {| outcome := testRunOutcome (field testRunResult "Status")
                                        (field testRunResult "MethodsFailed");
              runtime := field testRunResult "TestTime";
              methodsCompleted := field testRunResult "MethodsCompleted";
              methodsFailed := field testRunResult "MethodsFailed" |}
  | Ok [] => None
  | Throw _ => None
  end.

Section Flows.
Context `{Coercions}.

(** [getFlowCoveragePercentage(orgAlias)] *)
Definition getFlowCoveragePercentage (w : World) : JsNum :=
  match flowCoverage w 0 with
  | Ok (Some (firstRecord :: _)) =>
      let totalElements :=
        js_add (NumElementsCovered firstRecord) (NumElementsNotCovered firstRecord) in
      if js_gt_num totalElements (Fin 0)
      then num_mul (num_div (to_number (NumElementsCovered firstRecord))
                            (to_number totalElements))
                   (Fin 100)
      else Fin 0
  | _ => Fin 0
  end.

(** [getFlowCoverageDetails(orgAlias)]; [find] keeps the first match. *)
Definition getFlowCoverageDetails (w : World) : list FlowCoverage :=
  match flowCoverage w 1 with
  | Throw _ => []
  | Ok coverageResult =>
      match flowDefinitionViews w with
      | Throw _ => []
      | Ok flowDefinitionsResult =>
          match coverageResult, flowDefinitionsResult with
          | Some coverageRecords, Some (flowDef0 :: flowDefs) =>
              map (fun flowDef =>
                     let matchingCoverage :=
                       find (fun coverage =>
                               strict_eq (FlowVersionId coverage) (ActiveVersionId flowDef))
                            coverageRecords in
                     {| flow_Name := Label flowDef;
                        flow_CoveragePercentage :=
                          match matchingCoverage with
                          | Some c =>
                              num_mul
                                (num_div (to_number (NumElementsCovered c))
                                         (to_number (js_add (NumElementsCovered c)
                                                            (NumElementsNotCovered c))))
                                (Fin 100)
                          | None => Fin 0
                          end |})
                  (flowDef0 :: flowDefs)
          | _, _ => []
          end
      end
  end.

End Flows.

(** [pollTestRunResult(jobId, path, orgAlias)].  One unit of fuel is one turn
    of the [while] loop; the result is the status at exit with the number of
    turns made, each of which ends on the wait of [pollInterval] ms. *)
Definition pollInterval : Z := 5000.

Definition isPending (status : JsVal) : bool :=
  strict_eq status (VStr "Queued") || strict_eq status (VStr "Processing").

Definition pollTick (w : World) (jobId : string) (tick : nat) (status : JsVal) : JsVal :=
  let query := "SELECT Id, Status FROM AsyncApexJob WHERE Id = '" +:+ jobId +:+ "' LIMIT 1" in
  match queryMetadata query (statusQuery w jobId tick) with
  | Ok (testJob :: _) => field testJob "Status"
  | Ok [] => status
  | Throw _ => VStr "Failed"
  end.

Fixpoint pollLoop (fuel : nat) (w : World) (jobId : string) (tick : nat)
    (status : JsVal) : option (JsVal * nat) :=
  if isPending status then
    match fuel with
    | O => None
    | S fuel' => pollLoop fuel' w jobId (S tick) (pollTick w jobId tick status)
    end
  else Some (status, tick).

Definition pollTestRunResult (fuel : nat) (w : World) (jobId : string)
    : option (JsVal * nat) :=
  pollLoop fuel w jobId 0 (VStr "Queued").

(** The time spent waiting by a poll that made [ticks] turns. *)
Definition waited (ticks : nat) : Z := (Z.of_nat ticks * pollInterval)%Z.

(** [checkLimits(instanceURL, accessToken)] *)
Definition hasBoth (limitInfo : LimitInfo) : bool :=
  negb (strict_eq (info_Max limitInfo) VUndef)
  && negb (strict_eq (info_Remaining limitInfo) VUndef).

Definition checkLimits `{Coercions} (w : World) : list Limit :=
  match limitsApi w with
  | Ok limitsData =>
      fold_left
        (fun limits entry =>
           match entry with
           | (key, Some limitInfo) =>
               if hasBoth limitInfo then
                 limits ++ [ {| Name := key;
                                Max := info_Max limitInfo;
                                Remaining := info_Remaining limitInfo;
                                Usage := js_sub (info_Max limitInfo)
                                                (info_Remaining limitInfo);
                                Description := "Description for " +:+ key |} ]
               else limits
           | (_, None) => limits
           end)
        limitsData []
  | Throw _ => []
  end.

(** The summary that the limits phase of [summarizeOrg] makes of them. *)
Definition limitSummary (rows : list Limit) : LimitSummary :=
  let applicable := length rows in
  let reached :=
    length (filter (fun limit => strict_eq (Remaining limit) (VNum (Fin 0)) = true) rows) in
  {| Applicable := applicable;
     Reached := reached;
     Unattained := applicable - reached;
     Details := rows |}.

(** [getHealthCheckScore(path, orgAlias)]: with an alias each query goes to
    its own file; without one the second command also writes to [HCS.csv],
    and [HCR.csv] is read as it was. *)
Definition getHealthCheckScore (w : World) (orgAlias : option string)
    : result HealthCheckSummary :=
  hcScore <- healthScoreQuery w ;;
  hcRisks <- (if str_truthy orgAlias then healthRisksQuery w else healthRisksStale w) ;;
  let hcRisksFiltered :=
    filter (fun risk => negb (strict_eq (field risk "RiskType") (VStr "MEETS_STANDARD")) = true)
           hcRisks in
  match hcScore with
  | [] => Throw (typeError "Score")
  | first :: _ =>
      Ok {| Score := field first "Score";
            Criteria := length hcRisks;
            Compliant := length hcRisks - length hcRisksFiltered;
            hc_Risks := length hcRisksFiltered;
            hc_Details := hcRisks |}
  end.

(** [countCodeLines(directory, extension, language)] *)
Definition countCodeLines (w : World) (directory extension : string) : result LinesOfCode :=
  codeFiles <- sourceFiles w directory extension ;;
  let totalLines := fold_left (fun n f => n + nonBlankLines f) codeFiles 0 in
  let commentLines := fold_left (fun n f => n + commentMatches f) codeFiles 0 in
  Ok {| Total := totalLines;
        Comments := commentLines;
        Code := (Z.of_nat totalLines - Z.of_nat commentLines)%Z |}.

(** [calculateCodeLines()] *)
Definition calculateCodeLines (w : World) : result CodeDetails :=
  apexClassCL <- countCodeLines w "./force-app/main/default/classes" ".cls" ;;
  apexTriggerCL <- countCodeLines w "./force-app/main/default/triggers" ".trigger" ;;
  auraCL <- countCodeLines w "./force-app/main/default/aura" ".js" ;;
  lwcCL <- countCodeLines w "./force-app/main/default/lwc" ".js" ;;
  staticResourceCL <- countCodeLines w "./force-app/main/default/staticresources" ".js" ;;
  Ok {| Apex :=
          {| lang_Total := Total apexClassCL + Total apexTriggerCL;
             lang_Comments := Comments apexClassCL + Comments apexTriggerCL;
             lang_Code := (Code apexClassCL + Code apexTriggerCL)%Z;
             lang_Details := [("ApexClass", apexClassCL); ("ApexTrigger", apexTriggerCL)] |};
        JavaScript :=
          {| lang_Total := Total auraCL + Total lwcCL + Total staticResourceCL;
             lang_Comments := Comments auraCL + Comments lwcCL + Comments staticResourceCL;
             lang_Code := (Code auraCL + Code lwcCL + Code staticResourceCL)%Z;
             lang_Details := [("AuraDefinitionBundle", auraCL);
                              ("LightningComponentBundle", lwcCL);
                              ("StaticResource", staticResourceCL)] |} |}.

(** The [Code] fragment that [summarizeOrg] builds from the scanner rows and
    the line counts. *)
Definition codeAnalysis (results : list CsvRow) (codeLines : CodeDetails) : CodeAnalysis :=
  {| Risks := length results;
     RiskDetails := results;
     code_LinesOfCode := lang_Total (Apex codeLines) + lang_Total (JavaScript codeLines);
     RisksPerLineRatio :=
       num_div (num_of_nat (length results))
               (num_of_nat (lang_Total (Apex codeLines) + lang_Total (JavaScript codeLines)));
     LineDetails := codeLines |}.

(** [queryDataPoints(selectedDataPoints, orgSummaryDirectory, orgAlias)] *)
Definition buildQuery (dataPoint : string) : string :=
  "SELECT CreatedBy.Name, CreatedDate, Id, LastModifiedBy.Name, LastModifiedDate FROM "
  +:+ dataPoint +:+ " ORDER BY LastModifiedDate DESC".

Fixpoint queryDataPointsFrom (w : World) (queryResults : gmap string (list CsvRow))
    (selectedDataPoints : list string) : result (gmap string (list CsvRow)) :=
  match selectedDataPoints with
  | [] => Ok queryResults
  | dataPoint :: rest =>
      rows <- queryMetadata (buildQuery dataPoint) (componentQuery w dataPoint) ;;
      queryDataPointsFrom w (<[dataPoint := rows]> queryResults) rest
  end.

Definition queryDataPoints (w : World) (selectedDataPoints : list string)
    : result (gmap string (list CsvRow)) :=
  queryDataPointsFrom w ∅ selectedDataPoints.

(** [calculateComponentSummary(selectedDataPoints, queryResults, errors)]:
    one turn of its loop, then the loop. *)
Definition summarizeDataPoint (queryResults : gmap string (list CsvRow))
    (errors : list ErrorItem) (componentSummary : JsObj ComponentSummary)
    (dataPoint : string) : JsObj ComponentSummary :=
  if existsb (error_on_dataPoint dataPoint) errors then componentSummary
  else
    match queryResults !! dataPoint with
    | Some (lastRecord :: rest) =>
        <[dataPoint := {| cs_Total := length (lastRecord :: rest);
                          cs_LastModifiedDate := field lastRecord "LastModifiedDate" |}]>
          componentSummary
    | _ => componentSummary
    end.

Definition calculateComponentSummary (selectedDataPoints : list string)
    (queryResults : gmap string (list CsvRow)) (errors : list ErrorItem)
    : JsObj ComponentSummary :=
  fold_left (summarizeDataPoint queryResults errors) selectedDataPoints ∅.

End Phases.
Export Phases.

(** ** The pipeline of [summarizeOrg] *)

Module Pipeline.

(** [s.split(sep)] for a separator of one character. *)
Fixpoint split (sep : Ascii.ascii) (s : string) : list string :=
  match s with
  | EmptyString => [""]
  | String c rest =>
      if Ascii.eqb c sep then "" :: split sep rest
      else
        match split sep rest with
        | segment :: segments => String c segment :: segments
        | [] => [String c ""]
        end
  end.

(** [buildBaseSummary(orgAlias, info)], called with [info]. *)
Definition buildBaseSummary (w : World) (info : OrgInfo) : OrgSummary :=
  {| Timestamp := now w;
     ResultState := "Pending";
     OrgId := orgId info;
     Username := username info;
     OrgInstanceURL := instanceUrl info;
     Metadata := None; CodeFragment := None; HealthCheck := None;
     Limits := None; Tests := None |}.

(** The state that the phases thread: the summary under construction and the
    error list of the run. *)
Record Run := {
  baseSummary : OrgSummary;
  errors : list ErrorItem
}.

(** [const errors: any[] = []] *)
Definition newRun (s : OrgSummary) : Run := {| baseSummary := s; errors := [] |}.

(** [catch (error) { errors.push({ key: error.message }) }] *)
Definition pushError (key : string) (error : JsError) (st : Run) : Run :=
  {| baseSummary := baseSummary st;
     errors := errors st ++ [EPhase key (message error)] |}.

Definition assign (f : OrgSummary -> OrgSummary) (st : Run) : Run :=
  {| baseSummary := f (baseSummary st); errors := errors st |}.

Definition healthPhase (w : World) (orgAlias : option string) (st : Run) : Run :=
  match getHealthCheckScore w orgAlias with
  | Ok summary => assign (set_HealthCheck summary) st
  | Throw error => pushError "getHealthCheckScoreError" error st
  end.

Definition limitsPhase `{Coercions} (w : World) (st : Run) : Run :=
  assign (set_Limits (limitSummary (checkLimits w))) st.

Definition codePhase (w : World) (st : Run) : Run :=
  match codeSetup w with
  | Throw error => pushError "calculateLinesOfCodeError" error st
  | Ok _ =>
      match scannerResults w with
      | Throw error => pushError "calculateLinesOfCodeError" error st
      | Ok results =>
          match calculateCodeLines w with
          | Throw error => pushError "calculateLinesOfCodeError" error st
          | Ok codeLines =>
              let st' := assign (set_Code (codeAnalysis results codeLines)) st in
              match chdirBack w with
              | Throw error => pushError "calculateLinesOfCodeError" error st'
              | Ok _ => st'
              end
          end
      end
  end.

Section WithCoercions.
Context `{Coercions}.

(** The [Tests] fragment, once the poll of the job has returned. *)
Definition testSummary (w : World) (testRunId : string) : TestSummary :=
  let testResult := getTestRunDetails w testRunId in
  let orgWideApexCoverage := getOrgWideApexCoverage w in
  let orgWideFlowCoverage := getFlowCoveragePercentage w in
  let flowCoverageDetails := getFlowCoverageDetails w in
  let prop (p : TestRunDetails -> JsVal) :=
    match testResult with Some r => p r | None => VUndef end in
  {| ApexUnitTests := nullish_or (prop methodsCompleted) (VNum (Fin 0));
     TestDuration := nullish_or (prop runtime) (VNum (Fin 0));
     TestMethodsCompleted := nullish_or (prop methodsCompleted) (VNum (Fin 0));
     TestMethodsFailed := nullish_or (prop methodsFailed) (VNum (Fin 0));
     TestOutcome := match testResult with Some r => outcome r | None => "N/A" end;
     ApexCoverageTotal := nullish_or orgWideApexCoverage (VNum (Fin 0));
     ApexCoverageDetails := getApexClassCoverageDetails w;
     FlowCoverageTotal := orgWideFlowCoverage;
     FlowCoverageDetails := flowCoverageDetails |}.

(** The tests phase; [None] when the poll has not returned within [fuel]
    turns. *)
Definition testsPhase (fuel : nat) (w : World) (st : Run) : option Run :=
  match testRun w with
  | Throw error => Some (pushError "runApexTestsError" error st)
  | Ok _ =>
      match testRunId w with
      | None => Some st
      | Some id =>
          match pollTestRunResult fuel w id with
          | None => None
          | Some _ => Some (assign (set_Tests (testSummary w id)) st)
          end
      end
  end.

End WithCoercions.

Definition inventoryPhase (w : World) (selectedDataPoints : option (list string))
    (st : Run) : Run :=
  match selectedDataPoints with
  | Some (dataPoint :: rest) =>
      match queryDataPoints w (dataPoint :: rest) with
      | Ok queryResults =>
          assign (set_Metadata
                    (calculateComponentSummary (dataPoint :: rest) queryResults (errors st)))
                 st
      | Throw error => pushError "componentSummaryError" error st
      end
  | _ => st
  end.

(** [finish(orgSummaryDirectory, summarizedOrg, keepData, outputDirectory)]:
    the file written and the value of its text, if any. *)
Definition finish (w : World) (orgSummaryDirectory : string) (summarizedOrg : OrgSummary)
    (keepData : bool) (outputDirectory : option string)
    : result (option (string * Json)) :=
  _ <- (if keepData then Ok tt else cleanUpDirectory w) ;;
  if str_truthy outputDirectory then
    _ <- writeFileSync w ;;
    Ok (Some (orgSummaryDirectory +:+ "/orgsummary.json", jsonOfSummary summarizedOrg))
  else Ok None.

(** What a run that returns leaves: the summary returned, the error list it
    was decided on, and the file persisted. *)
Record RunResult := {
  summary : OrgSummary;
  runErrors : list ErrorItem;
  persisted : option (string * Json)
}.

Section Summarize.
Context `{Coercions}.
(** The default list of inventoried types ([src/data/DataPoints]). *)
Variable dataPoints : list string.

(** The summary that the phases start from: the caller's, or a new one. *)
Definition initialSummary (w : World) (orgSummary : option OrgSummary) : OrgSummary :=
  match orgSummary with
  | Some s => s
  | None => buildBaseSummary w (getOrgInfo w)
  end.

Definition selectDataPoints (fl : flags) : option (list string) :=
  match metadata fl with
  | Some "" => None
  | Some m => Some (split (Ascii.ascii_of_nat 44) m)
  | None => Some dataPoints
  end.

Definition directoryOf (w : World) (fl : flags) (base : OrgSummary) : string :=
  (if str_truthy (outputdirectory fl)
   then default "" (outputdirectory fl) else dirname w)
  +:+ "/" +:+ orgId (getOrgInfo w) +:+ "/" +:+ Timestamp base.

(** The five guarded blocks of [summarizeOrg], in their order. *)
Definition runPhases (fuel : nat) (w : World) (fl : flags) (st0 : Run) : option Run :=
  let st1 := if healthcheck fl then healthPhase w (targetusername fl) st0 else st0 in
  let st2 := if limits fl then limitsPhase w st1 else st1 in
  let st3 := if codeanalysis fl then codePhase w st2 else st2 in
  match (if tests fl then testsPhase fuel w st3 else Some st3) with
  | None => None
  | Some st4 => Some (inventoryPhase w (selectDataPoints fl) st4)
  end.

(** [summarizeOrg(flags, orgSummary)]: [None] while a poll is still running
    when the fuel is spent, [Some (Throw e)] when the call is rejected. *)
Definition summarizeOrg (fuel : nat) (w : World) (fl : flags)
    (orgSummary : option OrgSummary) : option (result RunResult) :=
  let base := initialSummary w orgSummary in
  let orgSummaryDirectory := directoryOf w fl base in
  match mkdirSync w with
  | Throw error => Some (Throw error)
  | Ok _ =>
      match runPhases fuel w fl (newRun base) with
      | None => None
      | Some st =>
          let final :=
            set_ResultState
              (if decide (0 < length (errors st)) then "Failure" else "Completed")
              (baseSummary st) in
          match finish w orgSummaryDirectory final (keepdata fl) (outputdirectory fl) with
          | Throw error => Some (Throw error)
          | Ok file =>
              Some (Ok {| summary := final; runErrors := errors st; persisted := file |})
          end
      end
  end.

End Summarize.

End Pipeline.
Export Pipeline.

(** ** Worked inputs

    An instance of the conversions for the examples (unsigned decimal strings,
    integers printed in decimal, other finite numbers as a fraction), and a
    world in which every collaborator answers, with nothing to report. *)

Module Examples.

Fixpoint digitsValue (s : string) (acc : Z) : option Z :=
  match s with
  | EmptyString => Some acc
  | String c rest =>
      let code := Z.of_nat (Ascii.nat_of_ascii c) in
      if ((48 <=? code) && (code <=? 57))%Z
      then digitsValue rest (10 * acc + (code - 48))%Z
      else None
  end.

#[global] Instance decimalCoercions : Coercions := {|
  string_to_number s :=
    match digitsValue s 0 with
    | Some z => Fin (inject_Z z)
    | None => NaN
    end;
  number_to_string n :=
    match n with
    | Fin q =>
        if Pos.eqb (Qden (Qred q)) 1 then pretty (Qnum (Qred q))
        else pretty (Qnum (Qred q)) +:+ "/" +:+ pretty (Zpos (Qden (Qred q)))
    | PosInf => "Infinity"
    | NegInf => "-Infinity"
    | NaN => "NaN"
    end
|}.

Definition someInfo : OrgInfo :=
  {| username := "admin@example.org"; accessToken := "00Dxx!token";
     instanceUrl := "https://example.my.salesforce.com"; orgId := "00Dxx0000001gPL" |}.

(** The error of reading [HCR.csv] in a directory made for the run. *)
Definition risksFileMissing : JsError :=
  mkError "ENOENT: no such file or directory, open 'HCR.csv'" None.

(** The world of the examples, in the answers that they vary. *)
Definition exampleWorldWith
    (flows : nat -> result (option (list FlowCoverageRecord)))
    (org : result OrgInfo)
    (limitsAnswer : result (list (string * option LimitInfo)))
    (status : string -> nat -> result (list CsvRow))
    (details : string -> result (list CsvRow))
    (orgWide : result (list CsvRow))
    (scanner : result (list CsvRow))
    (components : string -> result (list CsvRow)) : World :=
  {| now := "1700000000000";
     dirname := "/opt/summary";
     orgDisplay := org;
     mkdirSync := Ok tt;
     healthScoreQuery := Ok [];
     healthRisksQuery := Ok [];
     healthRisksStale := Throw risksFileMissing;
     limitsApi := limitsAnswer;
     codeSetup := Ok tt;
     scannerResults := scanner;
     sourceFiles := fun _ _ => Ok [];
     chdirBack := Ok tt;
     testRun := Ok tt;
     testRunId := Some "707xx0000000001";
     statusQuery := status;
     testRunDetailsQuery := details;
     orgWideCoverageQuery := orgWide;
     classCoverageQuery := Ok [];
     flowCoverage := flows;
     flowDefinitionViews := Ok (Some []);
     componentQuery := components;
     cleanUpDirectory := Ok tt;
     writeFileSync := Ok tt |}.

Definition exampleWorld := exampleWorldWith (fun _ => Ok (Some [])).

Definition quietWorld : World :=
  exampleWorld (Ok someInfo) (Ok []) (fun _ _ => Ok []) (fun _ => Ok [])
               (Ok []) (Ok []) (fun _ => Ok []).

Definition noFlags : flags :=
  {| outputdirectory := None; metadata := Some ""; keepdata := false;
     healthcheck := false; limits := false; codeanalysis := false;
     tests := false; targetusername := None |}.

(** The error of a command that exits with a failure, and the error of a
    file that cannot be read. *)
Definition commandFailed : JsError :=
  mkError "Command failed: sfdx data:query" (Some "ERROR running data:query: request timed out").

Definition fileMissing : JsError :=
  mkError "ENOENT: no such file or directory" None.

Definition healthFlags : flags :=
  {| outputdirectory := None; metadata := Some ""; keepdata := false;
     healthcheck := true; limits := false; codeanalysis := false;
     tests := false; targetusername := None |}.

Definition limitsFlags : flags :=
  {| outputdirectory := None; metadata := Some ""; keepdata := false;
     healthcheck := false; limits := true; codeanalysis := false;
     tests := false; targetusername := None |}.

Definition outputFlags : flags :=
  {| outputdirectory := Some "/srv/reports"; metadata := Some ""; keepdata := false;
     healthcheck := false; limits := false; codeanalysis := false;
     tests := false; targetusername := None |}.

(** The identity cannot be resolved. *)
Definition orgDownWorld : World :=
  exampleWorld (Throw commandFailed) (Ok []) (fun _ _ => Ok []) (fun _ => Ok [])
               (Ok []) (Ok []) (fun _ => Ok []).

(** The limits endpoint refuses the request. *)
Definition unauthorized : JsError :=
  mkError "Request failed with status code 401" None.

Definition limitsDownWorld : World :=
  exampleWorld (Ok someInfo) (Throw unauthorized)
               (fun _ _ => Ok []) (fun _ => Ok []) (Ok []) (Ok []) (fun _ => Ok []).

(** The flow coverage command fails; the test run itself completes. *)
Definition flowsDownWorld : World :=
  exampleWorldWith (fun _ => Throw commandFailed) (Ok someInfo) (Ok [])
                   (fun _ _ => Ok [ {[ "Status" := "Completed" ]} ])
                   (fun _ => Ok []) (Ok []) (Ok []) (fun _ => Ok []).

Definition testsFlags : flags :=
  {| outputdirectory := None; metadata := Some ""; keepdata := false;
     healthcheck := false; limits := false; codeanalysis := false;
     tests := true; targetusername := None |}.

Definition healthAndTestsFlags : flags :=
  {| outputdirectory := None; metadata := Some ""; keepdata := false;
     healthcheck := true; limits := false; codeanalysis := false;
     tests := true; targetusername := None |}.

(** Two entries of the limits payload, the second without [Remaining]. *)
Definition twoLimits : list (string * option LimitInfo) :=
  [ ("DailyApiRequests",
     Some {| info_Max := VNum (Fin 100); info_Remaining := VNum (Fin 40) |});
    ("DailyBulkApiBatches",
     Some {| info_Max := VNum (Fin 100); info_Remaining := VUndef |}) ].

Definition twoLimitsWorld : World :=
  exampleWorld (Ok someInfo) (Ok twoLimits)
               (fun _ _ => Ok []) (fun _ => Ok []) (Ok []) (Ok []) (fun _ => Ok []).

(** The status query fails at every tick; fails once, then sees the job
    completed. *)
Definition statusDownWorld : World :=
  exampleWorld (Ok someInfo) (Ok []) (fun _ _ => Throw commandFailed)
               (fun _ => Ok []) (Ok []) (Ok []) (fun _ => Ok []).

Definition statusRecoversWorld : World :=
  exampleWorld (Ok someInfo) (Ok [])
               (fun _ tick => if Nat.eqb tick 0 then Throw commandFailed
                              else Ok [ {[ "Status" := "Completed" ]} ])
               (fun _ => Ok []) (Ok []) (Ok []) (fun _ => Ok []).

(** The row of a test run that completed with no failed method, as parsed. *)
Definition completedRow : CsvRow :=
  {[ "Status" := "Completed"; "MethodsFailed" := "0";
     "MethodsCompleted" := "12"; "TestTime" := "3400" ]}.

Definition completedWorld : World :=
  exampleWorld (Ok someInfo) (Ok [])
               (fun _ _ => Ok [ {[ "Status" := "Completed" ]} ])
               (fun _ => Ok [completedRow]) (Ok []) (Ok []) (fun _ => Ok []).

(** Two rows of org-wide coverage. *)
Definition twoCoverageRowsWorld : World :=
  exampleWorld (Ok someInfo) (Ok []) (fun _ _ => Ok []) (fun _ => Ok [])
               (Ok [ {[ "PercentCovered" := "85" ]}; {[ "PercentCovered" := "90" ]} ])
               (Ok []) (fun _ => Ok []).

(** An inventory of two types, the second of which cannot be queried. *)
Definition unsupportedType : JsError :=
  mkError "Command failed: sfdx data:query"
          (Some "ERROR running data:query: sObject type 'Type2' is not supported.").

Definition type1Rows : list CsvRow :=
  [ {[ "LastModifiedDate" := "2024-01-03" ]};
    {[ "LastModifiedDate" := "2024-01-02" ]};
    {[ "LastModifiedDate" := "2024-01-01" ]} ].

Definition inventoryWorld : World :=
  exampleWorld (Ok someInfo) (Ok []) (fun _ _ => Ok []) (fun _ => Ok []) (Ok []) (Ok [])
    (fun dataPoint =>
       if String.eqb dataPoint "Type1" then Ok type1Rows else Throw unsupportedType).

Definition inventoryResults : gmap string (list CsvRow) :=
  {[ "Type1" := type1Rows; "Type2" := [] ]}.

Definition type1Summary : ComponentSummary :=
  {| cs_Total := 3; cs_LastModifiedDate := VStr "2024-01-03" |}.

Definition inventoryFlags : flags :=
  {| outputdirectory := None; metadata := Some "Type1,Type2"; keepdata := false;
     healthcheck := false; limits := false; codeanalysis := false;
     tests := false; targetusername := None |}.

(** A summary that an earlier run has returned. *)
Definition previousSummary : OrgSummary :=
  set_ResultState "Completed" (buildBaseSummary quietWorld someInfo).

End Examples.
Export Examples.

(** ** Notions used by the statements *)

Module Statements.

(** The entry that a phase adds for what its body throws. *)
Definition caught {A} (key : string) (body : result A) : list ErrorItem :=
  match body with
  | Ok _ => []
  | Throw error => [EPhase key (message error)]
  end.

(** The calls of the code phase, in order, none of which is caught below the
    phase. *)
Definition codeBody (w : World) : result unit :=
  _ <- codeSetup w ;;
  _ <- scannerResults w ;;
  _ <- calculateCodeLines w ;;
  chdirBack w.

(** The queries of the inventory phase. *)
Definition inventoryBody (w : World) (selected : option (list string))
    : result (gmap string (list CsvRow)) :=
  match selected with
  | Some (dataPoint :: rest) => queryDataPoints w (dataPoint :: rest)
  | _ => Ok ∅
  end.

(** The identity fields of a summary, which no phase assigns. *)
Definition identity (s : OrgSummary) : string * string * string * string :=
  (Timestamp s, OrgId s, OrgInstanceURL s, Username s).

(** The row that [checkLimits] keeps for an entry of the payload that has both
    [Max] and [Remaining]. *)
Definition retainedLimit `{Coercions} (entry : string * option LimitInfo) : option Limit :=
  match entry with
  | (key, Some limitInfo) =>
      if hasBoth limitInfo then
        Some {| Name := key; Description := "Description for " +:+ key;
                Max := info_Max limitInfo; Remaining := info_Remaining limitInfo;
                Usage := js_sub (info_Max limitInfo) (info_Remaining limitInfo) |}
      else None
  | (_, None) => None
  end.

End Statements.
Export Statements.

(** ** Text helpers: the run identifier and the scanner file

    A character of a string stands for one code unit below 256; the
    whitespace of [\s] and of [trim] in that range is TAB, LF, VT, FF, CR,
    SP and NBSP. *)

Module Text.

Definition code (c : Ascii.ascii) : nat := Ascii.nat_of_ascii c.

Definition isSpace (c : Ascii.ascii) : bool :=
  ((code c =? 9) || (code c =? 10) || (code c =? 11) || (code c =? 12)
   || (code c =? 13) || (code c =? 32) || (code c =? 160))%nat.

(** [[0-9A-Za-z]] *)
Definition isAlnum (c : Ascii.ascii) : bool :=
  (((48 <=? code c) && (code c <=? 57))
   || ((65 <=? code c) && (code c <=? 90))
   || ((97 <=? code c) && (code c <=? 122)))%nat.

(** [\s*], which takes all the whitespace there is. *)
Fixpoint skipSpaces (s : string) : string :=
  match s with
  | String c rest => if isSpace c then skipSpaces rest else s
  | EmptyString => s
  end.

(** [([0-9A-Za-z]{n})] at the start of [s]. *)
Fixpoint takeAlnum (n : nat) (s : string) : option string :=
  match n with
  | O => Some ""
  | S n' =>
      match s with
      | String c rest =>
          if isAlnum c then String c <$> takeAlnum n' rest else None
      | EmptyString => None
      end
  end.

(** The pattern [/-i\s*([0-9A-Za-z]{15})/] anchored at the start of [s], and
    its first match in [s]. *)
Definition matchRunIdAt (s : string) : option string :=
  match s with
  | String c1 (String c2 rest) =>
      if ((code c1 =? 45) && (code c2 =? 105))%nat
      then takeAlnum 15 (skipSpaces rest) else None
  | _ => None
  end.

Fixpoint matchRunId (s : string) : option string :=
  match matchRunIdAt s with
  | Some id => Some id
  | None =>
      match s with
      | String _ rest => matchRunId rest
      | EmptyString => None
      end
  end.

(** [extractTestRunId(jsonFilePath)], given what reading the file gives. *)
Definition extractTestRunId (file : result string) : option string :=
  match file with
  | Ok jsonData => matchRunId jsonData
  | Throw _ => None
  end.

(** The [replace] that deletes every double quote of a value, and the
    [trim()] that follows it. *)
Fixpoint removeQuotes (s : string) : string :=
  match s with
  | String c rest =>
      if (code c =? 34)%nat then removeQuotes rest else String c (removeQuotes rest)
  | EmptyString => EmptyString
  end.

Definition trim (s : string) : string :=
  String.rev (skipSpaces (String.rev (skipSpaces s))).

Definition clean (s : string) : string := trim (removeQuotes s).

Definition newline : Ascii.ascii := Ascii.ascii_of_nat 10.
Definition comma : Ascii.ascii := Ascii.ascii_of_nat 44.

(** [array[index]] as a value: [undefined] out of range. *)
Definition valueAt (values : list string) (index : nat) : JsVal :=
  match values !! index with
  | Some v => VStr v
  | None => VUndef
  end.

(** The object that [readCsvFile] makes of one line:
    [headerNames.forEach((header, index) => result[header] = newValues[index])].
    The value assigned is a string or [undefined]: under the key [__proto__]
    the assignment does nothing, and under any other key it sets an own
    property. *)
Definition csvRecord (headerNames : list string) (line : string) : gmap string JsVal :=
  let newValues := map clean (split comma line) in
  fold_left (fun result entry =>
               if String.eqb entry.2 "__proto__" then result
               else <[entry.2 := valueAt newValues entry.1]> result)
            (imap (fun index header => (index, header)) headerNames) ∅.

(** [readCsvFile(filePath)], given what reading the file gives. *)
Definition readCsvFile (file : result string) : result (list (gmap string JsVal)) :=
  fileContent <- file ;;
  match split newline fileContent with
  | first :: lines =>
      let headerNames := map clean (split comma first) in
      Ok (map (csvRecord headerNames) lines)
  | [] => Ok []
  end.

(** [filterApexResults] and [filterJavaScriptResults], on the [Extension] of
    a preprocessed result. *)
Definition filterApexResults (preprocessedResults : list (gmap string JsVal))
    : list (gmap string JsVal) :=
  filter (fun r => strict_eq (default VUndef (r !! "Extension")) (VStr "cls")
                   || strict_eq (default VUndef (r !! "Extension")) (VStr "trigger") = true)
         preprocessedResults.

Definition filterJavaScriptResults (preprocessedResults : list (gmap string JsVal))
    : list (gmap string JsVal) :=
  filter (fun r => strict_eq (default VUndef (r !! "Extension")) (VStr "js") = true)
         preprocessedResults.

End Text.
Export Text.

(** ** Upload of a summary ([uploadSummary])

    The connection answers each [create] in turn; the records whose creation
    it has acknowledged are threaded as a trace.  An error thrown anywhere in
    the [try] block is logged and thrown again. *)

Module Upload.

(** A field of a record to create: a value, or [new Date(source)]. *)
Inductive FieldValue : Type :=
| FVal (v : JsVal)
| FDate (source : JsVal).

Definition SRecord : Type := list (string * FieldValue).

Definition Created : Type := string * SRecord.

Record UploadSummaryResult := {
  id : string;
  success : bool
}.

Record Connection := {
  (** [conn.sobject(name).create(record)], at the n-th acknowledged create *)
  create : nat -> string -> SRecord -> result UploadSummaryResult;
  (** [fs.readFileSync(path)] and [JSON.parse]: the summary of a file, [None]
      for a content that parses to a falsy value *)
  readSummary : string -> result (option OrgSummary);
  (** [new Date(parseInt(timestamp, 10)).toISOString()] *)
  isoDate : string -> result string
}.

(** A step of the upload: from the trace so far to the trace after it and
    what the step returns or throws. *)
Definition Step (A : Type) : Type := list Created -> list Created * result A.

Definition pure {A} (a : A) : Step A := fun trace => (trace, Ok a).

Definition raise {A} (e : JsError) : Step A := fun trace => (trace, Throw e).

Definition lift {A} (r : result A) : Step A := fun trace => (trace, r).

Definition andThen {A B} (m : Step A) (k : A -> Step B) : Step B :=
  fun trace =>
    match m trace with
    | (trace', Ok a) => k a trace'
    | (trace', Throw e) => (trace', Throw e)
    end.

Definition createRecord (c : Connection) (sobject : string) (record : SRecord)
    : Step UploadSummaryResult :=
  fun trace =>
    match create c (length trace) sobject record with
    | Ok res => (trace ++ [(sobject, record)], Ok res)
    | Throw e => (trace, Throw e)
    end.

(** [if (fragment) { await conn.sobject(name).create(record) }] *)
Definition createIf {A} (c : Connection) (fragment : option A) (sobject : string)
    (record : A -> SRecord) : Step unit :=
  match fragment with
  | Some f => andThen (createRecord c sobject (record f)) (fun _ => pure tt)
  | None => pure tt
  end.

Definition fnat (n : nat) : FieldValue := FVal (VNum (num_of_nat n)).

Definition invalidSummary : JsError :=
  mkError "Invalid or missing OrgSummary provided." None.

Definition orgSummaryRecord (s : OrgSummary) (formattedDateOfSummary : string) : SRecord :=
  [ ("Id__c", FVal (VStr (OrgId s +:+ "-" +:+ Timestamp s)));
    ("OrgId__c", FVal (VStr (OrgId s)));
    ("OrgInstanceURL__c", FVal (VStr (OrgInstanceURL s)));
    ("Timestamp__c", FVal (VStr (Timestamp s)));
    ("Username__c", FVal (VStr (Username s)));
    ("DateOfSummary__c", FVal (VStr formattedDateOfSummary)) ].

Definition healthCheckRecord (parent : string) (h : HealthCheckSummary) : SRecord :=
  [ ("OrgSummary__c", FVal (VStr parent));
    ("Score__c", FVal (Score h));
    ("Criteria__c", fnat (Criteria h));
    ("Risks__c", fnat (hc_Risks h));
    ("Compliant__c", fnat (Compliant h)) ].

Definition codeSummaryRecord (parent : string) (c : CodeAnalysis) : SRecord :=
  [ ("OrgSummary__c", FVal (VStr parent));
    ("LinesOfCode__c", fnat (code_LinesOfCode c));
    ("Risks__c", fnat (Risks c));
    ("RisksPerLineRatio__c", FVal (VNum (RisksPerLineRatio c))) ].

Definition testSummaryRecord (parent : string) (t : TestSummary) : SRecord :=
  [ ("OrgSummary__c", FVal (VStr parent));
    ("ApexUnitTests__c", FVal (ApexUnitTests t));
    ("TestDuration__c", FVal (TestDuration t));
    ("TestMethodsCompleted__c", FVal (TestMethodsCompleted t));
    ("TestMethodsFailed__c", FVal (TestMethodsFailed t)) ].

Definition limitSummaryRecord (parent : string) (l : LimitSummary) : SRecord :=
  [ ("OrgSummary__c", FVal (VStr parent));
    ("Applicable__c", fnat (Applicable l));
    ("Reached__c", fnat (Reached l));
    ("Unattained__c", fnat (Unattained l)) ].

Definition metadataSummaryRecord (parent : string) : SRecord :=
  [ ("OrgSummary__c", FVal (VStr parent)) ].

Definition metadataComponentRecord (metadataSummary : string)
    (entry : string * ComponentSummary) : SRecord :=
  [ ("Name", FVal (VStr entry.1));
    ("Metadata__c", FVal (VStr metadataSummary));
    ("Total__c", fnat (cs_Total entry.2));
    ("Last_Modified__c", FDate (cs_LastModifiedDate entry.2)) ].

(** The loop over [Object.keys(orgSummary.Metadata)]; the read of
    [orgSummary.Metadata[metadataType]] finds the own property of that key. *)
Fixpoint createComponents (c : Connection) (metadataSummary : string)
    (metadata : JsObj ComponentSummary) (metadataTypes : list string) : Step unit :=
  match metadataTypes with
  | [] => pure tt
  | metadataType :: rest =>
      match metadata !! metadataType with
      | Some metadataTypeDetails =>
          andThen (createRecord c "Metadata_Component__c"
                     (metadataComponentRecord metadataSummary
                        (metadataType, metadataTypeDetails)))
                  (fun _ => createComponents c metadataSummary metadata rest)
      | None => raise (typeError "Total")
      end
  end.

(** The block of the [Metadata] fragment. *)
Definition createMetadata (c : Connection) (parent : string)
    (fragment : option (JsObj ComponentSummary)) : Step unit :=
  match fragment with
  | Some metadata =>
      andThen (createRecord c "MetadataSummary__c" (metadataSummaryRecord parent))
              (fun metadataSummaryResult =>
                 createComponents c (id metadataSummaryResult) metadata (ownKeys metadata))
  | None => pure tt
  end.

(** The creates that follow the parent record, whose answer is [res]. *)
Definition createChildren (c : Connection) (s : OrgSummary) (res : UploadSummaryResult)
    : Step UploadSummaryResult :=
  andThen (createIf c (HealthCheck s) "HealthCheckSummary__c" (healthCheckRecord (id res)))
          (fun _ =>
  andThen (createIf c (CodeFragment s) "CodeSummary__c" (codeSummaryRecord (id res)))
          (fun _ =>
  andThen (createIf c (Tests s) "TestsSummary__c" (testSummaryRecord (id res)))
          (fun _ =>
  andThen (createIf c (Limits s) "LimitsSummary__c" (limitSummaryRecord (id res)))
          (fun _ =>
  andThen (createMetadata c (id res) (Metadata s))
          (fun _ => pure res))))).

(** The creates that follow the validation, for a summary [s]. *)
Definition createAll (c : Connection) (s : OrgSummary) : Step UploadSummaryResult :=
  andThen (lift (isoDate c (Timestamp s))) (fun formattedDateOfSummary =>
  andThen (createRecord c "OrgSummary__c" (orgSummaryRecord s formattedDateOfSummary))
          (createChildren c s)).

(** [uploadSummary(orgSummary, orgAlias)], for a summary or the path of its
    file: the records created and the result returned or the error thrown. *)
Definition uploadSummary (c : Connection) (orgSummary : OrgSummary + string)
    : list Created * result UploadSummaryResult :=
  andThen
    (match orgSummary with
     | inl s => pure (Some s)
     | inr summaryFilePath => lift (readSummary c summaryFilePath)
     end)
    (fun parsed =>
       match parsed with
       | None => raise invalidSummary
       | Some s =>
           if String.eqb (OrgId s) "" then raise invalidSummary
           else createAll c s
       end)
    [].

End Upload.
Export Upload.

(** ** Further notions used by the statements *)

Module Notions.

(** The status that the poller holds after [n] turns. *)
Fixpoint statusAfter (w : World) (jobId : string) (n : nat) : JsVal :=
  match n with
  | O => VStr "Queued"
  | S n' => pollTick w jobId n' (statusAfter w jobId n')
  end.

(** The number of occurrences of a character in a string. *)
Fixpoint occurrences (c : Ascii.ascii) (s : string) : nat :=
  match s with
  | EmptyString => 0
  | String c' rest => (if Ascii.eqb c' c then 1 else 0) + occurrences c rest
  end.

Definition allChars (p : Ascii.ascii -> bool) (s : string) : bool :=
  forallb p (String.list_ascii_of_string s).

(** The number of records that the upload of a summary asks for. *)
Definition present {A} (o : option A) : nat :=
  match o with
  | Some _ => 1
  | None => 0
  end.

Definition recordCount (s : OrgSummary) : nat :=
  1 + present (HealthCheck s) + present (CodeFragment s) + present (Tests s)
  + present (Limits s)
  + match Metadata s with
    | Some m => 1 + length (ownKeys m)
    | None => 0
    end.

(** The records of a trace that hang directly from the parent record. *)
Definition isChildOfSummary (sobject : string) : bool :=
  String.eqb sobject "HealthCheckSummary__c" || String.eqb sobject "CodeSummary__c"
  || String.eqb sobject "TestsSummary__c" || String.eqb sobject "LimitsSummary__c"
  || String.eqb sobject "MetadataSummary__c".

Definition fieldOf (record : SRecord) (name : string) : option FieldValue :=
  snd <$> find (fun entry => String.eqb (fst entry) name) record.

(** The fragment that a phase leaves: the one of the summary it started
    from, unless the phase is selected and assigns its own. *)
Definition keepUnless {A} (selected : bool) (assigned : option A) (before : option A)
    : option A :=
  if selected then
    match assigned with
    | Some a => Some a
    | None => before
    end
  else before.

Definition okValue {A} (r : result A) : option A :=
  match r with
  | Ok a => Some a
  | Throw _ => None
  end.

(** The code fragment is assigned before the working directory is restored. *)
Definition codeAssigned (w : World) : option CodeAnalysis :=
  match codeSetup w, scannerResults w, calculateCodeLines w with
  | Ok _, Ok results, Ok codeLines => Some (codeAnalysis results codeLines)
  | _, _, _ => None
  end.

Definition testsAssigned `{Coercions} (w : World) : option TestSummary :=
  match testRun w, testRunId w with
  | Ok _, Some testRunId => Some (testSummary w testRunId)
  | _, _ => None
  end.

Definition metadataAssigned (w : World) (selected : option (list string))
    : option (JsObj ComponentSummary) :=
  match selected with
  | Some (dataPoint :: rest) =>
      match queryDataPoints w (dataPoint :: rest) with
      | Ok queryResults => Some (calculateComponentSummary (dataPoint :: rest) queryResults [])
      | Throw _ => None
      end
  | _ => None
  end.

(** An error list in which no entry names an inventoried type. *)
Definition namesNoDataPoint (errs : list ErrorItem) : Prop :=
  forall dp, existsb (error_on_dataPoint dp) errs = false.

(** The five fragments of a summary. *)
Definition fragments (s : OrgSummary) :=
  (HealthCheck s, Limits s, CodeFragment s, Tests s, Metadata s).

(** A record that follows the parent record: a child that names it, or a
    component of the inventory. *)
Definition linked (parent : string) (created : Created) : Prop :=
  (isChildOfSummary created.1 = true
   /\ fieldOf created.2 "OrgSummary__c" = Some (FVal (VStr parent)))
  \/ created.1 = "Metadata_Component__c".

(** A step that only appends records satisfying [P] to the trace: [n] of
    them when it returns, fewer when it throws, and then the error is the
    one of the create that follows the trace. *)
Definition appends {A} (c : Connection) (P : Created -> Prop) (n : nat) (m : Step A)
    : Prop :=
  forall trace, exists added,
    (m trace).1 = trace ++ added
    /\ Forall P added
    /\ match (m trace).2 with
       | Ok _ => length added = n
       | Throw e =>
           length added < n
           /\ exists sobject record,
                create c (length (trace ++ added)) sobject record = Throw e
       end.

(** The records of the components of an inventory, for its types in a given
    order. *)
Definition componentRecords (metadataSummary : string)
    (metadata : JsObj ComponentSummary) (metadataTypes : list string) : list Created :=
  omap (fun metadataType =>
          (fun details =>
             ("Metadata_Component__c",
              metadataComponentRecord metadataSummary (metadataType, details)))
          <$> metadata !! metadataType)
       metadataTypes.

End Notions.
Export Notions.

(** ** Further worked inputs *)

Module Cases.

(** A world that differs from [w] in the answers of one phase. *)
Definition withHealth (score risks stale : result (list CsvRow)) (w : World) : World :=
  {| now := now w; dirname := dirname w; orgDisplay := orgDisplay w;
     mkdirSync := mkdirSync w; healthScoreQuery := score; healthRisksQuery := risks;
     healthRisksStale := stale;
     limitsApi := limitsApi w; codeSetup := codeSetup w;
     scannerResults := scannerResults w; sourceFiles := sourceFiles w;
     chdirBack := chdirBack w; testRun := testRun w; testRunId := testRunId w;
     statusQuery := statusQuery w; testRunDetailsQuery := testRunDetailsQuery w;
     orgWideCoverageQuery := orgWideCoverageQuery w;
     classCoverageQuery := classCoverageQuery w; flowCoverage := flowCoverage w;
     flowDefinitionViews := flowDefinitionViews w; componentQuery := componentQuery w;
     cleanUpDirectory := cleanUpDirectory w; writeFileSync := writeFileSync w |}.

Definition withCode (setup : result unit) (scanner : result (list CsvRow))
    (files : string -> string -> result (list FileStat)) (back : result unit)
    (w : World) : World :=
  {| now := now w; dirname := dirname w; orgDisplay := orgDisplay w;
     mkdirSync := mkdirSync w; healthScoreQuery := healthScoreQuery w;
     healthRisksQuery := healthRisksQuery w;
     healthRisksStale := healthRisksStale w; limitsApi := limitsApi w; codeSetup := setup;
     scannerResults := scanner; sourceFiles := files; chdirBack := back;
     testRun := testRun w; testRunId := testRunId w; statusQuery := statusQuery w;
     testRunDetailsQuery := testRunDetailsQuery w;
     orgWideCoverageQuery := orgWideCoverageQuery w;
     classCoverageQuery := classCoverageQuery w; flowCoverage := flowCoverage w;
     flowDefinitionViews := flowDefinitionViews w; componentQuery := componentQuery w;
     cleanUpDirectory := cleanUpDirectory w; writeFileSync := writeFileSync w |}.

Definition withFlows (flows : nat -> result (option (list FlowCoverageRecord)))
    (views : result (option (list FlowDefinitionViewRecord))) (w : World) : World :=
  {| now := now w; dirname := dirname w; orgDisplay := orgDisplay w;
     mkdirSync := mkdirSync w; healthScoreQuery := healthScoreQuery w;
     healthRisksQuery := healthRisksQuery w;
     healthRisksStale := healthRisksStale w; limitsApi := limitsApi w;
     codeSetup := codeSetup w; scannerResults := scannerResults w;
     sourceFiles := sourceFiles w; chdirBack := chdirBack w; testRun := testRun w;
     testRunId := testRunId w; statusQuery := statusQuery w;
     testRunDetailsQuery := testRunDetailsQuery w;
     orgWideCoverageQuery := orgWideCoverageQuery w;
     classCoverageQuery := classCoverageQuery w; flowCoverage := flows;
     flowDefinitionViews := views; componentQuery := componentQuery w;
     cleanUpDirectory := cleanUpDirectory w; writeFileSync := writeFileSync w |}.

Definition withTestRun (submission : result unit) (runId : option string) (w : World)
    : World :=
  {| now := now w; dirname := dirname w; orgDisplay := orgDisplay w;
     mkdirSync := mkdirSync w; healthScoreQuery := healthScoreQuery w;
     healthRisksQuery := healthRisksQuery w;
     healthRisksStale := healthRisksStale w; limitsApi := limitsApi w;
     codeSetup := codeSetup w; scannerResults := scannerResults w;
     sourceFiles := sourceFiles w; chdirBack := chdirBack w; testRun := submission;
     testRunId := runId; statusQuery := statusQuery w;
     testRunDetailsQuery := testRunDetailsQuery w;
     orgWideCoverageQuery := orgWideCoverageQuery w;
     classCoverageQuery := classCoverageQuery w; flowCoverage := flowCoverage w;
     flowDefinitionViews := flowDefinitionViews w; componentQuery := componentQuery w;
     cleanUpDirectory := cleanUpDirectory w; writeFileSync := writeFileSync w |}.

Definition withMkdir (made : result unit) (w : World) : World :=
  {| now := now w; dirname := dirname w; orgDisplay := orgDisplay w; mkdirSync := made;
     healthScoreQuery := healthScoreQuery w; healthRisksQuery := healthRisksQuery w;
     healthRisksStale := healthRisksStale w;
     limitsApi := limitsApi w; codeSetup := codeSetup w;
     scannerResults := scannerResults w; sourceFiles := sourceFiles w;
     chdirBack := chdirBack w; testRun := testRun w; testRunId := testRunId w;
     statusQuery := statusQuery w; testRunDetailsQuery := testRunDetailsQuery w;
     orgWideCoverageQuery := orgWideCoverageQuery w;
     classCoverageQuery := classCoverageQuery w; flowCoverage := flowCoverage w;
     flowDefinitionViews := flowDefinitionViews w; componentQuery := componentQuery w;
     cleanUpDirectory := cleanUpDirectory w; writeFileSync := writeFileSync w |}.

Definition withClassCoverage (coverage : result (list CsvRow)) (w : World) : World :=
  {| now := now w; dirname := dirname w; orgDisplay := orgDisplay w;
     mkdirSync := mkdirSync w; healthScoreQuery := healthScoreQuery w;
     healthRisksQuery := healthRisksQuery w;
     healthRisksStale := healthRisksStale w; limitsApi := limitsApi w;
     codeSetup := codeSetup w; scannerResults := scannerResults w;
     sourceFiles := sourceFiles w; chdirBack := chdirBack w; testRun := testRun w;
     testRunId := testRunId w; statusQuery := statusQuery w;
     testRunDetailsQuery := testRunDetailsQuery w;
     orgWideCoverageQuery := orgWideCoverageQuery w; classCoverageQuery := coverage;
     flowCoverage := flowCoverage w; flowDefinitionViews := flowDefinitionViews w;
     componentQuery := componentQuery w; cleanUpDirectory := cleanUpDirectory w;
     writeFileSync := writeFileSync w |}.

Definition withFinish (cleaned written : result unit) (w : World) : World :=
  {| now := now w; dirname := dirname w; orgDisplay := orgDisplay w;
     mkdirSync := mkdirSync w; healthScoreQuery := healthScoreQuery w;
     healthRisksQuery := healthRisksQuery w;
     healthRisksStale := healthRisksStale w; limitsApi := limitsApi w;
     codeSetup := codeSetup w; scannerResults := scannerResults w;
     sourceFiles := sourceFiles w; chdirBack := chdirBack w; testRun := testRun w;
     testRunId := testRunId w; statusQuery := statusQuery w;
     testRunDetailsQuery := testRunDetailsQuery w;
     orgWideCoverageQuery := orgWideCoverageQuery w;
     classCoverageQuery := classCoverageQuery w; flowCoverage := flowCoverage w;
     flowDefinitionViews := flowDefinitionViews w; componentQuery := componentQuery w;
     cleanUpDirectory := cleaned; writeFileSync := written |}.

(** The identity cannot be resolved; the test run completes at the first
    query of its status. *)
Definition orgDownTestsWorld : World :=
  exampleWorld (Throw commandFailed) (Ok [])
               (fun _ _ => Ok [ {[ "Status" := "Completed" ]} ])
               (fun _ => Ok []) (Ok []) (Ok []) (fun _ => Ok []).

Definition outputTestsFlags : flags :=
  {| outputdirectory := Some "/srv/reports"; metadata := Some ""; keepdata := false;
     healthcheck := false; limits := false; codeanalysis := false;
     tests := true; targetusername := None |}.

(** The output directory is given relative to the directory the process was
    started in, and the code phase throws after [process.chdir] has moved the
    process into the directory of the run: [finish] resolves the same
    relative path from there, and [readdirSync] finds no such directory. *)
Definition noSuchDirectory : JsError :=
  mkError "ENOENT: no such file or directory, scandir 'reports/00Dxx0000001gPL/1700000000000'"
          None.

Definition movedWorld : World :=
  withFinish (Throw noSuchDirectory) (Throw noSuchDirectory)
             (withCode (Throw commandFailed) (Ok []) (fun _ _ => Ok []) (Ok tt) quietWorld).

Definition relativeCodeFlags : flags :=
  {| outputdirectory := Some "reports"; metadata := Some ""; keepdata := false;
     healthcheck := false; limits := false; codeanalysis := true;
     tests := false; targetusername := None |}.

(** A selected type named [__proto__], whose query answers one row. *)
Definition protoRow : CsvRow := {[ "LastModifiedDate" := "2024-02-01" ]}.

Definition protoWorld : World :=
  exampleWorld (Ok someInfo) (Ok []) (fun _ _ => Ok []) (fun _ => Ok []) (Ok []) (Ok [])
               (fun _ => Ok [protoRow]).

Definition protoFlags : flags :=
  {| outputdirectory := None; metadata := Some "__proto__"; keepdata := false;
     healthcheck := false; limits := false; codeanalysis := false;
     tests := false; targetusername := None |}.

(** The code analysis, with an output directory. *)
Definition outputCodeFlags : flags :=
  {| outputdirectory := Some "/srv/reports"; metadata := Some ""; keepdata := false;
     healthcheck := false; limits := false; codeanalysis := true;
     tests := false; targetusername := None |}.

(** Coverage of two classes, the second without a name. *)
Definition classCoverageRows : list CsvRow :=
  [ {[ "ApexClassOrTrigger.Name" := "AccountService"; "NumLinesCovered" := "30";
       "NumLinesUncovered" := "10" ]};
    {[ "ApexClassOrTrigger.Name" := ""; "NumLinesCovered" := "0";
       "NumLinesUncovered" := "0" ]} ].

Definition classCoverageWorld : World := withClassCoverage (Ok classCoverageRows) quietWorld.

(** The coverage of a class of five lines, all of them covered. *)
Definition fullyCoveredRow : CsvRow :=
  {[ "ApexClassOrTrigger.Name" := "InvoiceService"; "NumLinesCovered" := "5";
     "NumLinesUncovered" := "0" ]}.

Definition fullyCoveredWorld : World := withClassCoverage (Ok [fullyCoveredRow]) quietWorld.

(** A health check of three criteria, one of which meets the standard. *)
Definition healthWorld : World :=
  withHealth (Ok [ {[ "Score" := "87" ]} ])
             (Ok [ {[ "RiskType" := "HIGH_RISK"; "Setting" := "Password length" ]};
                   {[ "RiskType" := "MEETS_STANDARD"; "Setting" := "Session timeout" ]};
                   {[ "RiskType" := "MEDIUM_RISK"; "Setting" := "Clickjack protection" ]} ])
             (Throw risksFileMissing)
             quietWorld.

(** The health check of an org that is named, and of the default org. *)
Definition namedHealthFlags : flags :=
  {| outputdirectory := None; metadata := Some ""; keepdata := false;
     healthcheck := true; limits := false; codeanalysis := false;
     tests := false; targetusername := Some "admin@example.org" |}.

(** Two flows with coverage, one without elements, and one without a
    coverage record. *)
Definition flowRecords : list FlowCoverageRecord :=
  [ {| FlowVersionId := VStr "301xx0000000001"; NumElementsCovered := VNum (Fin 1);
       NumElementsNotCovered := VNum (Fin 2) |};
    {| FlowVersionId := VStr "301xx0000000002"; NumElementsCovered := VNum (Fin 0);
       NumElementsNotCovered := VNum (Fin 0) |} ].

Definition flowViews : list FlowDefinitionViewRecord :=
  [ {| ActiveVersionId := VStr "301xx0000000001"; Label := VStr "Lead routing" |};
    {| ActiveVersionId := VStr "301xx0000000002"; Label := VStr "Empty flow" |};
    {| ActiveVersionId := VStr "301xx0000000003"; Label := VStr "Case escalation" |} ].

Definition flowsWorld : World :=
  withFlows (fun _ => Ok (Some flowRecords)) (Ok (Some flowViews)) quietWorld.

(** Source files: two classes, one of them with more comment matches than
    lines that are not blank, and nothing else. *)
Definition classFiles : list FileStat :=
  [ {| nonBlankLines := 40; commentMatches := 6 |};
    {| nonBlankLines := 2; commentMatches := 5 |} ].

Definition commentedFiles : list FileStat :=
  [ {| nonBlankLines := 1; commentMatches := 4 |} ].

Definition filesOf (directory extension : string) : result (list FileStat) :=
  if String.eqb extension ".cls" then Ok classFiles
  else if String.eqb extension ".trigger" then Ok commentedFiles
  else Ok [].

Definition codeWorld : World :=
  withCode (Ok tt) (Ok [ {[ "Extension" := "cls" ]} ]) filesOf (Ok tt) quietWorld.

(** The code phase assigns its fragment, then fails to go back to the
    directory it started from. *)
Definition noWayBack : JsError :=
  mkError "ENOENT: no such file or directory, chdir" None.

Definition strandedWorld : World :=
  withCode (Ok tt) (Ok [ {[ "Extension" := "cls" ]} ]) filesOf (Throw noWayBack) quietWorld.

Definition codeFlags : flags :=
  {| outputdirectory := None; metadata := Some ""; keepdata := false;
     healthcheck := false; limits := false; codeanalysis := true;
     tests := false; targetusername := None |}.

(** The test run is submitted, and its output names no run. *)
Definition noRunIdWorld : World := withTestRun (Ok tt) None quietWorld.

(** The directory of the run cannot be made. *)
Definition readOnly : JsError :=
  mkError "EROFS: read-only file system, mkdir" None.

Definition readOnlyWorld : World := withMkdir (Throw readOnly) quietWorld.

(** The first row of the status query has no [Status] column. *)
Definition noStatusWorld : World :=
  exampleWorld (Ok someInfo) (Ok []) (fun _ _ => Ok [ {[ "Id" := "707xx0000000001" ]} ])
               (fun _ => Ok []) (Ok []) (Ok []) (fun _ => Ok []).

(** The output of the test command, and a scanner file of two rows. *)
Definition testOutput : string :=
  "Run sfdx force:apex:test:report -i 707xx0000000001 to retrieve test results.".

Definition scannerFile : string :=
  String.concat (String newline "")
    [ "Problem,Severity,File,Extension";
      "1,3,/force-app/main/default/classes/A.cls,cls";
      "2,2,/force-app/main/default/lwc/b/b.js,js" ].

Definition scannerRows : list (gmap string JsVal) :=
  [ {[ "Problem" := VStr "1"; "Severity" := VStr "3";
       "File" := VStr "/force-app/main/default/classes/A.cls"; "Extension" := VStr "cls" ]};
    {[ "Problem" := VStr "2"; "Severity" := VStr "2";
       "File" := VStr "/force-app/main/default/lwc/b/b.js"; "Extension" := VStr "js" ]} ].

Definition secondScannerRow : gmap string JsVal :=
  {[ "Problem" := VStr "2"; "Severity" := VStr "2";
     "File" := VStr "/force-app/main/default/lwc/b/b.js"; "Extension" := VStr "js" ]}.

(** A connection that acknowledges every create, and one that refuses the
    third. *)
Definition acknowledge (n : nat) : UploadSummaryResult :=
  {| id := "a0Bxx00000000" +:+ pretty n; success := true |}.

Definition acceptingConnection : Connection :=
  {| create := fun n _ _ => Ok (acknowledge n);
     readSummary := fun _ => Throw fileMissing;
     isoDate := fun _ => Ok "2023-11-14T22:13:20.000Z" |}.

Definition storageLimit : JsError :=
  mkError "STORAGE_LIMIT_EXCEEDED: storage limit exceeded" None.

Definition refusingConnection : Connection :=
  {| create := fun n _ _ => if Nat.eqb n 2 then Throw storageLimit else Ok (acknowledge n);
     readSummary := fun _ => Throw fileMissing;
     isoDate := fun _ => Ok "2023-11-14T22:13:20.000Z" |}.

(** A summary with limits and an inventory of two types. *)
Definition uploadedSummary : OrgSummary :=
  set_Metadata
    (<["ApexClass" := {| cs_Total := 12; cs_LastModifiedDate := VStr "2024-01-03" |}]>
       (<["Flow" := {| cs_Total := 4; cs_LastModifiedDate := VStr "2024-02-11" |}]> ∅))
    (set_Limits (limitSummary (checkLimits twoLimitsWorld))
       (set_ResultState "Completed" (buildBaseSummary quietWorld someInfo))).

End Cases.
Export Cases.

(** * Properties *)

(** ** Rounding *)

Lemma roundHalfEven_le (x : Q) (K : Z) : (x <= inject_Z K)%Q -> (roundHalfEven x <= K)%Z.
Proof.
  intros Hx. unfold roundHalfEven.
  pose proof (Qfloor_le x) as Hfloor.
  assert (Qfloor x <= K)%Z as Hle.
  { rewrite <- (Qfloor_Z K). by apply Qfloor_resp_le. }
  assert ((1 # 2 <= x - inject_Z (Qfloor x))%Q -> (Qfloor x + 1 <= K)%Z) as Hup.
  { intros Hhalf. assert (inject_Z (Qfloor x) < inject_Z K)%Q as Hlt by lra.
    rewrite <- Zlt_Qlt in Hlt. lia. }
  destruct (Qcompare_spec (x - inject_Z (Qfloor x)) (1 # 2)) as [Heq|Hlt|Hgt].
  - destruct (Z.even (Qfloor x)); [assumption|]. apply Hup. rewrite Heq. apply Qle_refl.
  - assumption.
  - apply Hup. by apply Qlt_le_weak.
Qed.

Lemma roundHalfEven_ge (x : Q) (K : Z) : (inject_Z K <= x)%Q -> (K <= roundHalfEven x)%Z.
Proof.
  intros Hx. unfold roundHalfEven.
  assert (K <= Qfloor x)%Z as Hle.
  { rewrite <- (Qfloor_Z K). by apply Qfloor_resp_le. }
  destruct (Qcompare (x - inject_Z (Qfloor x)) (1 # 2)); [|lia|lia].
  destruct (Z.even (Qfloor x)); lia.
Qed.

Lemma pow2_nonpos (k : Z) : (k <= 0)%Z -> exists D : positive, pow2 k = (1 # D)%Q.
Proof.
  destruct k as [|p|p]; intros Hk; [by exists 1%positive|lia|]. by eexists.
Qed.

Lemma floorLog2_small (a : Q) : (0 < a)%Q -> (a < inject_Z (2 ^ 53))%Q -> (floorLog2 a <= 52)%Z.
Proof.
  intros Hpos Hlt. unfold floorLog2.
  set (k := (Z.log2 (Qnum a) - Z.log2 (Z.pos (Qden a)))%Z).
  assert (k <= 53)%Z as Hk.
  { destruct a as [n d]. unfold Qlt in Hpos, Hlt. cbn [Qnum Qden inject_Z] in *.
    subst k. cbn [Qnum Qden].
    assert (0 < n)%Z as Hn by lia.
    assert (n < 2 ^ 53 * Z.pos d)%Z as Hnd by lia.
    pose proof (Z.log2_spec (Z.pos d) ltac:(lia)) as [_ Hd].
    assert (n < 2 ^ (54 + Z.log2 (Z.pos d)))%Z as Hbound.
    { rewrite Z.pow_add_r by (pose proof (Z.log2_nonneg (Z.pos d)); lia).
      replace (2 ^ 54)%Z with (2 ^ 53 * 2)%Z by reflexivity.
      replace (Z.succ (Z.log2 (Z.pos d))) with (Z.log2 (Z.pos d) + 1)%Z in Hd by lia.
      rewrite Z.pow_add_r in Hd by (pose proof (Z.log2_nonneg (Z.pos d)); lia).
      nia. }
    apply Z.log2_lt_pow2 in Hbound; [lia|assumption]. }
  destruct (Qle_bool (pow2 k) a) eqn:E; [|lia].
  apply Qle_bool_iff in E.
  destruct (Z_le_gt_dec k 52) as [|Hbig]; [assumption|].
  assert (k = 53)%Z as -> by lia.
  exfalso. change (pow2 53) with (inject_Z (2 ^ 53)) in E. lra.
Qed.

Lemma scaled_integer (K : Z) (D : positive) :
  (inject_Z (K * Z.pos D) * (1 # D) == inject_Z K)%Q.
Proof. unfold Qeq. cbn. lia. Qed.

(** Between two integers below 2^53, rounding stays between them. *)
Lemma nearest64_between (a : Q) (M N : Z) :
  (0 < a)%Q -> (N < 2 ^ 53)%Z ->
  (inject_Z M <= a)%Q -> (a <= inject_Z N)%Q ->
  (inject_Z M <= nearest64 a)%Q /\ (nearest64 a <= inject_Z N)%Q.
Proof.
  intros Hpos HN HM HaN. unfold nearest64.
  assert (a < inject_Z (2 ^ 53))%Q as Hsmall.
  { apply Qle_lt_trans with (inject_Z N); [assumption|]. by rewrite <- Zlt_Qlt. }
  pose proof (floorLog2_small a Hpos Hsmall) as Hfl.
  destruct (pow2_nonpos (Z.max (floorLog2 a) (-1022) - 52) ltac:(lia)) as [D ->].
  assert (0 < 1 # D)%Q as Hu by reflexivity.
  assert (inject_Z (M * Z.pos D) <= a / (1 # D))%Q as Hlow.
  { apply Qle_shift_div_l; [assumption|]. by rewrite scaled_integer. }
  assert (a / (1 # D) <= inject_Z (N * Z.pos D))%Q as Hhigh.
  { apply Qle_shift_div_r; [assumption|]. by rewrite scaled_integer. }
  apply roundHalfEven_ge in Hlow. apply roundHalfEven_le in Hhigh.
  rewrite Zle_Qle in Hlow, Hhigh. split.
  - rewrite <- (scaled_integer M D). apply Qmult_le_compat_r; [assumption|by apply Qlt_le_weak].
  - rewrite <- (scaled_integer N D). apply Qmult_le_compat_r; [assumption|by apply Qlt_le_weak].
Qed.

Lemma below_overflow (r : Q) (N : Z) :
  (N < 2 ^ 53)%Z -> (r <= inject_Z N)%Q -> Qle_bool (pow2 1024) r = false.
Proof.
  intros HN Hr. destruct (Qle_bool (pow2 1024) r) eqn:E; [|reflexivity].
  apply Qle_bool_iff in E.
  assert (inject_Z (2 ^ 53) <= pow2 1024)%Q as Hbig.
  { apply Qle_bool_imp_le. vm_compute. reflexivity. }
  assert (inject_Z N < inject_Z (2 ^ 53))%Q by (by rewrite <- Zlt_Qlt).
  lra.
Qed.

Lemma round64_between (q : Q) (M N : Z) :
  (0 <= M)%Z -> (N < 2 ^ 53)%Z ->
  (inject_Z M <= q)%Q -> (q <= inject_Z N)%Q ->
  exists r, round64 q = Fin r /\ (inject_Z M <= r)%Q /\ (r <= inject_Z N)%Q.
Proof.
  intros HM HN Hlow Hhigh. unfold round64.
  assert (0 <= q)%Q as Hq.
  { apply Qle_trans with (inject_Z M); [|assumption]. by rewrite <- (Zle_Qle 0). }
  destruct (Qcompare_spec q 0) as [Heq|Hlt|Hgt].
  - exists 0%Q. split; [reflexivity|]. rewrite <- Heq. by split.
  - lra.
  - destruct (nearest64_between q M N Hgt HN Hlow Hhigh) as [Hl Hh].
    cbn zeta. rewrite (below_overflow _ N HN Hh).
    exists (Qred (nearest64 q)). split; [reflexivity|]. by rewrite Qred_correct.
Qed.

(** An integer below 2^53 in magnitude is a number of the format. *)
Lemma round64_integer (k : Z) :
  (Z.abs k < 2 ^ 53)%Z -> round64 (inject_Z k) = Fin (inject_Z k).
Proof.
  intros Hk. unfold round64.
  assert (forall n : Z, Qred (inject_Z n) = inject_Z n) as Hred.
  { intros n. unfold Qred, inject_Z.
    pose proof (Z.ggcd_gcd n 1) as Hg. pose proof (Z.ggcd_correct_divisors n 1) as Hd.
    destruct (Z.ggcd n 1) as [g [aa bb]]. cbn in Hg. rewrite Z.gcd_1_r in Hg. subst g.
    destruct Hd as [-> Hbb]. cbn [snd]. replace bb with 1%Z by lia.
    by rewrite Z.mul_1_l. }
  destruct (Qcompare_spec (inject_Z k) 0) as [Heq|Hlt|Hgt].
  - f_equal. unfold Qeq in Heq. cbn in Heq. assert (k = 0)%Z as -> by lia. reflexivity.
  - change 0%Q with (inject_Z 0) in Hlt. rewrite <- Zlt_Qlt in Hlt.
    change (- inject_Z k)%Q with (inject_Z (- k)).
    assert (0 < inject_Z (- k))%Q as Hpos.
    { change 0%Q with (inject_Z 0). rewrite <- Zlt_Qlt. lia. }
    destruct (nearest64_between (inject_Z (- k)) (- k) (- k) Hpos ltac:(lia)
                (Qle_refl _) (Qle_refl _)) as [Hl Hh].
    cbn zeta. rewrite (below_overflow _ (- k) ltac:(lia) Hh). f_equal.
    rewrite <- (Hred k). apply Qred_complete.
    assert (nearest64 (inject_Z (- k)) == inject_Z (- k))%Q as Hn.
    { apply Qle_antisym; assumption. }
    rewrite Hn, inject_Z_opp. ring.
  - change 0%Q with (inject_Z 0) in Hgt. rewrite <- Zlt_Qlt in Hgt.
    assert (0 < inject_Z k)%Q as Hpos.
    { change 0%Q with (inject_Z 0). by rewrite <- Zlt_Qlt. }
    destruct (nearest64_between (inject_Z k) k k Hpos ltac:(lia)
                (Qle_refl _) (Qle_refl _)) as [Hl Hh].
    cbn zeta. rewrite (below_overflow _ k ltac:(lia) Hh). f_equal.
    etrans; [|apply (Hred k)]. apply Qred_complete. apply Qle_antisym; assumption.
Qed.

(** ** Own properties of an object *)

Section Objects.
Context {V : Type}.
Implicit Types (l : list (string * V)) (o : JsObj V).

Lemma getProp_cons key key' (v : V) l :
  getProp key ((key', v) :: l) = if String.eqb key' key then Some v else getProp key l.
Proof. unfold getProp. cbn. by destruct (String.eqb key' key). Qed.

Lemma getProp_placeProp_eq key (v : V) l :
  getProp key l = None -> getProp key (placeProp key v l) = Some v.
Proof.
  induction l as [|[key' v'] l IH]; intros Hnone; cbn [placeProp].
  - by rewrite getProp_cons, String.eqb_refl.
  - rewrite getProp_cons in Hnone.
    destruct (String.eqb key' key) eqn:E; [discriminate|].
    destruct (precedes _ _).
    + by rewrite getProp_cons, String.eqb_refl.
    + rewrite getProp_cons, E. by apply IH.
Qed.

Lemma getProp_placeProp_ne key key' (v : V) l :
  key <> key' -> getProp key' (placeProp key v l) = getProp key' l.
Proof.
  intros Hne. apply String.eqb_neq in Hne.
  induction l as [|[key'' v''] l IH]; cbn [placeProp].
  - by rewrite getProp_cons, Hne.
  - destruct (precedes _ _).
    + by rewrite getProp_cons, Hne.
    + rewrite !getProp_cons. by rewrite IH.
Qed.

Lemma getProp_update_eq key (v : V) l :
  is_Some (getProp key l) ->
  getProp key (map (fun entry => if String.eqb entry.1 key then (key, v) else entry) l)
  = Some v.
Proof.
  induction l as [|[key' v'] l IH]; intros Hsome; [by destruct Hsome|].
  rewrite getProp_cons in Hsome. cbn [map fst].
  destruct (String.eqb key' key) eqn:E.
  - by rewrite getProp_cons, String.eqb_refl.
  - rewrite getProp_cons, E. by apply IH.
Qed.

Lemma getProp_update_ne key key' (v : V) l :
  key <> key' ->
  getProp key' (map (fun entry => if String.eqb entry.1 key then (key, v) else entry) l)
  = getProp key' l.
Proof.
  intros Hne. pose proof Hne as Hne'. apply String.eqb_neq in Hne'.
  induction l as [|[key'' v''] l IH]; [reflexivity|]. cbn [map fst].
  destruct (String.eqb_spec key'' key) as [->|Hother].
  - by rewrite !getProp_cons, Hne'.
  - by rewrite !getProp_cons, IH.
Qed.

Lemma getProp_setProp_eq key (v : V) l : getProp key (setProp key v l) = Some v.
Proof.
  unfold setProp. destruct (getProp key l) as [v'|] eqn:E.
  - apply getProp_update_eq. by rewrite E.
  - by apply getProp_placeProp_eq.
Qed.

Lemma getProp_setProp_ne key key' (v : V) l :
  key <> key' -> getProp key' (setProp key v l) = getProp key' l.
Proof.
  intros Hne. unfold setProp. destruct (getProp key l).
  - by apply getProp_update_ne.
  - by apply getProp_placeProp_ne.
Qed.

Lemma jsobj_lookup_empty key : (∅ : JsObj V) !! key = None.
Proof. reflexivity. Qed.

Lemma jsobj_lookup_insert_eq o key (v : V) :
  key <> "__proto__" -> <[key := v]> o !! key = Some v.
Proof.
  intros Hkey. apply String.eqb_neq in Hkey.
  unfold insert, jsobj_insert, lookup, jsobj_lookup. rewrite Hkey.
  apply getProp_setProp_eq.
Qed.

Lemma jsobj_lookup_insert_ne o key key' (v : V) :
  key <> key' -> <[key := v]> o !! key' = o !! key'.
Proof.
  intros Hne. unfold insert, jsobj_insert, lookup, jsobj_lookup.
  destruct (String.eqb key "__proto__"); [reflexivity|].
  by apply getProp_setProp_ne.
Qed.

Lemma jsobj_insert_proto o (v : V) : <["__proto__" := v]> o = o.
Proof. reflexivity. Qed.

Lemma ownKeys_lookup o key : key ∈ ownKeys o <-> is_Some (o !! key).
Proof.
  unfold ownKeys, lookup, jsobj_lookup. induction (props o) as [|[key' v'] l IH].
  - cbn. split; [by intros ?%elem_of_nil|by intros [? ?]].
  - cbn [map fst]. rewrite getProp_cons, elem_of_cons, IH.
    destruct (String.eqb_spec key' key) as [->|Hne].
    + split; [by eexists|by left].
    + split; [intros [->|?]; done|by right].
Qed.

End Objects.

(** ** Numbers and rows *)

Lemma num_gt_zero (q : Q) : num_gt (Fin q) (Fin 0) = true <-> (0 < q)%Q.
Proof.
  simpl. rewrite negb_true_iff. split.
  - intros E. destruct (Qlt_le_dec 0 q) as [|Hle]; [assumption|].
    apply Qle_bool_iff in Hle. congruence.
  - intros Hlt. destruct (Qle_bool q 0) eqn:E; [|reflexivity].
    apply Qle_bool_iff in E. lra.
Qed.

Lemma num_div_pos (p q : Q) : (0 < q)%Q -> num_div (Fin p) (Fin q) = round64 (p / q).
Proof.
  intros Hq. unfold num_div. apply Qgt_alt in Hq. rewrite Hq. reflexivity.
Qed.

(** The percentage of a part in a whole, for counts that are integers below
    2^53: the quotient is at most 1 and the product at most 100, rounding
    included. *)
Lemma percentage_in_range (part whole : Z) :
  (0 <= part <= whole)%Z -> (0 < whole < 2 ^ 53)%Z ->
  exists r : Q,
    num_mul (num_div (Fin (inject_Z part)) (Fin (inject_Z whole))) (Fin 100) = Fin r
    /\ (0 <= r)%Q /\ (r <= 100)%Q.
Proof.
  intros Hpart Hwhole.
  assert (0 < inject_Z whole)%Q as Hpos.
  { change 0%Q with (inject_Z 0). rewrite <- Zlt_Qlt. lia. }
  assert (0 <= inject_Z part)%Q as Hp0.
  { change 0%Q with (inject_Z 0). rewrite <- Zle_Qle. lia. }
  assert (inject_Z part <= inject_Z whole)%Q as Hle by (rewrite <- Zle_Qle; lia).
  rewrite (num_div_pos _ _ Hpos).
  assert (inject_Z 0 <= inject_Z part / inject_Z whole)%Q as Hq0.
  { apply Qle_shift_div_l; [assumption|]. change (inject_Z 0) with 0%Q. lra. }
  assert (inject_Z part / inject_Z whole <= inject_Z 1)%Q as Hq1.
  { apply Qle_shift_div_r; [assumption|]. change (inject_Z 1) with 1%Q. lra. }
  destruct (round64_between _ 0 1 ltac:(lia) ltac:(reflexivity) Hq0 Hq1)
    as (ratio & -> & Hr0 & Hr1).
  cbn [num_mul]. change (inject_Z 0) with 0%Q in Hr0. change (inject_Z 1) with 1%Q in Hr1.
  assert (inject_Z 0 <= ratio * 100)%Q as Hp0'.
  { change (inject_Z 0) with 0%Q. lra. }
  assert (ratio * 100 <= inject_Z 100)%Q as Hp100.
  { change (inject_Z 100) with 100%Q. lra. }
  destruct (round64_between _ 0 100 ltac:(lia) ltac:(reflexivity) Hp0' Hp100)
    as (r & -> & H0 & H100).
  change (inject_Z 0) with 0%Q in H0. change (inject_Z 100) with 100%Q in H100.
  by exists r.
Qed.

(** A field of a parsed row is never strictly equal to a number. *)
Lemma strict_eq_field_number (r : CsvRow) (c : string) (n : JsNum) :
  strict_eq (field r c) (VNum n) = false.
Proof. unfold field. destruct (r !! c); reflexivity. Qed.

(** ** The query wrapper *)

Lemma queryMetadata_ok (q : string) (rows : list CsvRow) :
  queryMetadata q (Ok rows) = Ok rows.
Proof. reflexivity. Qed.

(** The error of a failed command is swallowed: the caller sees no row. *)
Lemma queryMetadata_command_failure (q : string) (e : JsError) (err : string) :
  stderr e = Some err -> queryMetadata q (Throw e) = Ok [].
Proof.
  intros E. unfold queryMetadata, handleQueryError. rewrite E.
  destruct (includes err "sObject type" && includes err "is not supported"); reflexivity.
Qed.

(** An error without [stderr] makes the handler itself throw. *)
Lemma queryMetadata_other_failure (q : string) (e : JsError) :
  stderr e = None -> queryMetadata q (Throw e) = Throw (typeError "includes").
Proof.
  intros E. unfold queryMetadata, handleQueryError. rewrite E. reflexivity.
Qed.

(** ** Coverage percentage *)

(** On counts that are integers below 2^53, [calculateCoveragePercentage] is
    0 for an empty total and a finite number between 0 and 100 otherwise. *)
Lemma coverage_percentage_of_counts `{Coercions} (covered uncovered : Z) :
  (0 <= covered)%Z -> (0 <= uncovered)%Z -> (covered + uncovered < 2 ^ 53)%Z ->
  exists r : Q,
    calculateCoveragePercentage (VNum (Fin (inject_Z covered)))
                                (VNum (Fin (inject_Z uncovered)))
    = VNum (Fin r)
    /\ (0 <= r)%Q /\ (r <= 100)%Q
    /\ ((covered + uncovered = 0)%Z -> r = 0%Q).
Proof.
  intros Hc Hu Hsum. unfold calculateCoveragePercentage, js_add, js_gt_num, js_mul, js_div.
  cbn [to_number num_add]. rewrite <- inject_Z_plus, round64_integer by lia.
  destruct (num_gt (Fin (inject_Z (covered + uncovered))) (Fin 0)) eqn:E.
  - apply num_gt_zero in E. change 0%Q with (inject_Z 0) in E. rewrite <- Zlt_Qlt in E.
    destruct (percentage_in_range covered (covered + uncovered)) as (r & -> & H0 & H100);
      [lia|lia|].
    exists r. repeat split; try assumption. lia.
  - exists 0%Q. repeat split; lra.
Qed.

(** C6.  The one call of [calculateCoveragePercentage] passes the fields of a
    parsed row, which are strings: for five lines covered and none uncovered
    the total is the concatenation 50, and the percentage of the class is
    10, where the coverage is 100; on the numbers 5 and 0 the function gives
    100.  On numbers the quotient is rounded before it is multiplied: for 7
    and 18 the result is the number next above 28. *)
Theorem coverage_of_parsed_fields_is_not_the_ratio :
  classCoverageQuery fullyCoveredWorld = Ok [fullyCoveredRow]
  /\ field fullyCoveredRow "NumLinesCovered" = VStr "5"
  /\ field fullyCoveredRow "NumLinesUncovered" = VStr "0"
  /\ map apex_CoveragePercentage (getApexClassCoverageDetails fullyCoveredWorld)
     = [VNum (Fin 10)]
  /\ js_add (VStr "5") (VStr "0") = VStr "50"
  /\ calculateCoveragePercentage (VNum (Fin 5)) (VNum (Fin 0)) = VNum (Fin 100)
  /\ calculateCoveragePercentage (VNum (Fin 7)) (VNum (Fin 18))
     = VNum (Fin (7881299347898369 # 281474976710656))
  /\ (28 < 7881299347898369 # 281474976710656)%Q.
Proof.
  repeat split; vm_compute; reflexivity.
Qed.

(** Three lines covered out of four. *)
Example coverage_three_of_four :
  calculateCoveragePercentage (VNum (Fin 3)) (VNum (Fin 1)) = VNum (Fin 75).
Proof. vm_compute. reflexivity. Qed.

(** ** Test run outcome *)

(** On values that are numbers the conditional is the one of the
    classification: Pass for a completed run with a failed count of 0. *)
Lemma testRunOutcome_number (status : JsVal) (failed : Q) :
  testRunOutcome status (VNum (Fin failed)) = "Pass"
  <-> status = VStr "Completed" /\ (failed == 0)%Q.
Proof.
  unfold testRunOutcome. split.
  - destruct (strict_eq status (VStr "Completed")) eqn:Es; [|discriminate].
    destruct (strict_eq (VNum (Fin failed)) (VNum (Fin 0))) eqn:Ef; [|discriminate].
    intros _. split.
    + destruct status as [| |b|[]|s]; try discriminate.
      cbn in Es. apply String.eqb_eq in Es. by subst.
    + cbn in Ef. by apply Qeq_bool_iff in Ef.
  - intros [-> Hz]. cbn. apply Qeq_bool_iff in Hz. by rewrite Hz.
Qed.

(** On the fields of a parsed row the count is a string, and the outcome is
    Fail whatever the row. *)
Lemma testRunOutcome_parsed (row : CsvRow) :
  testRunOutcome (field row "Status") (field row "MethodsFailed") = "Fail".
Proof.
  unfold testRunOutcome. rewrite strict_eq_field_number, andb_false_r. reflexivity.
Qed.

(** C5.  The classification of a test run, at the row of a run that completed
    with no failed method: the parsed row carries the status "Completed" and
    the count "0", [getTestRunDetails] classifies it Fail, and so does the
    [Tests] fragment; every parsed row is classified Fail, since its count is
    a string and the comparison is strict against the number 0. *)
Theorem completed_run_without_failures_is_Fail :
  field completedRow "Status" = VStr "Completed"
  /\ field completedRow "MethodsFailed" = VStr "0"
  /\ outcome <$> getTestRunDetails completedWorld "707xx0000000001" = Some "Fail"
  /\ TestOutcome (testSummary completedWorld "707xx0000000001") = "Fail"
  /\ (forall row : CsvRow,
        testRunOutcome (field row "Status") (field row "MethodsFailed") = "Fail")
  /\ testRunOutcome (VStr "Completed") (VNum (Fin 0)) = "Pass".
Proof.
  split; [reflexivity|]. split; [reflexivity|].
  split; [vm_compute; reflexivity|]. split; [vm_compute; reflexivity|].
  split; [exact testRunOutcome_parsed|reflexivity].
Qed.

(** ** Org-wide Apex coverage *)

(** C8.  The org-wide coverage of an empty row set: [getOrgWideApexCoverage]
    returns NaN, the quotient of the initial sum 0 by the length 0, and not
    [null]; the total of the [Tests] fragment is then NaN as well. *)
Theorem org_wide_coverage_of_no_rows `{Coercions} (w : World) :
  orgWideCoverageQuery w = Ok [] ->
  getOrgWideApexCoverage w = VNum NaN
  /\ getOrgWideApexCoverage w <> VNull
  /\ nullish_or (getOrgWideApexCoverage w) (VNum (Fin 0)) = VNum NaN.
Proof.
  intros E. unfold getOrgWideApexCoverage. rewrite E. cbn.
  repeat split; discriminate.
Qed.

Lemma org_wide_coverage_of_no_rows_witness :
  orgWideCoverageQuery quietWorld = Ok []
  /\ getOrgWideApexCoverage quietWorld = VNum NaN
  /\ getOrgWideApexCoverage quietWorld <> VNull
  /\ nullish_or (getOrgWideApexCoverage quietWorld) (VNum (Fin 0)) = VNum NaN.
Proof.
  split; [reflexivity|].
  exact (org_wide_coverage_of_no_rows quietWorld eq_refl).
Defined.

(** A query whose command fails gives the same NaN; [null] is what a query
    error without [stderr] gives. *)
Lemma org_wide_coverage_of_failed_command `{Coercions} (w : World) (e : JsError) (err : string) :
  orgWideCoverageQuery w = Throw e -> stderr e = Some err ->
  getOrgWideApexCoverage w = VNum NaN.
Proof.
  intros E Herr. unfold getOrgWideApexCoverage. rewrite E.
  by rewrite (queryMetadata_command_failure _ e err Herr).
Qed.

Lemma org_wide_coverage_null `{Coercions} (w : World) (e : JsError) :
  orgWideCoverageQuery w = Throw e -> stderr e = None ->
  getOrgWideApexCoverage w = VNull.
Proof.
  intros E Herr. unfold getOrgWideApexCoverage. rewrite E.
  by rewrite (queryMetadata_other_failure _ e Herr).
Qed.

(** Two parsed rows, "85" and "90": the sum is the string "08590". *)
Example org_wide_coverage_two_rows :
  getOrgWideApexCoverage twoCoverageRowsWorld = VNum (Fin 4295).
Proof. vm_compute. reflexivity. Qed.

(** ** Risks per line *)

Lemma countCodeLines_no_files (w : World) (d e : string) :
  sourceFiles w d e = Ok [] ->
  countCodeLines w d e = Ok {| Total := 0; Comments := 0; Code := 0 |}.
Proof. intros E. unfold countCodeLines. rewrite E. reflexivity. Qed.

Lemma calculateCodeLines_no_files (w : World) :
  (forall d e, sourceFiles w d e = Ok []) ->
  exists codeLines,
    calculateCodeLines w = Ok codeLines
    /\ lang_Total (Apex codeLines) + lang_Total (JavaScript codeLines) = 0.
Proof.
  intros E. unfold calculateCodeLines.
  rewrite !countCodeLines_no_files by apply E. cbn.
  eexists. split; reflexivity.
Qed.

(** C4.  The code phase over no source file: the [Code] fragment is set
    without an error entry, its [LinesOfCode] is 0, and its
    [RisksPerLineRatio] is NaN when the scanner reports no row and Infinity
    otherwise; it is not 0, and is written to the report as [null]. *)
Theorem risk_ratio_without_source_lines (w : World) (st : Run) (rs : list CsvRow) :
  codeSetup w = Ok tt ->
  scannerResults w = Ok rs ->
  (forall d e, sourceFiles w d e = Ok []) ->
  chdirBack w = Ok tt ->
  exists c,
    CodeFragment (baseSummary (codePhase w st)) = Some c
    /\ errors (codePhase w st) = errors st
    /\ code_LinesOfCode c = 0
    /\ RisksPerLineRatio c = match rs with [] => NaN | _ :: _ => PosInf end
    /\ RisksPerLineRatio c <> Fin 0
    /\ json_of_num (RisksPerLineRatio c) = VNull.
Proof.
  intros Hsetup Hscan Hfiles Hback.
  destruct (calculateCodeLines_no_files w Hfiles) as (cl & Hcl & Hzero).
  unfold codePhase. rewrite Hsetup, Hscan, Hcl, Hback. cbn.
  eexists. split; [reflexivity|]. split; [reflexivity|].
  unfold codeAnalysis; cbn. rewrite Hzero.
  destruct rs; cbn; repeat split; discriminate.
Qed.

Lemma risk_ratio_without_source_lines_witness :
  codeSetup quietWorld = Ok tt
  /\ scannerResults quietWorld = Ok []
  /\ (forall d e, sourceFiles quietWorld d e = Ok [])
  /\ chdirBack quietWorld = Ok tt
  /\ exists c,
       CodeFragment (baseSummary (codePhase quietWorld (newRun previousSummary))) = Some c
       /\ errors (codePhase quietWorld (newRun previousSummary)) = []
       /\ code_LinesOfCode c = 0
       /\ RisksPerLineRatio c = NaN
       /\ RisksPerLineRatio c <> Fin 0
       /\ json_of_num (RisksPerLineRatio c) = VNull.
Proof.
  split; [reflexivity|]. split; [reflexivity|]. split; [reflexivity|]. split; [reflexivity|].
  exact (risk_ratio_without_source_lines quietWorld (newRun previousSummary) []
           eq_refl eq_refl (fun _ _ => eq_refl) eq_refl).
Defined.

(** ** Resource limits *)

Section Limits.
Context `{Coercions}.

Lemma checkLimits_fold (data : list (string * option LimitInfo)) (acc : list Limit) :
  fold_left
    (fun limits entry =>
       match entry with
       | (key, Some limitInfo) =>
           if hasBoth limitInfo then
             limits ++ [ {| Name := key;
                            Max := info_Max limitInfo;
                            Remaining := info_Remaining limitInfo;
                            Usage := js_sub (info_Max limitInfo) (info_Remaining limitInfo);
                            Description := "Description for " +:+ key |} ]
           else limits
       | (_, None) => limits
       end)
    data acc
  = acc ++ omap retainedLimit data.
Proof.
  revert acc. induction data as [|[key [limitInfo|]] data IH]; intros acc; cbn.
  - by rewrite app_nil_r.
  - destruct (hasBoth limitInfo); [|apply IH]. rewrite IH. by rewrite <- app_assoc.
  - apply IH.
Qed.

Lemma checkLimits_retained (w : World) (data : list (string * option LimitInfo)) :
  limitsApi w = Ok data -> checkLimits w = omap retainedLimit data.
Proof. intros E. unfold checkLimits. rewrite E. apply checkLimits_fold. Qed.

(** A request that fails is caught inside [checkLimits]: no row, no throw. *)
Lemma checkLimits_failed_request (w : World) (e : JsError) :
  limitsApi w = Throw e -> checkLimits w = [].
Proof. intros E. unfold checkLimits. by rewrite E. Qed.

Lemma not_undefined (v : JsVal) : strict_eq v VUndef = false <-> v <> VUndef.
Proof. destruct v as [| |b|[]|s]; cbn; split; done. Qed.

Lemma hasBoth_spec (limitInfo : LimitInfo) :
  hasBoth limitInfo = true
  <-> info_Max limitInfo <> VUndef /\ info_Remaining limitInfo <> VUndef.
Proof.
  unfold hasBoth. by rewrite andb_true_iff, !negb_true_iff, !not_undefined.
Qed.

(** An entry that lacks [Max] or [Remaining] is not retained. *)
Lemma retainedLimit_incomplete (key : string) (limitInfo : LimitInfo) :
  info_Max limitInfo = VUndef \/ info_Remaining limitInfo = VUndef ->
  retainedLimit (key, Some limitInfo) = None.
Proof.
  intros Hmissing. cbn. destruct (hasBoth limitInfo) eqn:E; [|reflexivity].
  apply hasBoth_spec in E as [? ?]. by destruct Hmissing.
Qed.

(** The difference of two integers, when it is below 2^53 in magnitude. *)
Lemma js_sub_integers (M R : Z) :
  (Z.abs (M - R) < 2 ^ 53)%Z ->
  js_sub (VNum (Fin (inject_Z M))) (VNum (Fin (inject_Z R)))
  = VNum (Fin (inject_Z (M - R))).
Proof.
  intros Hsmall. unfold js_sub, num_sub. cbn [to_number num_neg num_add].
  replace (inject_Z M + - inject_Z R)%Q with (inject_Z (M - R)).
  - by rewrite round64_integer.
  - unfold Qplus, Qopp, inject_Z. cbn. f_equal. lia.
Qed.

End Limits.

(** ** Component inventory *)

Lemma component_fold_inv (qr : gmap string (list CsvRow)) (errs : list ErrorItem)
    (dps : list string) (acc : JsObj ComponentSummary) (k : string) (cs : ComponentSummary) :
  fold_left (summarizeDataPoint qr errs) dps acc !! k = Some cs ->
  acc !! k = Some cs
  \/ (k ∈ dps
      /\ existsb (error_on_dataPoint k) errs = false
      /\ exists lastRecord rest,
           qr !! k = Some (lastRecord :: rest)
           /\ cs = {| cs_Total := length (lastRecord :: rest);
                      cs_LastModifiedDate := field lastRecord "LastModifiedDate" |}).
Proof.
  revert acc. induction dps as [|dp dps IH]; intros acc; cbn; [by left|].
  intros Hfold. apply IH in Hfold as [Hacc|(Hin & Herr & Hrows)].
  - unfold summarizeDataPoint in Hacc.
    destruct (existsb (error_on_dataPoint dp) errs) eqn:Eerr; [by left|].
    destruct (qr !! dp) as [[|lastRecord rest]|] eqn:Eq; [by left| |by left].
    destruct (decide (dp = k)) as [->|Hne].
    + destruct (decide (k = "__proto__")) as [->|Hproto]; [by left|].
      rewrite jsobj_lookup_insert_eq in Hacc by assumption. inversion Hacc; subst cs.
      right. split; [by left|]. split; [assumption|]. by exists lastRecord, rest.
    + rewrite jsobj_lookup_insert_ne in Hacc by assumption. by left.
  - right. split; [by right|]. by split.
Qed.

Lemma component_entry_inv (dps : list string) (qr : gmap string (list CsvRow))
    (errs : list ErrorItem) (k : string) (cs : ComponentSummary) :
  calculateComponentSummary dps qr errs !! k = Some cs ->
  k ∈ dps
  /\ exists lastRecord rest,
       qr !! k = Some (lastRecord :: rest)
       /\ cs = {| cs_Total := length (lastRecord :: rest);
                  cs_LastModifiedDate := field lastRecord "LastModifiedDate" |}.
Proof.
  intros Hcs. apply component_fold_inv in Hcs as [Hempty|(Hin & _ & Hrows)].
  - by rewrite jsobj_lookup_empty in Hempty.
  - by split.
Qed.

(** C10.  In [calculateComponentSummary], a type whose query returned no row
    has no entry; an entry that is present belongs to a requested type whose
    query returned at least one row, its [Total] is the number of rows, hence
    at least 1, and its [LastModifiedDate] is that of the first row. *)
Theorem component_summary_entries (dps : list string) (qr : gmap string (list CsvRow))
    (errs : list ErrorItem) (k : string) :
  (qr !! k = Some [] -> calculateComponentSummary dps qr errs !! k = None)
  /\ (forall cs, calculateComponentSummary dps qr errs !! k = Some cs ->
        k ∈ dps
        /\ 1 <= cs_Total cs
        /\ exists lastRecord rest,
             qr !! k = Some (lastRecord :: rest)
             /\ cs_Total cs = length (lastRecord :: rest)
             /\ cs_LastModifiedDate cs = field lastRecord "LastModifiedDate").
Proof.
  split.
  - intros Hnone. destruct (calculateComponentSummary dps qr errs !! k) as [cs|] eqn:E; [|done].
    apply component_entry_inv in E as (_ & lastRecord & rest & Hq & _). congruence.
  - intros cs Hcs. apply component_entry_inv in Hcs as (Hin & lastRecord & rest & Hq & ->).
    split; [assumption|]. split; [cbn; lia|]. by exists lastRecord, rest.
Qed.

Lemma component_fold_keep (qr : gmap string (list CsvRow)) (errs : list ErrorItem)
    (dps : list string) (acc : JsObj ComponentSummary) (k : string) (cs : ComponentSummary) :
  k ∉ dps -> acc !! k = Some cs ->
  fold_left (summarizeDataPoint qr errs) dps acc !! k = Some cs.
Proof.
  revert acc. induction dps as [|d dps IH]; intros acc Hnin Hacc; [assumption|].
  apply not_elem_of_cons in Hnin as [Hne Hnin].
  cbn. apply IH; [assumption|]. unfold summarizeDataPoint.
  destruct (existsb (error_on_dataPoint d) errs); [assumption|].
  destruct (qr !! d) as [[|r rs]|]; try assumption.
  by rewrite jsobj_lookup_insert_ne.
Qed.

(** A requested type with rows, and no error entry naming it, has its entry,
    unless its name is [__proto__]. *)
Lemma component_summary_present (dps : list string) (qr : gmap string (list CsvRow))
    (errs : list ErrorItem) (k : string) (lastRecord : CsvRow) (rest : list CsvRow) :
  k <> "__proto__" ->
  k ∈ dps ->
  existsb (error_on_dataPoint k) errs = false ->
  qr !! k = Some (lastRecord :: rest) ->
  calculateComponentSummary dps qr errs !! k
  = Some {| cs_Total := length (lastRecord :: rest);
            cs_LastModifiedDate := field lastRecord "LastModifiedDate" |}.
Proof.
  intros Hproto Hin Herr Hq. unfold calculateComponentSummary.
  generalize (∅ : JsObj ComponentSummary) as acc.
  induction dps as [|dp dps IH]; intros acc; [by apply elem_of_nil in Hin|].
  cbn. destruct (decide (k ∈ dps)) as [Hin'|Hnin].
  - by apply IH.
  - apply elem_of_cons in Hin as [->|Hin]; [|done].
    apply component_fold_keep; [assumption|].
    unfold summarizeDataPoint. rewrite Herr, Hq. by apply jsobj_lookup_insert_eq.
Qed.

(** Under the name [__proto__] the assignment sets the prototype of the
    summary, and the type has no entry. *)
Lemma component_summary_proto (dps : list string) (qr : gmap string (list CsvRow))
    (errs : list ErrorItem) :
  calculateComponentSummary dps qr errs !! "__proto__" = None.
Proof.
  destruct (calculateComponentSummary dps qr errs !! "__proto__") as [cs|] eqn:E; [|done].
  unfold calculateComponentSummary in E. exfalso. revert E.
  assert ((∅ : JsObj ComponentSummary) !! "__proto__" = None) as Hempty by reflexivity.
  revert Hempty. generalize (∅ : JsObj ComponentSummary) as acc.
  induction dps as [|dp dps IH]; intros acc Hacc; cbn; [congruence|].
  apply IH. unfold summarizeDataPoint.
  destruct (existsb (error_on_dataPoint dp) errs); [assumption|].
  destruct (qr !! dp) as [[|r rs]|]; try assumption.
  destruct (decide (dp = "__proto__")) as [->|Hne]; [assumption|].
  by rewrite jsobj_lookup_insert_ne.
Qed.

Lemma component_summary_entries_witness :
  inventoryResults !! "Type2" = Some []
  /\ calculateComponentSummary ["Type1"; "Type2"] inventoryResults [] !! "Type2" = None
  /\ calculateComponentSummary ["Type1"; "Type2"] inventoryResults [] !! "Type1"
     = Some type1Summary
  /\ "Type1" ∈ ["Type1"; "Type2"]
  /\ 1 <= cs_Total type1Summary
  /\ exists lastRecord rest,
       inventoryResults !! "Type1" = Some (lastRecord :: rest)
       /\ cs_Total type1Summary = length (lastRecord :: rest)
       /\ cs_LastModifiedDate type1Summary = field lastRecord "LastModifiedDate".
Proof.
  assert (H2 : inventoryResults !! "Type2" = Some []) by (vm_compute; reflexivity).
  assert (H1 : calculateComponentSummary ["Type1"; "Type2"] inventoryResults [] !! "Type1"
               = Some type1Summary) by (vm_compute; reflexivity).
  split; [exact H2|].
  split; [exact (proj1 (component_summary_entries ["Type1"; "Type2"] inventoryResults []
                          "Type2") H2)|].
  split; [exact H1|].
  exact (proj2 (component_summary_entries ["Type1"; "Type2"] inventoryResults [] "Type1")
           type1Summary H1).
Defined.

(** The inventory of [Type1], which has three rows, and of [Type2], whose
    query is refused as unsupported: one entry, and no error entry. *)
Example inventory_of_two_types :
  queryDataPoints inventoryWorld ["Type1"; "Type2"] = Ok inventoryResults
  /\ Metadata (baseSummary (inventoryPhase inventoryWorld (Some ["Type1"; "Type2"])
                                            (newRun previousSummary)))
     = Some (<["Type1" := type1Summary]> ∅)
  /\ errors (inventoryPhase inventoryWorld (Some ["Type1"; "Type2"])
                            (newRun previousSummary)) = [].
Proof. repeat split; vm_compute; reflexivity. Qed.

(** ** The poller *)

(** The loop stops on the first status that is neither Queued nor
    Processing. *)
Lemma pollLoop_exit (fuel : nat) (w : World) (id : string) (tick : nat) (status : JsVal) :
  isPending status = false -> pollLoop fuel w id tick status = Some (status, tick).
Proof. intros E. destruct fuel; cbn; by rewrite E. Qed.

Lemma pollLoop_turn (fuel : nat) (w : World) (id : string) (tick : nat) (status : JsVal) :
  isPending status = true ->
  pollLoop (S fuel) w id tick status
  = pollLoop fuel w id (S tick) (pollTick w id tick status).
Proof. intros E. cbn. by rewrite E. Qed.

Lemma pollTick_row (w : World) (id : string) (tick : nat) (status : JsVal)
    (testJob : CsvRow) (rest : list CsvRow) :
  statusQuery w id tick = Ok (testJob :: rest) ->
  pollTick w id tick status = field testJob "Status".
Proof. intros E. unfold pollTick. by rewrite E. Qed.

Lemma pollTick_no_row (w : World) (id : string) (tick : nat) (status : JsVal) :
  statusQuery w id tick = Ok [] -> pollTick w id tick status = status.
Proof. intros E. unfold pollTick. by rewrite E. Qed.

(** A status query whose command fails leaves the status as it was. *)
Lemma pollTick_command_failure (w : World) (id : string) (tick : nat) (status : JsVal)
    (e : JsError) (err : string) :
  statusQuery w id tick = Throw e -> stderr e = Some err ->
  pollTick w id tick status = status.
Proof.
  intros E Herr. unfold pollTick. rewrite E.
  by rewrite (queryMetadata_command_failure _ e err Herr).
Qed.

(** Only an error that the query wrapper lets through sets Failed. *)
Lemma pollTick_other_failure (w : World) (id : string) (tick : nat) (status : JsVal)
    (e : JsError) :
  statusQuery w id tick = Throw e -> stderr e = None ->
  pollTick w id tick status = VStr "Failed".
Proof.
  intros E Herr. unfold pollTick. rewrite E.
  by rewrite (queryMetadata_other_failure _ e Herr).
Qed.

(** What a poll that returns has done: it stopped on a status that is not
    pending, after at most [fuel] turns, each followed by the same wait. *)
Lemma pollLoop_result (fuel : nat) (w : World) (id : string) (tick : nat)
    (status final : JsVal) (ticks : nat) :
  pollLoop fuel w id tick status = Some (final, ticks) ->
  isPending final = false /\ tick <= ticks <= tick + fuel.
Proof.
  revert tick status. induction fuel as [|fuel IH]; intros tick status; cbn.
  - destruct (isPending status) eqn:E; [discriminate|].
    intros [= <- <-]. split; [assumption|lia].
  - destruct (isPending status) eqn:E.
    + intros Hloop. apply IH in Hloop as [Hfinal Hticks]. split; [assumption|lia].
    + intros [= <- <-]. split; [assumption|lia].
Qed.

Lemma pollLoop_more_fuel (fuel extra : nat) (w : World) (id : string) (tick : nat)
    (status : JsVal) (r : JsVal * nat) :
  pollLoop fuel w id tick status = Some r ->
  pollLoop (fuel + extra) w id tick status = Some r.
Proof.
  revert tick status. induction fuel as [|fuel IH]; intros tick status; cbn.
  - destruct (isPending status) eqn:E; [discriminate|].
    intros <-. by apply pollLoop_exit.
  - destruct (isPending status) eqn:E; [apply IH|done].
Qed.

(** While the status query keeps failing as a command, the loop never
    exits. *)
Lemma pollLoop_stuck (w : World) (id : string) :
  (forall tick, exists e err, statusQuery w id tick = Throw e /\ stderr e = Some err) ->
  forall fuel tick status,
    isPending status = true -> pollLoop fuel w id tick status = None.
Proof.
  intros Hdown. induction fuel as [|fuel IH]; intros tick status E; cbn; rewrite E; [done|].
  destruct (Hdown tick) as (e & err & Hq & Herr).
  rewrite (pollTick_command_failure w id tick status e err Hq Herr). by apply IH.
Qed.

(** C3.  The poller, when the status query fails as a command.  A failure at
    the first tick leaves the status Queued; the query is made again at the
    next tick, 5 seconds later, and the poll returns the status it then
    reads, Completed, after two turns.  When the query fails at every tick,
    the poll returns for no amount of fuel. *)
Theorem failed_status_query_is_retried :
  statusQuery statusRecoversWorld "707xx0000000001" 0 = Throw commandFailed
  /\ pollTick statusRecoversWorld "707xx0000000001" 0 (VStr "Queued") = VStr "Queued"
  /\ pollTestRunResult 2 statusRecoversWorld "707xx0000000001" = Some (VStr "Completed", 2)
  /\ waited 2 = 10000%Z
  /\ forall fuel, pollTestRunResult fuel statusDownWorld "707xx0000000001" = None.
Proof.
  split; [reflexivity|]. split; [reflexivity|]. split; [vm_compute; reflexivity|].
  split; [reflexivity|].
  intros fuel. apply pollLoop_stuck; [|reflexivity].
  intros tick. exists commandFailed, "ERROR running data:query: request timed out".
  split; reflexivity.
Qed.

(** A job seen Processing, then Completed: two turns, no more. *)
Example poll_two_turns :
  pollTestRunResult 5
    (exampleWorld (Ok someInfo) (Ok [])
       (fun _ tick => Ok [ {[ "Status" := if Nat.eqb tick 0 then "Processing" else "Completed" ]} ])
       (fun _ => Ok []) (Ok []) (Ok []) (fun _ => Ok []))
    "707xx0000000001"
  = Some (VStr "Completed", 2).
Proof. vm_compute. reflexivity. Qed.

(** A status query whose output file cannot be read: the error has no
    [stderr], the handler throws, and the poller exits on Failed after one
    turn. *)
Example poll_unreadable_output :
  pollTestRunResult 1
    (exampleWorld (Ok someInfo) (Ok []) (fun _ _ => Throw fileMissing)
       (fun _ => Ok []) (Ok []) (Ok []) (fun _ => Ok []))
    "707xx0000000001"
  = Some (VStr "Failed", 1).
Proof. vm_compute. reflexivity. Qed.

(** ** The pipeline *)

Lemma healthPhase_errors (w : World) (orgAlias : option string) (st : Run) :
  errors (healthPhase w orgAlias st)
  = errors st ++ caught "getHealthCheckScoreError" (getHealthCheckScore w orgAlias).
Proof.
  unfold healthPhase. destruct (getHealthCheckScore w orgAlias); cbn; [by rewrite app_nil_r|done].
Qed.

(** The limits phase has nothing to catch. *)
Lemma limitsPhase_errors `{Coercions} (w : World) (st : Run) :
  errors (limitsPhase w st) = errors st.
Proof. reflexivity. Qed.

Lemma codePhase_errors (w : World) (st : Run) :
  errors (codePhase w st)
  = errors st ++ caught "calculateLinesOfCodeError" (codeBody w).
Proof.
  unfold codePhase, codeBody.
  destruct (codeSetup w); cbn; [|done].
  destruct (scannerResults w); cbn; [|done].
  destruct (calculateCodeLines w); cbn; [|done].
  destruct (chdirBack w); cbn; [by rewrite app_nil_r|done].
Qed.

Lemma testsPhase_errors `{Coercions} (fuel : nat) (w : World) (st st' : Run) :
  testsPhase fuel w st = Some st' ->
  errors st' = errors st ++ caught "runApexTestsError" (testRun w).
Proof.
  unfold testsPhase. destruct (testRun w); cbn.
  - destruct (testRunId w) as [id|].
    + destruct (pollTestRunResult fuel w id); [|discriminate].
      intros [= <-]. cbn. by rewrite app_nil_r.
    + intros [= <-]. by rewrite app_nil_r.
  - by intros [= <-].
Qed.

Lemma inventoryPhase_errors (w : World) (selected : option (list string)) (st : Run) :
  errors (inventoryPhase w selected st)
  = errors st ++ caught "componentSummaryError" (inventoryBody w selected).
Proof.
  unfold inventoryPhase, inventoryBody.
  destruct selected as [[|dataPoint rest]|]; [by rewrite app_nil_r| |by rewrite app_nil_r].
  generalize (queryDataPoints w (dataPoint :: rest)).
  intros [queryResults|error]; cbn; [by rewrite app_nil_r|done].
Qed.

(** The error list after the phases: one entry for each selected phase whose
    body throws, in the order of the phases. *)
Lemma runPhases_errors `{Coercions} (dataPoints : list string) (fuel : nat)
    (w : World) (fl : flags) (st0 st : Run) :
  runPhases dataPoints fuel w fl st0 = Some st ->
  errors st =
    errors st0
    ++ (if healthcheck fl then caught "getHealthCheckScoreError" (getHealthCheckScore w (targetusername fl)) else [])
    ++ (if codeanalysis fl then caught "calculateLinesOfCodeError" (codeBody w) else [])
    ++ (if tests fl then caught "runApexTestsError" (testRun w) else [])
    ++ caught "componentSummaryError" (inventoryBody w (selectDataPoints dataPoints fl)).
Proof.
  unfold runPhases. intros Hrun.
  set (st1 := if healthcheck fl then healthPhase w (targetusername fl) st0 else st0) in *.
  set (st2 := if limits fl then limitsPhase w st1 else st1) in *.
  set (st3 := if codeanalysis fl then codePhase w st2 else st2) in *.
  assert (H1 : errors st1 = errors st0
            ++ (if healthcheck fl then caught "getHealthCheckScoreError" (getHealthCheckScore w (targetusername fl)) else [])).
  { subst st1. destruct (healthcheck fl); [apply healthPhase_errors|by rewrite app_nil_r]. }
  assert (H2 : errors st2 = errors st1).
  { subst st2. by destruct (limits fl). }
  assert (H3 : errors st3 = errors st2
            ++ (if codeanalysis fl then caught "calculateLinesOfCodeError" (codeBody w) else [])).
  { subst st3. destruct (codeanalysis fl); [apply codePhase_errors|by rewrite app_nil_r]. }
  destruct (if tests fl then testsPhase fuel w st3 else Some st3) as [st4|] eqn:E4; [|discriminate].
  assert (H4 : errors st4 = errors st3
            ++ (if tests fl then caught "runApexTestsError" (testRun w) else [])).
  { destruct (tests fl); [by apply (testsPhase_errors fuel)|].
    injection E4 as <-. by rewrite app_nil_r. }
  injection Hrun as <-.
  rewrite inventoryPhase_errors, H4, H3, H2, H1. by rewrite <- !app_assoc.
Qed.

(** The phases return as soon as the poll does. *)
Lemma runPhases_returns `{Coercions} (dataPoints : list string) (fuel : nat)
    (w : World) (fl : flags) (st0 : Run) :
  (tests fl = true -> forall id, testRunId w = Some id ->
     is_Some (pollTestRunResult fuel w id)) ->
  is_Some (runPhases dataPoints fuel w fl st0).
Proof.
  intros Hpoll. unfold runPhases. destruct (tests fl); [|done].
  unfold testsPhase. destruct (testRun w); [|done].
  destruct (testRunId w) as [id|] eqn:Eid; [|done].
  destruct (Hpoll eq_refl id eq_refl) as [r ->]. done.
Qed.

Lemma finish_succeeds (w : World) (dir : string) (s : OrgSummary) (keep : bool)
    (out : option string) :
  keep = true \/ cleanUpDirectory w = Ok tt ->
  writeFileSync w = Ok tt ->
  finish w dir s keep out
  = Ok (if str_truthy out then Some (dir +:+ "/orgsummary.json", jsonOfSummary s)
        else None).
Proof.
  intros Hclean Hwrite. unfold finish.
  assert ((if keep then Ok tt else cleanUpDirectory w) = Ok tt) as ->.
  { destruct keep; [done|]. by destruct Hclean. }
  cbn. rewrite Hwrite. by destruct (str_truthy out).
Qed.

Lemma healthPhase_identity (w : World) (orgAlias : option string) (st : Run) :
  identity (baseSummary (healthPhase w orgAlias st)) = identity (baseSummary st).
Proof. unfold healthPhase. by destruct (getHealthCheckScore w orgAlias). Qed.

Lemma codePhase_identity (w : World) (st : Run) :
  identity (baseSummary (codePhase w st)) = identity (baseSummary st).
Proof.
  unfold codePhase.
  destruct (codeSetup w); [|done]. destruct (scannerResults w); [|done].
  destruct (calculateCodeLines w); [|done]. by destruct (chdirBack w).
Qed.

Lemma testsPhase_identity `{Coercions} (fuel : nat) (w : World) (st st' : Run) :
  testsPhase fuel w st = Some st' ->
  identity (baseSummary st') = identity (baseSummary st).
Proof.
  unfold testsPhase. destruct (testRun w); [|by intros [= <-]].
  destruct (testRunId w) as [id|]; [|by intros [= <-]].
  destruct (pollTestRunResult fuel w id); [|discriminate]. by intros [= <-].
Qed.

Lemma inventoryPhase_identity (w : World) (selected : option (list string)) (st : Run) :
  identity (baseSummary (inventoryPhase w selected st)) = identity (baseSummary st).
Proof.
  unfold inventoryPhase. destruct selected as [[|dataPoint rest]|]; try done.
  generalize (queryDataPoints w (dataPoint :: rest)). by intros [queryResults|error].
Qed.

Lemma runPhases_identity `{Coercions} (dataPoints : list string) (fuel : nat)
    (w : World) (fl : flags) (st0 st : Run) :
  runPhases dataPoints fuel w fl st0 = Some st ->
  identity (baseSummary st) = identity (baseSummary st0).
Proof.
  unfold runPhases. intros Hrun.
  set (st1 := if healthcheck fl then healthPhase w (targetusername fl) st0 else st0) in *.
  set (st2 := if limits fl then limitsPhase w st1 else st1) in *.
  set (st3 := if codeanalysis fl then codePhase w st2 else st2) in *.
  assert (H1 : identity (baseSummary st1) = identity (baseSummary st0)).
  { subst st1. destruct (healthcheck fl); [apply healthPhase_identity|done]. }
  assert (H2 : identity (baseSummary st2) = identity (baseSummary st1)).
  { subst st2. by destruct (limits fl). }
  assert (H3 : identity (baseSummary st3) = identity (baseSummary st2)).
  { subst st3. destruct (codeanalysis fl); [apply codePhase_identity|done]. }
  destruct (if tests fl then testsPhase fuel w st3 else Some st3) as [st4|] eqn:E4; [|discriminate].
  assert (H4 : identity (baseSummary st4) = identity (baseSummary st3)).
  { destruct (tests fl); [by apply (testsPhase_identity fuel w)|by injection E4 as <-]. }
  injection Hrun as <-.
  rewrite inventoryPhase_identity. congruence.
Qed.

Lemma getOrgInfo_unresolved (w : World) (e : JsError) :
  orgDisplay w = Throw e ->
  getOrgInfo w = {| username := ""; accessToken := ""; instanceUrl := ""; orgId := "" |}.
Proof. intros E. unfold getOrgInfo. by rewrite E. Qed.

(** *** Outcome state *)

(** C1 (amended).  For a run of [summarizeOrg] that returns, the error list
    it reports is the list accumulated by the phases, and the [ResultState]
    of the report is Failure exactly when that list is not empty and
    Completed exactly when it is empty; it is no longer Pending.  Before the
    phases, the state is Pending in a run that builds its own base
    summary. *)
Theorem result_state_of_run `{Coercions} (dataPoints : list string) (fuel : nat)
    (w : World) (fl : flags) (orgSummary : option OrgSummary) (r : RunResult) :
  summarizeOrg dataPoints fuel w fl orgSummary = Some (Ok r) ->
  (exists st,
      runPhases dataPoints fuel w fl (newRun (initialSummary w orgSummary)) = Some st
      /\ runErrors r = errors st)
  /\ (ResultState (summary r) = "Failure" <-> runErrors r <> [])
  /\ (ResultState (summary r) = "Completed" <-> runErrors r = [])
  /\ ResultState (summary r) <> "Pending"
  /\ ResultState (initialSummary w None) = "Pending".
Proof.
  unfold summarizeOrg. destruct (mkdirSync w); [|discriminate].
  destruct (runPhases _ _ _ _ _) as [st|]; [|discriminate].
  destruct (finish _ _ _ _ _) as [file|]; [|discriminate].
  intros [= <-]. cbn. split; [by exists st|].
  destruct (errors st) as [|item items]; cbn; repeat split; try done.
Qed.

(** A run with the health check selected for a named org, in a world whose
    score query returns no row: the phase throws on [hcScore[0].Score]. *)
Lemma result_state_of_run_witness :
  exists r,
    summarizeOrg [] 0 quietWorld namedHealthFlags None = Some (Ok r)
    /\ runErrors r
       = [EPhase "getHealthCheckScoreError"
                 "Cannot read properties of undefined (reading 'Score')"]
    /\ (ResultState (summary r) = "Failure" <-> runErrors r <> [])
    /\ (ResultState (summary r) = "Completed" <-> runErrors r = [])
    /\ ResultState (summary r) <> "Pending"
    /\ ResultState (initialSummary quietWorld None) = "Pending".
Proof.
  eexists. split; [vm_compute; reflexivity|]. split; [reflexivity|].
  exact (proj2 (result_state_of_run [] 0 quietWorld namedHealthFlags None _ eq_refl)).
Defined.

(** A summary supplied by the caller is taken as it is: before the phases,
    its state is the one it came with. *)
Lemma supplied_summary_is_not_Pending :
  ResultState (initialSummary quietWorld (Some previousSummary)) = "Completed"
  /\ ResultState (initialSummary quietWorld (Some previousSummary)) <> "Pending"
  /\ exists r, summarizeOrg [] 0 quietWorld noFlags (Some previousSummary) = Some (Ok r).
Proof.
  split; [reflexivity|]. split; [discriminate|].
  eexists. vm_compute. reflexivity.
Qed.

(** *** Failure isolation *)

(** C2 (amended).  Provided that the directory of the run can be made, that
    the poll of a submitted test run comes to an end, and that the clean-up
    and the write of [finish] succeed where the phases have left the
    process, the run returns whatever the collectors of the phases answer,
    and its error list holds exactly one entry, keyed by the phase, for each
    selected phase whose body throws: the health check (made for the alias
    of the run), the code analysis, the submission of the test run and the
    inventory queries, in this order, and no other entry.  What a helper
    catches itself is not thrown by the body and leaves no entry.  Without
    the provisos the run need not return: see [stalled_poll_never_returns]
    and [failed_write_rejects_the_run]. *)
Theorem phase_errors_of_run `{Coercions} (dataPoints : list string) (fuel : nat)
    (w : World) (fl : flags) (orgSummary : option OrgSummary) :
  mkdirSync w = Ok tt ->
  (tests fl = true -> forall id, testRunId w = Some id ->
     is_Some (pollTestRunResult fuel w id)) ->
  keepdata fl = true \/ cleanUpDirectory w = Ok tt ->
  writeFileSync w = Ok tt ->
  exists r,
    summarizeOrg dataPoints fuel w fl orgSummary = Some (Ok r)
    /\ runErrors r =
         (if healthcheck fl
          then caught "getHealthCheckScoreError" (getHealthCheckScore w (targetusername fl)) else [])
         ++ (if codeanalysis fl
             then caught "calculateLinesOfCodeError" (codeBody w) else [])
         ++ (if tests fl then caught "runApexTestsError" (testRun w) else [])
         ++ caught "componentSummaryError"
                   (inventoryBody w (selectDataPoints dataPoints fl)).
Proof.
  intros Hmkdir Hpoll Hclean Hwrite.
  destruct (runPhases_returns dataPoints fuel w fl (newRun (initialSummary w orgSummary)) Hpoll)
    as [st Hrun].
  unfold summarizeOrg.
  rewrite Hmkdir, Hrun, (finish_succeeds w _ _ _ _ Hclean Hwrite).
  eexists. split; [reflexivity|]. cbn.
  by rewrite (runPhases_errors dataPoints fuel w fl _ st Hrun).
Qed.

(** A run that selects the health check and the tests, where the score query
    returns no row and the flow coverage command fails: one entry, for the
    health check. *)
Lemma phase_errors_of_run_witness :
  mkdirSync flowsDownWorld = Ok tt
  /\ is_Some (pollTestRunResult 1 flowsDownWorld "707xx0000000001")
  /\ writeFileSync flowsDownWorld = Ok tt
  /\ exists r,
       summarizeOrg [] 1 flowsDownWorld healthAndTestsFlags None = Some (Ok r)
       /\ runErrors r =
            caught "getHealthCheckScoreError"
                   (getHealthCheckScore flowsDownWorld (targetusername healthAndTestsFlags))
            ++ []
            ++ caught "runApexTestsError" (testRun flowsDownWorld)
            ++ caught "componentSummaryError"
                      (inventoryBody flowsDownWorld (selectDataPoints [] healthAndTestsFlags)).
Proof.
  assert (Hpoll : is_Some (pollTestRunResult 1 flowsDownWorld "707xx0000000001")).
  { exists (VStr "Completed", 1). vm_compute. reflexivity. }
  split; [reflexivity|]. split; [exact Hpoll|]. split; [reflexivity|].
  apply (phase_errors_of_run [] 1 flowsDownWorld healthAndTestsFlags None).
  - reflexivity.
  - intros _ id Hid. injection Hid as <-. exact Hpoll.
  - right. reflexivity.
  - reflexivity.
Defined.

(** Without the provisos the run need not return.  While the status query of
    the poll keeps failing, no bound on the number of polls lets the run
    return. *)
Example stalled_poll_never_returns :
  forall fuel, summarizeOrg [] fuel statusDownWorld testsFlags None = None.
Proof.
  intros fuel.
  assert (pollTestRunResult fuel statusDownWorld "707xx0000000001" = None) as Hpoll.
  { apply pollLoop_stuck; [|reflexivity].
    intros tick. exists commandFailed, "ERROR running data:query: request timed out".
    split; reflexivity. }
  unfold summarizeOrg, runPhases, testsPhase. cbn. by rewrite Hpoll.
Qed.

(** The code phase throws where it has left the directory the process was
    started in, and the directory of the run, given relative to it, is no
    longer found by [finish]: the entry of the phase is recorded, and the
    call is rejected with the error of [finish]. *)
Example failed_write_rejects_the_run :
  codeBody movedWorld = Throw commandFailed
  /\ errors <$> runPhases [] 0 movedWorld relativeCodeFlags
                          (newRun (initialSummary movedWorld None))
     = Some [EPhase "calculateLinesOfCodeError" "Command failed: sfdx data:query"]
  /\ summarizeOrg [] 0 movedWorld relativeCodeFlags None = Some (Throw noSuchDirectory).
Proof. repeat split. Qed.

(** The tests phase, when the flow coverage command fails: the error is
    caught inside [getFlowCoveragePercentage] and [getFlowCoverageDetails],
    which return 0 and no detail; the error list of the run stays empty and
    the run is Completed. *)
Lemma flow_coverage_failure_leaves_no_entry :
  tests testsFlags = true
  /\ flowCoverage flowsDownWorld 0 = Throw commandFailed
  /\ flowCoverage flowsDownWorld 1 = Throw commandFailed
  /\ exists r t,
       summarizeOrg [] 1 flowsDownWorld testsFlags None = Some (Ok r)
       /\ runErrors r = []
       /\ ResultState (summary r) = "Completed"
       /\ Tests (summary r) = Some t
       /\ FlowCoverageTotal t = Fin 0
       /\ FlowCoverageDetails t = [].
Proof.
  split; [reflexivity|]. split; [reflexivity|]. split; [reflexivity|].
  eexists. eexists. split; [vm_compute; reflexivity|]. repeat split.
Qed.

(** The limits phase, when the request to the limits endpoint is refused: the
    error is caught inside [checkLimits], the error list of the run stays
    empty and the run is Completed, with an empty limit summary. *)
Lemma limits_failure_leaves_no_entry :
  limits limitsFlags = true
  /\ limitsApi limitsDownWorld = Throw unauthorized
  /\ exists r,
       summarizeOrg [] 0 limitsDownWorld limitsFlags None = Some (Ok r)
       /\ runErrors r = []
       /\ ResultState (summary r) = "Completed"
       /\ Limits (summary r)
          = Some {| Applicable := 0; Reached := 0; Unattained := 0; Details := [] |}.
Proof.
  split; [reflexivity|]. split; [reflexivity|].
  eexists. split; [vm_compute; reflexivity|]. repeat split.
Qed.

(** A run of the inventory alone, over [Type1,Type2]: the unsupported type is
    skipped without an entry in the error list. *)
Example inventory_run :
  selectDataPoints [] inventoryFlags = Some ["Type1"; "Type2"]
  /\ exists r,
       summarizeOrg [] 0 inventoryWorld inventoryFlags None = Some (Ok r)
       /\ Metadata (summary r) = Some (<["Type1" := type1Summary]> ∅)
       /\ runErrors r = []
       /\ ResultState (summary r) = "Completed".
Proof.
  split; [reflexivity|]. eexists. split; [vm_compute; reflexivity|]. repeat split.
Qed.

(** *** Tenant identity *)

(** C9 (amended).  When the tenant identity cannot be resolved, [getOrgInfo]
    returns an identity of empty strings and the run goes on.  Provided that
    the directory of the run can be made, that the poll of a submitted test
    run comes to an end, and that the clean-up and the write of [finish]
    succeed, the phases run to their end and the run returns a report,
    decided on the error list of the phases; the report has an empty
    [OrgId], [Username] and [OrgInstanceURL] when the run builds its own
    base summary, and its JSON text is written to the output directory when
    one is given. *)
Theorem unresolved_identity_does_not_halt `{Coercions} (dataPoints : list string)
    (fuel : nat) (w : World) (fl : flags) (orgSummary : option OrgSummary)
    (e : JsError) :
  orgDisplay w = Throw e ->
  mkdirSync w = Ok tt ->
  (tests fl = true -> forall id, testRunId w = Some id ->
     is_Some (pollTestRunResult fuel w id)) ->
  keepdata fl = true \/ cleanUpDirectory w = Ok tt ->
  writeFileSync w = Ok tt ->
  getOrgInfo w = {| username := ""; accessToken := ""; instanceUrl := ""; orgId := "" |}
  /\ exists r st,
       summarizeOrg dataPoints fuel w fl orgSummary = Some (Ok r)
       /\ runPhases dataPoints fuel w fl (newRun (initialSummary w orgSummary)) = Some st
       /\ runErrors r = errors st
       /\ (ResultState (summary r) = "Completed" <-> errors st = [])
       /\ (orgSummary = None ->
           OrgId (summary r) = "" /\ Username (summary r) = ""
           /\ OrgInstanceURL (summary r) = "")
       /\ persisted r =
            if str_truthy (outputdirectory fl)
            then Some (directoryOf w fl (initialSummary w orgSummary) +:+ "/orgsummary.json",
                       jsonOfSummary (summary r))
            else None.
Proof.
  intros Hinfo Hmkdir Hpoll Hclean Hwrite.
  split; [by apply (getOrgInfo_unresolved w e)|].
  destruct (runPhases_returns dataPoints fuel w fl (newRun (initialSummary w orgSummary)) Hpoll)
    as [st Hrun].
  unfold summarizeOrg.
  rewrite Hmkdir, Hrun, (finish_succeeds w _ _ _ _ Hclean Hwrite).
  eexists. exists st. split; [reflexivity|]. split; [reflexivity|]. cbn.
  split; [reflexivity|].
  split; [by destruct (errors st)|].
  split; [|reflexivity].
  intros ->. apply runPhases_identity in Hrun. cbn in Hrun.
  unfold identity in Hrun. cbn in Hrun.
  rewrite (getOrgInfo_unresolved w e Hinfo) in Hrun. cbn in Hrun.
  injection Hrun as _ -> -> ->. done.
Qed.

(** The identity cannot be resolved and the tests are selected, with an
    output directory: the poll settles at its first query, and the run
    returns and writes its report. *)
Lemma unresolved_identity_does_not_halt_witness :
  orgDisplay orgDownTestsWorld = Throw commandFailed
  /\ mkdirSync orgDownTestsWorld = Ok tt
  /\ tests outputTestsFlags = true
  /\ is_Some (pollTestRunResult 1 orgDownTestsWorld "707xx0000000001")
  /\ cleanUpDirectory orgDownTestsWorld = Ok tt
  /\ writeFileSync orgDownTestsWorld = Ok tt
  /\ getOrgInfo orgDownTestsWorld
     = {| username := ""; accessToken := ""; instanceUrl := ""; orgId := "" |}
  /\ exists r st,
       summarizeOrg [] 1 orgDownTestsWorld outputTestsFlags None = Some (Ok r)
       /\ runPhases [] 1 orgDownTestsWorld outputTestsFlags
                    (newRun (initialSummary orgDownTestsWorld None)) = Some st
       /\ runErrors r = errors st
       /\ (ResultState (summary r) = "Completed" <-> errors st = [])
       /\ (@None OrgSummary = None ->
           OrgId (summary r) = "" /\ Username (summary r) = ""
           /\ OrgInstanceURL (summary r) = "")
       /\ persisted r =
            if str_truthy (outputdirectory outputTestsFlags)
            then Some (directoryOf orgDownTestsWorld outputTestsFlags
                                   (initialSummary orgDownTestsWorld None)
                       +:+ "/orgsummary.json", jsonOfSummary (summary r))
            else None.
Proof.
  assert (Hpoll : is_Some (pollTestRunResult 1 orgDownTestsWorld "707xx0000000001")).
  { exists (VStr "Completed", 1). vm_compute. reflexivity. }
  split; [reflexivity|]. split; [reflexivity|]. split; [reflexivity|].
  split; [exact Hpoll|]. split; [reflexivity|]. split; [reflexivity|].
  apply (unresolved_identity_does_not_halt [] 1 orgDownTestsWorld outputTestsFlags None
           commandFailed).
  - reflexivity.
  - reflexivity.
  - intros _ id Hid. injection Hid as <-. exact Hpoll.
  - right. reflexivity.
  - reflexivity.
Defined.

(** The identity cannot be resolved, no phase is selected and an output
    directory is given: the run returns a Completed report with an empty
    [OrgId], and writes it. *)
Lemma unresolved_identity_still_reports :
  orgDisplay orgDownWorld = Throw commandFailed
  /\ exists r,
       summarizeOrg [] 0 orgDownWorld outputFlags None = Some (Ok r)
       /\ ResultState (summary r) = "Completed"
       /\ OrgId (summary r) = ""
       /\ persisted r = Some ("/srv/reports//1700000000000/orgsummary.json",
                              jsonOfSummary (summary r))
       /\ member "OrgId" (jsonOfSummary (summary r)) = Some (JString "").
Proof.
  split; [reflexivity|]. eexists. split; [vm_compute; reflexivity|].
  repeat split.
Qed.

(** ** Fragments of the report *)

Lemma pushError_namesNoDataPoint (key : string) (e : JsError) (st : Run) :
  String.eqb key "dataPoint" = false ->
  namesNoDataPoint (errors st) -> namesNoDataPoint (errors (pushError key e st)).
Proof.
  intros Hkey Hst dp. cbn. rewrite existsb_app, (Hst dp). cbn. by rewrite Hkey.
Qed.

Lemma healthPhase_namesNoDataPoint (w : World) (orgAlias : option string) (st : Run) :
  namesNoDataPoint (errors st) -> namesNoDataPoint (errors (healthPhase w orgAlias st)).
Proof.
  intros Hst. unfold healthPhase. destruct (getHealthCheckScore w orgAlias); [done|].
  by apply pushError_namesNoDataPoint.
Qed.

Lemma codePhase_namesNoDataPoint (w : World) (st : Run) :
  namesNoDataPoint (errors st) -> namesNoDataPoint (errors (codePhase w st)).
Proof.
  intros Hst. unfold codePhase.
  destruct (codeSetup w); [|by apply pushError_namesNoDataPoint].
  destruct (scannerResults w); [|by apply pushError_namesNoDataPoint].
  destruct (calculateCodeLines w); [|by apply pushError_namesNoDataPoint].
  destruct (chdirBack w); [done|by apply pushError_namesNoDataPoint].
Qed.

Lemma testsPhase_namesNoDataPoint `{Coercions} (fuel : nat) (w : World) (st st' : Run) :
  testsPhase fuel w st = Some st' ->
  namesNoDataPoint (errors st) -> namesNoDataPoint (errors st').
Proof.
  unfold testsPhase. intros Ht Hst.
  destruct (testRun w).
  - destruct (testRunId w) as [id|]; [|by injection Ht as <-].
    destruct (pollTestRunResult fuel w id); [|discriminate]. by injection Ht as <-.
  - injection Ht as <-. by apply pushError_namesNoDataPoint.
Qed.

Lemma calculateComponentSummary_errors (dps : list string)
    (qr : gmap string (list CsvRow)) (errs : list ErrorItem) :
  namesNoDataPoint errs ->
  calculateComponentSummary dps qr errs = calculateComponentSummary dps qr [].
Proof.
  intros Herrs. unfold calculateComponentSummary.
  generalize (∅ : JsObj ComponentSummary).
  induction dps as [|dp dps IH]; intros acc; [reflexivity|].
  cbn [fold_left]. rewrite IH. f_equal.
  unfold summarizeDataPoint. by rewrite (Herrs dp).
Qed.

(** What each phase does to the five fragments. *)

Lemma healthPhase_fragments (w : World) (orgAlias : option string) (st : Run) :
  fragments (baseSummary (healthPhase w orgAlias st))
  = (keepUnless true (okValue (getHealthCheckScore w orgAlias)) (HealthCheck (baseSummary st)),
     Limits (baseSummary st), CodeFragment (baseSummary st), Tests (baseSummary st),
     Metadata (baseSummary st)).
Proof. unfold healthPhase. by destruct (getHealthCheckScore w orgAlias). Qed.

Lemma limitsPhase_fragments `{Coercions} (w : World) (st : Run) :
  fragments (baseSummary (limitsPhase w st))
  = (HealthCheck (baseSummary st), Some (limitSummary (checkLimits w)),
     CodeFragment (baseSummary st), Tests (baseSummary st), Metadata (baseSummary st)).
Proof. reflexivity. Qed.

Lemma codePhase_fragments (w : World) (st : Run) :
  fragments (baseSummary (codePhase w st))
  = (HealthCheck (baseSummary st), Limits (baseSummary st),
     keepUnless true (codeAssigned w) (CodeFragment (baseSummary st)),
     Tests (baseSummary st), Metadata (baseSummary st)).
Proof.
  unfold codePhase, codeAssigned.
  destruct (codeSetup w); [|done]. destruct (scannerResults w); [|done].
  destruct (calculateCodeLines w); [|done]. by destruct (chdirBack w).
Qed.

Lemma testsPhase_fragments `{Coercions} (fuel : nat) (w : World) (st st' : Run) :
  testsPhase fuel w st = Some st' ->
  fragments (baseSummary st')
  = (HealthCheck (baseSummary st), Limits (baseSummary st), CodeFragment (baseSummary st),
     keepUnless true (testsAssigned w) (Tests (baseSummary st)), Metadata (baseSummary st)).
Proof.
  unfold testsPhase, testsAssigned. destruct (testRun w); [|by intros [= <-]].
  destruct (testRunId w) as [id|]; [|by intros [= <-]].
  destruct (pollTestRunResult fuel w id); [|discriminate]. by intros [= <-].
Qed.

Lemma inventoryPhase_fragments (w : World) (selected : option (list string)) (st : Run) :
  namesNoDataPoint (errors st) ->
  fragments (baseSummary (inventoryPhase w selected st))
  = (HealthCheck (baseSummary st), Limits (baseSummary st), CodeFragment (baseSummary st),
     Tests (baseSummary st),
     keepUnless true (metadataAssigned w selected) (Metadata (baseSummary st))).
Proof.
  intros Herrs. unfold inventoryPhase, metadataAssigned.
  destruct selected as [[|dataPoint rest]|]; try done.
  generalize (queryDataPoints w (dataPoint :: rest)). intros [queryResults|error]; [|done].
  by rewrite (calculateComponentSummary_errors _ _ _ Herrs).
Qed.

Lemma runPhases_fragments `{Coercions} (dataPoints : list string) (fuel : nat)
    (w : World) (fl : flags) (s0 : OrgSummary) (st : Run) :
  runPhases dataPoints fuel w fl (newRun s0) = Some st ->
  fragments (baseSummary st)
  = (keepUnless (healthcheck fl) (okValue (getHealthCheckScore w (targetusername fl))) (HealthCheck s0),
     keepUnless (limits fl) (Some (limitSummary (checkLimits w))) (Limits s0),
     keepUnless (codeanalysis fl) (codeAssigned w) (CodeFragment s0),
     keepUnless (tests fl) (testsAssigned w) (Tests s0),
     keepUnless true (metadataAssigned w (selectDataPoints dataPoints fl)) (Metadata s0)).
Proof.
  unfold runPhases. intros Hrun.
  set (st0 := newRun s0) in *.
  set (st1 := if healthcheck fl then healthPhase w (targetusername fl) st0 else st0) in *.
  set (st2 := if limits fl then limitsPhase w st1 else st1) in *.
  set (st3 := if codeanalysis fl then codePhase w st2 else st2) in *.
  assert (H1 : fragments (baseSummary st1)
               = (keepUnless (healthcheck fl) (okValue (getHealthCheckScore w (targetusername fl))) (HealthCheck s0),
                  Limits s0, CodeFragment s0, Tests s0, Metadata s0)
               /\ namesNoDataPoint (errors st1)).
  { subst st1. destruct (healthcheck fl).
    - split; [apply healthPhase_fragments|by apply healthPhase_namesNoDataPoint].
    - by split. }
  destruct H1 as [H1 I1].
  assert (H2 : fragments (baseSummary st2)
               = (keepUnless (healthcheck fl) (okValue (getHealthCheckScore w (targetusername fl))) (HealthCheck s0),
                  keepUnless (limits fl) (Some (limitSummary (checkLimits w))) (Limits s0),
                  CodeFragment s0, Tests s0, Metadata s0)
               /\ namesNoDataPoint (errors st2)).
  { subst st2. destruct (limits fl); [|by split]. split; [|exact I1].
    rewrite limitsPhase_fragments. unfold fragments in H1. by injection H1 as -> _ -> -> ->. }
  destruct H2 as [H2 I2].
  assert (H3 : fragments (baseSummary st3)
               = (keepUnless (healthcheck fl) (okValue (getHealthCheckScore w (targetusername fl))) (HealthCheck s0),
                  keepUnless (limits fl) (Some (limitSummary (checkLimits w))) (Limits s0),
                  keepUnless (codeanalysis fl) (codeAssigned w) (CodeFragment s0),
                  Tests s0, Metadata s0)
               /\ namesNoDataPoint (errors st3)).
  { subst st3. destruct (codeanalysis fl); [|by split].
    split; [|by apply codePhase_namesNoDataPoint].
    rewrite codePhase_fragments. unfold fragments in H2. by injection H2 as -> -> -> -> ->. }
  destruct H3 as [H3 I3].
  destruct (if tests fl then testsPhase fuel w st3 else Some st3) as [st4|] eqn:E4; [|discriminate].
  assert (H4 : fragments (baseSummary st4)
               = (keepUnless (healthcheck fl) (okValue (getHealthCheckScore w (targetusername fl))) (HealthCheck s0),
                  keepUnless (limits fl) (Some (limitSummary (checkLimits w))) (Limits s0),
                  keepUnless (codeanalysis fl) (codeAssigned w) (CodeFragment s0),
                  keepUnless (tests fl) (testsAssigned w) (Tests s0), Metadata s0)
               /\ namesNoDataPoint (errors st4)).
  { destruct (tests fl).
    - split; [|by apply (testsPhase_namesNoDataPoint fuel w st3)].
      rewrite (testsPhase_fragments fuel w st3 st4 E4).
      unfold fragments in H3. by injection H3 as -> -> -> -> ->.
    - injection E4 as <-. by split. }
  destruct H4 as [H4 I4].
  injection Hrun as <-. rewrite (inventoryPhase_fragments _ _ _ I4).
  unfold fragments in H4. by injection H4 as -> -> -> -> ->.
Qed.

Lemma summarizeOrg_returns_inv `{Coercions} (dataPoints : list string) (fuel : nat)
    (w : World) (fl : flags) (orgSummary : option OrgSummary) (r : RunResult) :
  summarizeOrg dataPoints fuel w fl orgSummary = Some (Ok r) ->
  exists st,
    runPhases dataPoints fuel w fl (newRun (initialSummary w orgSummary)) = Some st
    /\ summary r = set_ResultState (ResultState (summary r)) (baseSummary st)
    /\ runErrors r = errors st
    /\ finish w (directoryOf w fl (initialSummary w orgSummary)) (summary r)
              (keepdata fl) (outputdirectory fl) = Ok (persisted r).
Proof.
  unfold summarizeOrg. destruct (mkdirSync w); [|discriminate].
  destruct (runPhases _ _ _ _ _) as [st|]; [|discriminate].
  destruct (finish _ _ _ _ _) as [file|] eqn:Ef; [|discriminate].
  intros [= <-]. exists st. cbn. by repeat split.
Qed.


(** ** The limits of the report *)

Lemma strict_eq_zero (v : JsVal) :
  strict_eq v (VNum (Fin 0)) = true <-> exists q, v = VNum (Fin q) /\ (q == 0)%Q.
Proof.
  split.
  - destruct v as [| |b|[q| | |]|s]; cbn; try discriminate.
    intros E. exists q. split; [reflexivity|]. by apply Qeq_bool_iff.
  - intros (q & -> & E). cbn. by apply Qeq_bool_iff.
Qed.

Lemma unique_key {A} (l : list (string * A)) (k : string) (a b : A) :
  NoDup l.*1 -> (k, a) ∈ l -> (k, b) ∈ l -> a = b.
Proof.
  induction l as [|[k' c] l IH]; cbn; intros Hnd Ha Hb.
  - by apply elem_of_nil in Ha.
  - apply NoDup_cons in Hnd as [Hfresh Hnd].
    apply elem_of_cons in Ha as [Ha|Ha]; apply elem_of_cons in Hb as [Hb|Hb].
    + congruence.
    + injection Ha as -> ->. destruct Hfresh. apply list_elem_of_fmap. by exists (k', b).
    + injection Hb as -> ->. destruct Hfresh. apply list_elem_of_fmap. by exists (k', a).
    + by apply IH.
Qed.

Lemma retainedLimit_inv `{Coercions} (entry : string * option LimitInfo) (limit : Limit) :
  retainedLimit entry = Some limit ->
  exists limitInfo,
    entry = (Name limit, Some limitInfo)
    /\ info_Max limitInfo <> VUndef /\ info_Remaining limitInfo <> VUndef
    /\ Max limit = info_Max limitInfo
    /\ Remaining limit = info_Remaining limitInfo
    /\ Usage limit = js_sub (info_Max limitInfo) (info_Remaining limitInfo)
    /\ Description limit = "Description for " +:+ Name limit.
Proof.
  destruct entry as [key [limitInfo|]]; cbn; [|discriminate].
  destruct (hasBoth limitInfo) eqn:E; [|discriminate].
  apply hasBoth_spec in E as [Hmax Hremaining].
  intros [= <-]. exists limitInfo. by cbn.
Qed.

Lemma retainedLimit_complete `{Coercions} (key : string) (limitInfo : LimitInfo) :
  info_Max limitInfo <> VUndef -> info_Remaining limitInfo <> VUndef ->
  retainedLimit (key, Some limitInfo)
  = Some {| Name := key; Description := "Description for " +:+ key;
            Max := info_Max limitInfo; Remaining := info_Remaining limitInfo;
            Usage := js_sub (info_Max limitInfo) (info_Remaining limitInfo) |}.
Proof.
  intros Hmax Hremaining. cbn.
  by rewrite (proj2 (hasBoth_spec limitInfo) (conj Hmax Hremaining)).
Qed.

(** The limits fragment of a run that selects the limits. *)
Lemma limits_of_run `{Coercions} (dataPoints : list string) (fuel : nat)
    (w : World) (fl : flags) (orgSummary : option OrgSummary) (r : RunResult) :
  limits fl = true ->
  summarizeOrg dataPoints fuel w fl orgSummary = Some (Ok r) ->
  Limits (summary r) = Some (limitSummary (checkLimits w)).
Proof.
  intros Hlimits Hrun. apply summarizeOrg_returns_inv in Hrun as (st & Hphases & Hsum & _).
  apply runPhases_fragments in Hphases. rewrite Hsum. unfold fragments in Hphases.
  cbn. rewrite Hlimits in Hphases. by injection Hphases as _ -> _ _ _.
Qed.

(** C7.  The limits phase of a run that selects the limits, when the request
    answers the payload [data], an object whose entries are taken in the
    order of its keys.  The report has a limits fragment.  Its [Details]
    hold, in order, one row for each entry whose [Max] and [Remaining] are
    both other than undefined, with the name of the entry, its [Max], its
    [Remaining] and [Usage = Max - Remaining] as the subtraction of the
    language gives it: for integers [M] and [R] with a difference below 2^53
    in magnitude, the integer [M - R].  An entry that is no object or that
    misses [Max] or [Remaining] is skipped: no row of [Details] has its
    name.  [Applicable] is the number of rows, [Reached] the number of rows
    whose [Remaining] is the number 0, and [Unattained] their difference. *)
Theorem limits_summary_spec `{Coercions} (dataPoints : list string) (fuel : nat)
    (w : World) (fl : flags) (orgSummary : option OrgSummary) (r : RunResult)
    (data : list (string * option LimitInfo)) :
  limits fl = true ->
  limitsApi w = Ok data ->
  NoDup data.*1 ->
  summarizeOrg dataPoints fuel w fl orgSummary = Some (Ok r) ->
  exists s,
    Limits (summary r) = Some s
    /\ Details s = omap retainedLimit data
    /\ (forall key limitInfo,
          (key, Some limitInfo) ∈ data ->
          info_Max limitInfo <> VUndef -> info_Remaining limitInfo <> VUndef ->
          {| Name := key; Description := "Description for " +:+ key;
             Max := info_Max limitInfo; Remaining := info_Remaining limitInfo;
             Usage := js_sub (info_Max limitInfo) (info_Remaining limitInfo) |}
          ∈ Details s)
    /\ (forall key (M R : Z),
          (key, Some {| info_Max := VNum (Fin (inject_Z M));
                        info_Remaining := VNum (Fin (inject_Z R)) |}) ∈ data ->
          (Z.abs (M - R) < 2 ^ 53)%Z ->
          {| Name := key; Description := "Description for " +:+ key;
             Max := VNum (Fin (inject_Z M)); Remaining := VNum (Fin (inject_Z R));
             Usage := VNum (Fin (inject_Z (M - R))) |}
          ∈ Details s)
    /\ (forall key entry,
          (key, entry) ∈ data ->
          (entry = None
           \/ exists limitInfo,
                entry = Some limitInfo
                /\ (info_Max limitInfo = VUndef \/ info_Remaining limitInfo = VUndef)) ->
          forall limit, limit ∈ Details s -> Name limit <> key)
    /\ (forall limit,
          limit ∈ Details s ->
          exists limitInfo,
            (Name limit, Some limitInfo) ∈ data
            /\ info_Max limitInfo <> VUndef /\ info_Remaining limitInfo <> VUndef
            /\ Max limit = info_Max limitInfo
            /\ Remaining limit = info_Remaining limitInfo
            /\ Usage limit = js_sub (Max limit) (Remaining limit))
    /\ Applicable s = length (Details s)
    /\ Reached s
       = length (filter (fun limit => strict_eq (Remaining limit) (VNum (Fin 0)) = true)
                        (Details s))
    /\ (forall limit,
          strict_eq (Remaining limit) (VNum (Fin 0)) = true
          <-> exists q, Remaining limit = VNum (Fin q) /\ (q == 0)%Q)
    /\ (Reached s <= Applicable s)%nat
    /\ Unattained s = Applicable s - Reached s.
Proof.
  intros Hlimits Hdata Hkeys Hrun.
  exists (limitSummary (checkLimits w)).
  split; [by apply (limits_of_run dataPoints fuel w fl orgSummary)|].
  rewrite (checkLimits_retained w data Hdata). cbn [Details limitSummary Applicable Reached Unattained].
  split; [reflexivity|].
  split.
  { intros key limitInfo Hin Hmax Hremaining. apply list_elem_of_omap.
    exists (key, Some limitInfo). split; [done|]. by apply retainedLimit_complete. }
  split.
  { intros key M R Hin Hsmall. apply list_elem_of_omap.
    eexists. split; [exact Hin|]. rewrite retainedLimit_complete by done.
    cbn [info_Max info_Remaining]. by rewrite js_sub_integers. }
  split.
  { intros key entry Hin Hskipped limit Hlimit Hname.
    apply list_elem_of_omap in Hlimit as (entry' & Hin' & Hkept).
    apply retainedLimit_inv in Hkept as (limitInfo & -> & Hmax & Hremaining & _).
    rewrite Hname in Hin'.
    pose proof (unique_key data key _ _ Hkeys Hin Hin') as ->.
    destruct Hskipped as [|(limitInfo' & [= <-] & [|])]; done. }
  split.
  { intros limit Hlimit.
    apply list_elem_of_omap in Hlimit as (entry & Hin & Hkept).
    apply retainedLimit_inv in Hkept
      as (limitInfo & -> & Hmax & Hremaining & EM & ER & EU & _).
    exists limitInfo. rewrite EM, ER. by repeat split. }
  split; [reflexivity|]. split; [reflexivity|].
  split; [intros limit; apply strict_eq_zero|].
  pose proof (length_filter
                (fun limit => strict_eq (Remaining limit) (VNum (Fin 0)) = true)
                (omap retainedLimit data)).
  split; [lia|reflexivity].
Qed.

(** The payload of two entries, the second without [Remaining]: one row,
    none reached. *)
Lemma limits_summary_spec_witness :
  limits limitsFlags = true
  /\ limitsApi twoLimitsWorld = Ok twoLimits
  /\ NoDup twoLimits.*1
  /\ exists r,
       summarizeOrg [] 0 twoLimitsWorld limitsFlags None = Some (Ok r)
       /\ Limits (summary r)
          = Some {| Applicable := 1; Reached := 0; Unattained := 1;
                    Details := [ {| Name := "DailyApiRequests";
                                    Description := "Description for DailyApiRequests";
                                    Max := VNum (Fin 100); Remaining := VNum (Fin 40);
                                    Usage := VNum (Fin 60) |} ] |}
       /\ exists s,
            Limits (summary r) = Some s
            /\ Details s = omap retainedLimit twoLimits
            /\ (Reached s <= Applicable s)%nat
            /\ Unattained s = Applicable s - Reached s.
Proof.
  assert (Hkeys : NoDup twoLimits.*1).
  { apply (bool_decide_unpack _). vm_compute. exact I. }
  split; [reflexivity|]. split; [reflexivity|]. split; [exact Hkeys|].
  eexists. split; [vm_compute; reflexivity|]. split; [vm_compute; reflexivity|].
  destruct (limits_summary_spec [] 0 twoLimitsWorld limitsFlags None _ twoLimits
              eq_refl eq_refl Hkeys eq_refl)
    as (s & Hs & Hdetails & _ & _ & _ & _ & _ & _ & _ & Hle & Hun).
  exists s. by repeat split.
Defined.

(** A limit with nothing remaining is counted as reached; a [Remaining] that
    is null, or the string 0, is kept and is not counted. *)
Example limits_reached :
  let row name remaining :=
    {| Name := name; Description := "Description for " +:+ name;
       Max := VNum (Fin 5); Remaining := remaining;
       Usage := js_sub (VNum (Fin 5)) remaining |} in
  let rows := [ row "A" (VNum (Fin 0)); row "B" (VNum (Fin 2));
                row "C" VNull; row "D" (VStr "0") ] in
  omap retainedLimit
       [ ("A", Some {| info_Max := VNum (Fin 5); info_Remaining := VNum (Fin 0) |});
         ("B", Some {| info_Max := VNum (Fin 5); info_Remaining := VNum (Fin 2) |});
         ("C", Some {| info_Max := VNum (Fin 5); info_Remaining := VNull |});
         ("D", Some {| info_Max := VNum (Fin 5); info_Remaining := VStr "0" |});
         ("E", None) ]
  = rows
  /\ limitSummary rows
     = {| Applicable := 4; Reached := 1; Unattained := 3; Details := rows |}
  /\ Usage (row "A" (VNum (Fin 0))) = VNum (Fin 5)
  /\ Usage (row "C" VNull) = VNum (Fin 5).
Proof. repeat split; vm_compute; reflexivity. Qed.

(** * Further properties: collectors, report, text helpers and upload *)

(** ** Health check *)

(** X1.  When [getHealthCheckScore] returns, its details are the rows of the risk
    file that it has read (the answer of the risks query, for a run that names
    its org), [Criteria] counts them, [Risks] counts the rows whose [RiskType]
    is not MEETS_STANDARD (a row without that column is counted as a risk),
    and [Compliant] and [Risks] add up to [Criteria]. *)
Theorem health_check_tally (w : World) (orgAlias : option string) (h : HealthCheckSummary) :
  getHealthCheckScore w orgAlias = Ok h ->
  exists hcRisks,
    (if str_truthy orgAlias then healthRisksQuery w else healthRisksStale w) = Ok hcRisks
    /\ hc_Details h = hcRisks
    /\ Criteria h = length hcRisks
    /\ hc_Risks h
       = length (filter (fun risk : CsvRow => risk !! "RiskType" <> Some "MEETS_STANDARD")
                      hcRisks)
    /\ Compliant h + hc_Risks h = Criteria h.
Proof.
  unfold getHealthCheckScore.
  destruct (healthScoreQuery w) as [hcScore|]; [|discriminate].
  destruct (if str_truthy orgAlias then healthRisksQuery w else healthRisksStale w)
    as [hcRisks|]; [|discriminate]. cbn.
  destruct hcScore as [|first rest]; [discriminate|].
  intros [= <-]. exists hcRisks. cbn.
  split; [reflexivity|]. split; [reflexivity|]. split; [reflexivity|].
  set (kept := filter _ hcRisks).
  assert (Hle : length kept <= length hcRisks) by apply length_filter.
  split; [|lia].
  subst kept. f_equal. apply list_filter_iff. intros risk.
  unfold field. destruct (risk !! "RiskType") as [s|]; cbn.
  - rewrite negb_true_iff. split.
    + intros E [= ->]. by rewrite String.eqb_refl in E.
    + intros Hne. apply String.eqb_neq. congruence.
  - split; [discriminate|reflexivity].
Qed.

Lemma health_check_tally_witness :
  exists h,
    getHealthCheckScore healthWorld (Some "admin@example.org") = Ok h
    /\ Criteria h = 3 /\ hc_Risks h = 2 /\ Compliant h = 1
    /\ exists hcRisks,
         healthRisksQuery healthWorld = Ok hcRisks
         /\ hc_Details h = hcRisks
         /\ Criteria h = length hcRisks
         /\ hc_Risks h
            = length (filter (fun risk : CsvRow => risk !! "RiskType" <> Some "MEETS_STANDARD")
                             hcRisks)
         /\ Compliant h + hc_Risks h = Criteria h.
Proof.
  eexists. split; [vm_compute; reflexivity|]. do 3 (split; [reflexivity|]).
  exact (health_check_tally healthWorld (Some "admin@example.org") _ eq_refl).
Defined.

(** X2.  [getHealthCheckScore] reads the answer of the score query, then a
    risks file: for a run that names its org, the answer of the risks query;
    for a run that names none, what [HCR.csv] held before, since both commands
    are then redirected to [HCS.csv].  It returns exactly when the score query
    answers at least one row and the risks file can be read.  When the score
    query answers and the risks file cannot be read, it throws the error of
    that read: this is what a run without an alias meets in a directory made
    for it, where no [HCR.csv] exists. *)
Theorem health_check_returns_iff (w : World) (orgAlias : option string) :
  let risksRead := if str_truthy orgAlias then healthRisksQuery w else healthRisksStale w in
  ((exists h, getHealthCheckScore w orgAlias = Ok h)
   <-> (exists first rest hcRisks,
          healthScoreQuery w = Ok (first :: rest) /\ risksRead = Ok hcRisks))
  /\ (forall hcScore e,
        healthScoreQuery w = Ok hcScore -> risksRead = Throw e ->
        getHealthCheckScore w orgAlias = Throw e)
  /\ (forall e, healthScoreQuery w = Throw e -> getHealthCheckScore w orgAlias = Throw e)
  /\ (forall hcRisks,
        healthScoreQuery w = Ok [] -> risksRead = Ok hcRisks ->
        getHealthCheckScore w orgAlias = Throw (typeError "Score")).
Proof.
  unfold getHealthCheckScore.
  destruct (if str_truthy orgAlias then healthRisksQuery w else healthRisksStale w)
    as [hcRisks|e'];
    destruct (healthScoreQuery w) as [[|first rest]|e'']; cbn;
    (split; [split; [intros [h Hh]; try discriminate; by eauto
                    |intros (f & r & l & Hs & Hr); try discriminate; by eauto]|]);
    (split; [intros hcScore e Hs Hr; congruence|]);
    (split; [intros e Hs; congruence|]);
    intros l Hs Hr; congruence.
Qed.

(** The health check of a run that names no org, in a directory made for the
    run: the score is read, and the read of [HCR.csv] fails. *)
Example health_check_without_alias :
  healthScoreQuery healthWorld = Ok [ {[ "Score" := "87" ]} ]
  /\ getHealthCheckScore healthWorld None = Throw risksFileMissing
  /\ exists r,
       summarizeOrg [] 0 healthWorld healthFlags None = Some (Ok r)
       /\ HealthCheck (summary r) = None
       /\ ResultState (summary r) = "Failure"
       /\ runErrors r
          = [EPhase "getHealthCheckScoreError"
                    "ENOENT: no such file or directory, open 'HCR.csv'"].
Proof.
  split; [reflexivity|]. split; [reflexivity|].
  eexists. split; [vm_compute; reflexivity|]. repeat split.
Qed.

(** ** Flow coverage *)

Lemma percentage_ends (part whole : Z) :
  (0 < whole < 2 ^ 53)%Z ->
  (part = 0%Z ->
   num_mul (num_div (Fin (inject_Z part)) (Fin (inject_Z whole))) (Fin 100) = Fin 0)
  /\ (part = whole ->
      exists r : Q,
        num_mul (num_div (Fin (inject_Z part)) (Fin (inject_Z whole))) (Fin 100) = Fin r
        /\ (r == 100)%Q).
Proof.
  intros Hwhole.
  assert (0 < inject_Z whole)%Q as Hpos.
  { change 0%Q with (inject_Z 0). rewrite <- Zlt_Qlt. lia. }
  rewrite (num_div_pos _ _ Hpos). split.
  - intros ->. unfold round64.
    assert ((inject_Z 0 / inject_Z whole ?= 0)%Q = Eq) as ->.
    { apply Qeq_alt. unfold Qdiv. change (inject_Z 0) with 0%Q. ring. }
    reflexivity.
  - intros ->.
    assert (inject_Z 1 <= inject_Z whole / inject_Z whole)%Q as Hlow.
    { apply Qle_shift_div_l; [assumption|]. change (inject_Z 1) with 1%Q. lra. }
    assert (inject_Z whole / inject_Z whole <= inject_Z 1)%Q as Hhigh.
    { apply Qle_shift_div_r; [assumption|]. change (inject_Z 1) with 1%Q. lra. }
    destruct (round64_between _ 1 1 ltac:(lia) ltac:(reflexivity) Hlow Hhigh)
      as (ratio & -> & Hr0 & Hr1).
    cbn [num_mul]. change (inject_Z 1) with 1%Q in Hr0, Hr1.
    assert (inject_Z 100 <= ratio * 100)%Q as Hp0.
    { change (inject_Z 100) with 100%Q. lra. }
    assert (ratio * 100 <= inject_Z 100)%Q as Hp100.
    { change (inject_Z 100) with 100%Q. lra. }
    destruct (round64_between _ 100 100 ltac:(lia) ltac:(reflexivity) Hp0 Hp100)
      as (r & -> & H0 & H100).
    change (inject_Z 100) with 100%Q in H0, H100.
    exists r. split; [reflexivity|]. lra.
Qed.

(** X3.  [getFlowCoveragePercentage] throws nothing.  It is 0 when the command
    fails, when the answer has no result, when the result has no record and
    when the total of the first record is not above 0.  For a first record
    whose two counts are integers that are not negative, with a total below
    2^53, it is a finite number between 0 and 100: 0 when nothing is covered,
    100 when nothing is left uncovered. *)
Theorem flow_coverage_percentage_range `{Coercions} (w : World) :
  (forall e, flowCoverage w 0 = Throw e -> getFlowCoveragePercentage w = Fin 0)
  /\ (flowCoverage w 0 = Ok None \/ flowCoverage w 0 = Ok (Some []) ->
      getFlowCoveragePercentage w = Fin 0)
  /\ (forall firstRecord rest,
        flowCoverage w 0 = Ok (Some (firstRecord :: rest)) ->
        js_gt_num (js_add (NumElementsCovered firstRecord)
                          (NumElementsNotCovered firstRecord)) (Fin 0) = false ->
        getFlowCoveragePercentage w = Fin 0)
  /\ (forall firstRecord rest (covered notCovered : Z),
        flowCoverage w 0 = Ok (Some (firstRecord :: rest)) ->
        NumElementsCovered firstRecord = VNum (Fin (inject_Z covered)) ->
        NumElementsNotCovered firstRecord = VNum (Fin (inject_Z notCovered)) ->
        (0 <= covered)%Z -> (0 <= notCovered)%Z -> (covered + notCovered < 2 ^ 53)%Z ->
        exists q : Q,
          getFlowCoveragePercentage w = Fin q
          /\ (0 <= q)%Q /\ (q <= 100)%Q
          /\ (covered = 0%Z -> q = 0%Q)
          /\ (notCovered = 0%Z -> (0 < covered)%Z -> (q == 100)%Q)).
Proof.
  unfold getFlowCoveragePercentage. split; [by intros e ->|].
  split; [by intros [->| ->]|].
  split; [by intros firstRecord rest -> ->|].
  intros firstRecord rest covered notCovered -> -> -> Hc Hn Hsum.
  unfold js_add, js_gt_num. cbn [to_number num_add].
  rewrite <- inject_Z_plus, round64_integer by lia.
  destruct (num_gt (Fin (inject_Z (covered + notCovered))) (Fin 0)) eqn:E.
  - apply num_gt_zero in E. change 0%Q with (inject_Z 0) in E. rewrite <- Zlt_Qlt in E.
    destruct (percentage_in_range covered (covered + notCovered)) as (r & Hr & H0 & H100);
      [lia|lia|].
    destruct (percentage_ends covered (covered + notCovered)) as [Hnone Hall]; [lia|].
    exists r. split; [exact Hr|]. split; [exact H0|]. split; [exact H100|]. split.
    + intros Hzero. specialize (Hnone Hzero). congruence.
    + intros Hzero Hpos. destruct Hall as (r' & Hr' & Heq); [lia|]. congruence.
  - exists 0%Q. split; [reflexivity|]. split; [lra|]. split; [lra|]. split; [done|].
    intros -> Hpos. assert (0 < inject_Z (covered + 0))%Q as Hpos'.
    { change 0%Q with (inject_Z 0). rewrite <- Zlt_Qlt. lia. }
    apply num_gt_zero in Hpos'. congruence.
Qed.

Lemma flow_coverage_percentage_range_witness :
  flowCoverage flowsWorld 0 = Ok (Some flowRecords)
  /\ exists q : Q,
       getFlowCoveragePercentage flowsWorld = Fin q
       /\ (0 <= q)%Q /\ (q <= 100)%Q.
Proof.
  split; [reflexivity|].
  destruct (proj2 (proj2 (proj2 (flow_coverage_percentage_range flowsWorld)))
              _ _ 1%Z 2%Z eq_refl eq_refl eq_refl
              ltac:(lia) ltac:(lia) ltac:(reflexivity))
    as (q & Hq & H0 & H100 & _).
  exists q. by repeat split.
Defined.

(** One element covered out of three: the quotient is rounded, then the
    product; the result is the number next below 100/3.  A count that is not
    finite gives a percentage that is not a number, and counts that are
    strings are concatenated before they are divided: one element covered
    and one not give a percentage near 9, for 1 out of 11. *)
Example flow_coverage_percentage_values :
  getFlowCoveragePercentage flowsWorld = Fin (2345624805922133 # 70368744177664)
  /\ (2345624805922133 # 70368744177664 < 100 # 3)%Q
  /\ getFlowCoveragePercentage
       (withFlows (fun _ => Ok (Some [ {| FlowVersionId := VStr "301xx0000000001";
                                          NumElementsCovered := VNum PosInf;
                                          NumElementsNotCovered := VNum (Fin 0) |} ]))
                  (Ok (Some [])) quietWorld)
     = NaN
  /\ getFlowCoveragePercentage
       (withFlows (fun _ => Ok (Some [ {| FlowVersionId := VStr "301xx0000000001";
                                          NumElementsCovered := VStr "1";
                                          NumElementsNotCovered := VStr "1" |} ]))
                  (Ok (Some [])) quietWorld)
     = Fin (5117726849284655 # 562949953421312)
  /\ (5117726849284655 # 562949953421312 < 10)%Q.
Proof. repeat split; vm_compute; reflexivity. Qed.

(** The entry that [getFlowCoverageDetails] makes for a flow definition. *)
Lemma flow_coverage_details_map `{Coercions} (w : World)
    (coverageRecords : list FlowCoverageRecord)
    (flowDefinitions : list FlowDefinitionViewRecord) :
  flowCoverage w 1 = Ok (Some coverageRecords) ->
  flowDefinitionViews w = Ok (Some flowDefinitions) ->
  getFlowCoverageDetails w
  = map (fun flowDef =>
           {| flow_Name := Label flowDef;
              flow_CoveragePercentage :=
                match find (fun coverage =>
                              strict_eq (FlowVersionId coverage) (ActiveVersionId flowDef))
                           coverageRecords with
                | Some c =>
                    num_mul (num_div (to_number (NumElementsCovered c))
                                     (to_number (js_add (NumElementsCovered c)
                                                        (NumElementsNotCovered c))))
                            (Fin 100)
                | None => Fin 0
                end |})
        flowDefinitions.
Proof.
  intros Hcov Hdefs. unfold getFlowCoverageDetails. rewrite Hcov, Hdefs.
  by destruct flowDefinitions.
Qed.

(** X4.  When both of its commands answer, [getFlowCoverageDetails] returns one
    entry for each flow definition, in order and under its label.  The
    percentage is 0 for a flow whose active version has no coverage record;
    otherwise it is computed from the first such record.  When the counts of
    that record are integers, the percentage is not a number if both are 0,
    since this division has no guard; it is a finite number between 0 and
    100 if they are not negative and their total is positive and below
    2^53. *)
Theorem flow_coverage_details_entries `{Coercions} (w : World)
    (coverageRecords : list FlowCoverageRecord)
    (flowDefinitions : list FlowDefinitionViewRecord) :
  flowCoverage w 1 = Ok (Some coverageRecords) ->
  flowDefinitionViews w = Ok (Some flowDefinitions) ->
  Forall2
    (fun flowDef entry =>
       flow_Name entry = Label flowDef
       /\ match find (fun coverage =>
                        strict_eq (FlowVersionId coverage) (ActiveVersionId flowDef))
                     coverageRecords with
          | None => flow_CoveragePercentage entry = Fin 0
          | Some c =>
              forall covered notCovered : Z,
                NumElementsCovered c = VNum (Fin (inject_Z covered)) ->
                NumElementsNotCovered c = VNum (Fin (inject_Z notCovered)) ->
                (covered = 0%Z -> notCovered = 0%Z -> flow_CoveragePercentage entry = NaN)
                /\ ((0 <= covered)%Z -> (0 <= notCovered)%Z ->
                    (0 < covered + notCovered < 2 ^ 53)%Z ->
                    exists q : Q,
                      flow_CoveragePercentage entry = Fin q
                      /\ (0 <= q)%Q /\ (q <= 100)%Q)
          end)
    flowDefinitions (getFlowCoverageDetails w).
Proof.
  intros Hcov Hdefs. rewrite (flow_coverage_details_map w _ _ Hcov Hdefs).
  clear Hdefs. induction flowDefinitions as [|flowDef flowDefs IH]; [constructor|].
  cbn [map]. constructor; [|exact IH].
  cbn [flow_Name flow_CoveragePercentage]. split; [reflexivity|].
  destruct (find _ coverageRecords) as [c|]; [|reflexivity].
  intros covered notCovered -> ->. unfold js_add. cbn [to_number num_add].
  rewrite <- inject_Z_plus. split.
  - intros -> ->. reflexivity.
  - intros Hc Hn Hsum. rewrite round64_integer by lia. cbn [to_number].
    apply percentage_in_range; lia.
Qed.

Lemma flow_coverage_details_witness :
  flowCoverage flowsWorld 1 = Ok (Some flowRecords)
  /\ flowDefinitionViews flowsWorld = Ok (Some flowViews)
  /\ map flow_Name (getFlowCoverageDetails flowsWorld)
     = [VStr "Lead routing"; VStr "Empty flow"; VStr "Case escalation"]
  /\ map flow_CoveragePercentage (getFlowCoverageDetails flowsWorld)
     = [Fin (2345624805922133 # 70368744177664); NaN; Fin 0]
  /\ Forall2
       (fun flowDef entry =>
          flow_Name entry = Label flowDef
          /\ match find (fun coverage =>
                           strict_eq (FlowVersionId coverage) (ActiveVersionId flowDef))
                        flowRecords with
             | None => flow_CoveragePercentage entry = Fin 0
             | Some c =>
                 forall covered notCovered : Z,
                   NumElementsCovered c = VNum (Fin (inject_Z covered)) ->
                   NumElementsNotCovered c = VNum (Fin (inject_Z notCovered)) ->
                   (covered = 0%Z -> notCovered = 0%Z -> flow_CoveragePercentage entry = NaN)
                   /\ ((0 <= covered)%Z -> (0 <= notCovered)%Z ->
                       (0 < covered + notCovered < 2 ^ 53)%Z ->
                       exists q : Q,
                         flow_CoveragePercentage entry = Fin q
                         /\ (0 <= q)%Q /\ (q <= 100)%Q)
             end)
       flowViews (getFlowCoverageDetails flowsWorld).
Proof.
  split; [reflexivity|]. split; [reflexivity|]. split; [vm_compute; reflexivity|].
  split; [vm_compute; reflexivity|].
  exact (flow_coverage_details_entries flowsWorld flowRecords flowViews eq_refl eq_refl).
Defined.

(** ** The query wrapper *)

(** X5.  [queryMetadata] returns the rows that the command answers; when the
    command fails with an error that carries the text of its error stream, it
    returns no row; it throws only for an error without that text, and what
    it throws then is the TypeError of [handleQueryError], not the error of
    the command. *)
Theorem queryMetadata_outcomes (q : string) (answer : result (list CsvRow)) :
  match queryMetadata q answer with
  | Ok rows =>
      answer = Ok rows
      \/ (rows = [] /\ exists e err, answer = Throw e /\ stderr e = Some err)
  | Throw e' =>
      e' = typeError "includes" /\ exists e, answer = Throw e /\ stderr e = None
  end.
Proof.
  destruct answer as [rows|e]; [by left|].
  destruct (stderr e) as [err|] eqn:Herr.
  - rewrite (queryMetadata_command_failure q e err Herr). right. split; [done|]. by exists e, err.
  - rewrite (queryMetadata_other_failure q e Herr). split; [done|]. by exists e.
Qed.

(** ** Inventory queries *)

Lemma queryDataPointsFrom_lookup (w : World) (dps : list string)
    (acc qr : gmap string (list CsvRow)) :
  queryDataPointsFrom w acc dps = Ok qr ->
  forall dp,
    (dp ∈ dps ->
     exists rows, queryMetadata (buildQuery dp) (componentQuery w dp) = Ok rows
                  /\ qr !! dp = Some rows)
    /\ (dp ∉ dps -> qr !! dp = acc !! dp).
Proof.
  revert acc. induction dps as [|d dps IH]; intros acc Hq dp.
  - cbn in Hq. injection Hq as <-. split; [by intros ?%elem_of_nil|done].
  - cbn [queryDataPointsFrom] in Hq.
    destruct (queryMetadata (buildQuery d) (componentQuery w d)) as [rows|e] eqn:Ed;
      [|discriminate].
    cbn in Hq. destruct (IH _ Hq dp) as [Hin Hnin]. split.
    + intros Hdp. destruct (decide (dp ∈ dps)) as [Hmem|Hmem]; [by apply Hin|].
      apply elem_of_cons in Hdp as [->|Hdp]; [|done].
      exists rows. split; [assumption|]. rewrite (Hnin Hmem). apply lookup_insert_eq.
    + intros Hdp. apply not_elem_of_cons in Hdp as [Hne Hdp].
      rewrite (Hnin Hdp). by apply lookup_insert_ne.
Qed.



Lemma queryMetadata_throws (q : string) (answer : result (list CsvRow)) (e' : JsError) :
  queryMetadata q answer = Throw e' ->
  e' = typeError "includes" /\ exists e, answer = Throw e /\ stderr e = None.
Proof.
  destruct answer as [rows|e]; [discriminate|].
  destruct (stderr e) as [err|] eqn:Herr.
  - by rewrite (queryMetadata_command_failure q e err Herr).
  - rewrite (queryMetadata_other_failure q e Herr). intros [= <-]. split; [done|]. by exists e.
Qed.

Lemma queryDataPointsFrom_throws (w : World) (dps : list string)
    (acc : gmap string (list CsvRow)) (e : JsError) :
  queryDataPointsFrom w acc dps = Throw e ->
  e = typeError "includes"
  /\ exists dp e0, dp ∈ dps /\ componentQuery w dp = Throw e0 /\ stderr e0 = None.
Proof.
  revert acc. induction dps as [|d dps IH]; intros acc Hq; [discriminate|].
  cbn [queryDataPointsFrom] in Hq.
  destruct (queryMetadata (buildQuery d) (componentQuery w d)) as [rows|e'] eqn:Hout.
  - cbn in Hq. destruct (IH _ Hq) as (-> & dp & e0 & Hin & Hdp). split; [done|].
    exists dp, e0. split; [by right|assumption].
  - cbn in Hq. injection Hq as <-.
    apply queryMetadata_throws in Hout as (-> & e0 & Hd & Herr). split; [done|].
    exists d, e0. split; [by left|by split].
Qed.

(** ** The report of a run *)

(** X7.  The fragments of the report of a run that returns.  Each of the five
    fragments is the one of the summary the run started from, unless its
    phase is selected and assigns it: the health check when
    [getHealthCheckScore], called with the alias of the run, returns; the
    limits always; the code fragment when the setup, the scanner file and
    the line counts succeed; the tests when the submission succeeds and a
    run identifier is found; and the inventory when types are selected and
    their queries return. *)
Theorem report_fragments `{Coercions} (dataPoints : list string) (fuel : nat)
    (w : World) (fl : flags) (orgSummary : option OrgSummary) (r : RunResult) :
  summarizeOrg dataPoints fuel w fl orgSummary = Some (Ok r) ->
  let s0 := initialSummary w orgSummary in
  HealthCheck (summary r)
  = keepUnless (healthcheck fl) (okValue (getHealthCheckScore w (targetusername fl)))
               (HealthCheck s0)
  /\ Limits (summary r)
     = keepUnless (limits fl) (Some (limitSummary (checkLimits w))) (Limits s0)
  /\ CodeFragment (summary r)
     = keepUnless (codeanalysis fl) (codeAssigned w) (CodeFragment s0)
  /\ Tests (summary r) = keepUnless (tests fl) (testsAssigned w) (Tests s0)
  /\ Metadata (summary r)
     = keepUnless true (metadataAssigned w (selectDataPoints dataPoints fl)) (Metadata s0).
Proof.
  intros Hrun s0. apply summarizeOrg_returns_inv in Hrun as (st & Hphases & Hsum & _).
  apply runPhases_fragments in Hphases. rewrite Hsum. unfold fragments in Hphases.
  cbn. by injection Hphases as -> -> -> -> ->.
Qed.

(** The health check of a run that names its org, and of a run that names
    none: the first has the fragment, the second has not. *)
Lemma report_fragments_witness :
  (exists r,
     summarizeOrg [] 0 healthWorld namedHealthFlags None = Some (Ok r)
     /\ (exists h, HealthCheck (summary r) = Some h /\ Score h = VStr "87" /\ Criteria h = 3)
     /\ (let s0 := initialSummary healthWorld None in
         HealthCheck (summary r)
         = keepUnless (healthcheck namedHealthFlags)
                      (okValue (getHealthCheckScore healthWorld
                                                    (targetusername namedHealthFlags)))
                      (HealthCheck s0)
         /\ Limits (summary r)
            = keepUnless (limits namedHealthFlags)
                         (Some (limitSummary (checkLimits healthWorld))) (Limits s0)
         /\ CodeFragment (summary r)
            = keepUnless (codeanalysis namedHealthFlags) (codeAssigned healthWorld)
                         (CodeFragment s0)
         /\ Tests (summary r)
            = keepUnless (tests namedHealthFlags) (testsAssigned healthWorld) (Tests s0)
         /\ Metadata (summary r)
            = keepUnless true
                         (metadataAssigned healthWorld (selectDataPoints [] namedHealthFlags))
                         (Metadata s0)))
  /\ (exists r,
        summarizeOrg [] 0 healthWorld healthFlags None = Some (Ok r)
        /\ HealthCheck (summary r) = None
        /\ HealthCheck (summary r)
           = keepUnless (healthcheck healthFlags)
                        (okValue (getHealthCheckScore healthWorld (targetusername healthFlags)))
                        (HealthCheck (initialSummary healthWorld None))).
Proof.
  split.
  - eexists. split; [vm_compute; reflexivity|].
    split; [eexists; split; [reflexivity|]; split; reflexivity|].
    exact (report_fragments [] 0 healthWorld namedHealthFlags None _ eq_refl).
  - eexists. split; [vm_compute; reflexivity|]. split; [reflexivity|].
    exact (proj1 (report_fragments [] 0 healthWorld healthFlags None _ eq_refl)).
Defined.

Lemma caught_key {A} (key : string) (body : result A) (item : ErrorItem) :
  item ∈ caught key body -> exists msg, item = EPhase key msg.
Proof.
  destruct body as [a|e]; cbn; [by intros ?%elem_of_nil|].
  intros ->%list_elem_of_singleton. by eexists.
Qed.

(** X8.  The code phase assigns its fragment before it goes back to the
    directory it came from: when that last step throws, the report carries
    the code fragment and the error entry of the phase, and its state is
    Failure. *)
Theorem code_fragment_despite_error `{Coercions} (dataPoints : list string) (fuel : nat)
    (w : World) (fl : flags) (orgSummary : option OrgSummary) (r : RunResult)
    (results : list CsvRow) (codeLines : CodeDetails) (e : JsError) :
  summarizeOrg dataPoints fuel w fl orgSummary = Some (Ok r) ->
  codeanalysis fl = true ->
  codeSetup w = Ok tt ->
  scannerResults w = Ok results ->
  calculateCodeLines w = Ok codeLines ->
  chdirBack w = Throw e ->
  CodeFragment (summary r) = Some (codeAnalysis results codeLines)
  /\ EPhase "calculateLinesOfCodeError" (message e) ∈ runErrors r
  /\ ResultState (summary r) = "Failure".
Proof.
  intros Hrun Hsel Hsetup Hscan Hlines Hback.
  destruct (summarizeOrg_returns_inv _ _ _ _ _ _ Hrun) as (st & Hphases & Hsum & Herrs & _).
  pose proof (runPhases_fragments _ _ _ _ _ _ Hphases) as Hfr.
  pose proof (runPhases_errors _ _ _ _ _ _ Hphases) as Herr.
  assert (Hin : EPhase "calculateLinesOfCodeError" (message e) ∈ runErrors r).
  { rewrite Herrs, Herr, Hsel. unfold codeBody. rewrite Hsetup, Hscan, Hlines, Hback. cbn.
    rewrite !elem_of_app, elem_of_cons. naive_solver. }
  split; [|split; [exact Hin|]].
  - rewrite Hsum. unfold fragments in Hfr. cbn. injection Hfr as _ _ -> _ _.
    rewrite Hsel. unfold codeAssigned. by rewrite Hsetup, Hscan, Hlines.
  - revert Hin. clear -Hrun. unfold summarizeOrg in Hrun.
    destruct (mkdirSync w); [|discriminate].
    destruct (runPhases _ _ _ _ _) as [st|]; [|discriminate].
    destruct (finish _ _ _ _ _) as [file|]; [|discriminate].
    injection Hrun as <-. cbn. destruct (errors st); [by intros ?%elem_of_nil|done].
Qed.

Lemma code_fragment_despite_error_witness :
  exists r codeLines,
    summarizeOrg [] 0 strandedWorld codeFlags None = Some (Ok r)
    /\ calculateCodeLines strandedWorld = Ok codeLines
    /\ chdirBack strandedWorld = Throw noWayBack
    /\ CodeFragment (summary r)
       = Some (codeAnalysis [ {[ "Extension" := "cls" ]} ] codeLines)
    /\ EPhase "calculateLinesOfCodeError" (message noWayBack) ∈ runErrors r
    /\ ResultState (summary r) = "Failure".
Proof.
  eexists. eexists. split; [vm_compute; reflexivity|]. split; [vm_compute; reflexivity|].
  split; [reflexivity|].
  exact (code_fragment_despite_error [] 0 strandedWorld codeFlags None _ _ _ noWayBack
           eq_refl eq_refl eq_refl eq_refl eq_refl eq_refl).
Defined.

(** X9.  When the test run is submitted and no run identifier is found in its
    output, the tests phase is skipped in silence: the report keeps the
    tests fragment it started from, and the error list has no entry of the
    tests phase. *)
Theorem tests_without_run_id `{Coercions} (dataPoints : list string) (fuel : nat)
    (w : World) (fl : flags) (orgSummary : option OrgSummary) (r : RunResult) :
  summarizeOrg dataPoints fuel w fl orgSummary = Some (Ok r) ->
  tests fl = true ->
  testRun w = Ok tt ->
  testRunId w = None ->
  Tests (summary r) = Tests (initialSummary w orgSummary)
  /\ forall msg, EPhase "runApexTestsError" msg ∉ runErrors r.
Proof.
  intros Hrun Hsel Hsub Hid.
  destruct (summarizeOrg_returns_inv _ _ _ _ _ _ Hrun) as (st & Hphases & Hsum & Herrs & _).
  pose proof (runPhases_fragments _ _ _ _ _ _ Hphases) as Hfr.
  pose proof (runPhases_errors _ _ _ _ _ _ Hphases) as Herr.
  split.
  - rewrite Hsum. unfold fragments in Hfr. cbn. injection Hfr as _ _ _ -> _.
    rewrite Hsel. unfold testsAssigned. by rewrite Hsub, Hid.
  - intros msg Hin. rewrite Herrs, Herr, Hsel, Hsub in Hin.
    rewrite !elem_of_app in Hin.
    destruct Hin as [Hin|[Hin|[Hin|[Hin|Hin]]]].
    + by apply elem_of_nil in Hin.
    + destruct (healthcheck fl); [|by apply elem_of_nil in Hin].
      apply caught_key in Hin as [m [=]].
    + destruct (codeanalysis fl); [|by apply elem_of_nil in Hin].
      apply caught_key in Hin as [m [=]].
    + by apply elem_of_nil in Hin.
    + apply caught_key in Hin as [m [=]].
Qed.

Lemma tests_without_run_id_witness :
  exists r,
    summarizeOrg [] 0 noRunIdWorld testsFlags None = Some (Ok r)
    /\ ResultState (summary r) = "Completed"
    /\ Tests (summary r) = Tests (initialSummary noRunIdWorld None)
    /\ forall msg, EPhase "runApexTestsError" msg ∉ runErrors r.
Proof.
  eexists. split; [vm_compute; reflexivity|]. split; [reflexivity|].
  exact (tests_without_run_id [] 0 noRunIdWorld testsFlags None _
           eq_refl eq_refl eq_refl eq_refl).
Defined.

(** X10.  The inventory of the report is computed from the rows of the queries
    with no regard to the errors of the earlier phases: a selected type whose
    query returns at least one row has an entry with the number of rows and
    the [LastModifiedDate] of the first, unless its name is [__proto__]: the
    assignment under that name sets the prototype of the inventory, which
    has no entry of that name. *)
Theorem inventory_entry_of_run `{Coercions} (dataPoints : list string) (fuel : nat)
    (w : World) (fl : flags) (orgSummary : option OrgSummary) (r : RunResult)
    (selected : list string) (queryResults : gmap string (list CsvRow)) :
  summarizeOrg dataPoints fuel w fl orgSummary = Some (Ok r) ->
  selectDataPoints dataPoints fl = Some selected ->
  selected <> [] ->
  queryDataPoints w selected = Ok queryResults ->
  Metadata (summary r) = Some (calculateComponentSummary selected queryResults [])
  /\ (forall dp first more,
        dp ∈ selected ->
        dp <> "__proto__" ->
        queryMetadata (buildQuery dp) (componentQuery w dp) = Ok (first :: more) ->
        exists m,
          Metadata (summary r) = Some m
          /\ m !! dp = Some {| cs_Total := length (first :: more);
                               cs_LastModifiedDate := field first "LastModifiedDate" |})
  /\ (exists m, Metadata (summary r) = Some m /\ m !! "__proto__" = None).
Proof.
  intros Hrun Hsel Hne Hq.
  destruct (summarizeOrg_returns_inv _ _ _ _ _ _ Hrun) as (st & Hphases & Hsum & _).
  pose proof (runPhases_fragments _ _ _ _ _ _ Hphases) as Hfr.
  assert (Hmeta : Metadata (summary r)
                  = Some (calculateComponentSummary selected queryResults [])).
  { rewrite Hsum. unfold fragments in Hfr. cbn. injection Hfr as _ _ _ _ ->.
    rewrite Hsel. destruct selected as [|dataPoint rest]; [done|].
    unfold metadataAssigned. by rewrite Hq. }
  split; [exact Hmeta|]. split.
  - intros dp first more Hin Hproto Hrows. eexists. split; [exact Hmeta|].
    destruct (queryDataPointsFrom_lookup w selected ∅ queryResults Hq dp) as [Hlook _].
    destruct (Hlook Hin) as (rows & Hrows' & Hqr).
    rewrite Hrows in Hrows'. injection Hrows' as <-.
    by apply component_summary_present.
  - eexists. split; [exact Hmeta|]. apply component_summary_proto.
Qed.

Lemma inventory_entry_of_run_witness :
  exists r,
    summarizeOrg [] 0 inventoryWorld inventoryFlags None = Some (Ok r)
    /\ Metadata (summary r)
       = Some (calculateComponentSummary ["Type1"; "Type2"] inventoryResults [])
    /\ (forall dp first more,
          dp ∈ ["Type1"; "Type2"] ->
          dp <> "__proto__" ->
          queryMetadata (buildQuery dp) (componentQuery inventoryWorld dp)
          = Ok (first :: more) ->
          exists m,
            Metadata (summary r) = Some m
            /\ m !! dp = Some {| cs_Total := length (first :: more);
                                 cs_LastModifiedDate := field first "LastModifiedDate" |})
    /\ (exists m, Metadata (summary r) = Some m /\ m !! "__proto__" = None).
Proof.
  eexists. split; [vm_compute; reflexivity|].
  refine (inventory_entry_of_run [] 0 inventoryWorld inventoryFlags None _
            ["Type1"; "Type2"] inventoryResults eq_refl eq_refl _ eq_refl).
  discriminate.
Defined.

(** A run over the one type [__proto__], whose query returns a row: the
    inventory of the report is empty. *)
Example inventory_of_proto :
  exists r,
    summarizeOrg [] 0 protoWorld protoFlags None = Some (Ok r)
    /\ queryMetadata (buildQuery "__proto__") (componentQuery protoWorld "__proto__")
       = Ok [protoRow]
    /\ Metadata (summary r) = Some ∅
    /\ ResultState (summary r) = "Completed".
Proof. eexists. split; [vm_compute; reflexivity|]. repeat split. Qed.

(** The members of an object literal. *)
Lemma member_object_absent (key : string) (properties : list (string * option Json)) :
  key ∉ properties.*1 -> member key (object properties) = None.
Proof.
  unfold object, member. induction properties as [|[k [j|]] properties IH]; cbn.
  - intros _. apply lookup_empty.
  - intros [Hne Hnin]%not_elem_of_cons. rewrite lookup_insert_ne by done. by apply IH.
  - intros [Hne Hnin]%not_elem_of_cons. by apply IH.
Qed.

Lemma member_object (key : string) (value : option Json)
    (properties : list (string * option Json)) :
  NoDup properties.*1 -> (key, value) ∈ properties ->
  member key (object properties) = value.
Proof.
  induction properties as [|[k v] properties IH]; cbn; intros Hnd Hin.
  - by apply elem_of_nil in Hin.
  - apply NoDup_cons in Hnd as [Hfresh Hnd].
    apply elem_of_cons in Hin as [[= -> ->]|Hin].
    + destruct v as [j|].
      * unfold object, member. cbn. apply lookup_insert_eq.
      * change (member k (object properties) = None). by apply member_object_absent.
    + assert (key <> k) as Hne.
      { intros ->. apply Hfresh. apply list_elem_of_fmap. by exists (k, value). }
      specialize (IH Hnd Hin). destruct v as [j|]; [|exact IH].
      unfold object, member in *. cbn. by rewrite lookup_insert_ne.
Qed.

(** The members of the text of a summary. *)
Lemma jsonOfSummary_members (s : OrgSummary) :
  let json := jsonOfSummary s in
  member "Timestamp" json = Some (JString (Timestamp s))
  /\ member "ResultState" json = Some (JString (ResultState s))
  /\ member "OrgId" json = Some (JString (OrgId s))
  /\ member "Username" json = Some (JString (Username s))
  /\ member "OrgInstanceURL" json = Some (JString (OrgInstanceURL s))
  /\ member "HealthCheck" json = jsonOfHealthCheck <$> HealthCheck s
  /\ member "Limits" json = jsonOfLimits <$> Limits s
  /\ member "Code" json = jsonOfCode <$> CodeFragment s
  /\ member "Tests" json = jsonOfTests <$> Tests s
  /\ member "Metadata" json = jsonOfMetadata <$> Metadata s.
Proof.
  unfold jsonOfSummary.
  set (properties := [ ("Timestamp", _); _; _; _; _; _; _; _; _; _ ]).
  assert (NoDup properties.*1) as Hnd.
  { apply (bool_decide_unpack _). vm_compute. exact I. }
  cbn zeta.
  repeat split; apply member_object; try exact Hnd; subst properties;
    rewrite !elem_of_cons; tauto.
Qed.

Lemma jsonOfCode_ratio (c : CodeAnalysis) :
  member "RisksPerLineRatio" (jsonOfCode c) = Some (jsonOfNum (RisksPerLineRatio c)).
Proof.
  unfold jsonOfCode.
  set (properties := [ ("Risks", _); _; _; _; _ ]).
  apply member_object; [apply (bool_decide_unpack _); vm_compute; exact I|].
  subst properties. rewrite !elem_of_cons. tauto.
Qed.

(** X11.  What a run that returns has written: with an output directory that is
    not the empty string, the file [orgsummary.json] in the directory named
    by the output directory, the tenant and the timestamp; with no output
    directory, or an empty one, nothing.  The file holds the text that
    [JSON.stringify] makes of the returned summary: the identity and the
    state, and a member for each fragment that is assigned and none for the
    others; in the code fragment, a ratio of risks per line that is not a
    finite number is written as null. *)
Theorem persisted_report `{Coercions} (dataPoints : list string) (fuel : nat)
    (w : World) (fl : flags) (orgSummary : option OrgSummary) (r : RunResult) :
  summarizeOrg dataPoints fuel w fl orgSummary = Some (Ok r) ->
  (forall d, outputdirectory fl = Some d -> d <> "" ->
     exists json,
       persisted r
       = Some ((d +:+ "/" +:+ orgId (getOrgInfo w) +:+ "/" +:+ Timestamp (summary r))
                 +:+ "/orgsummary.json",
               json)
       /\ json = jsonOfSummary (summary r)
       /\ member "Timestamp" json = Some (JString (Timestamp (summary r)))
       /\ member "ResultState" json = Some (JString (ResultState (summary r)))
       /\ member "OrgId" json = Some (JString (OrgId (summary r)))
       /\ member "HealthCheck" json = jsonOfHealthCheck <$> HealthCheck (summary r)
       /\ member "Limits" json = jsonOfLimits <$> Limits (summary r)
       /\ member "Code" json = jsonOfCode <$> CodeFragment (summary r)
       /\ member "Tests" json = jsonOfTests <$> Tests (summary r)
       /\ member "Metadata" json = jsonOfMetadata <$> Metadata (summary r)
       /\ (forall c, CodeFragment (summary r) = Some c ->
             member "Code" json ≫= member "RisksPerLineRatio"
             = Some match RisksPerLineRatio c with
                    | Fin q => JNumber q
                    | _ => JNull
                    end))
  /\ (outputdirectory fl = None \/ outputdirectory fl = Some "" -> persisted r = None).
Proof.
  intros Hrun.
  destruct (summarizeOrg_returns_inv _ _ _ _ _ _ Hrun) as (st & Hphases & Hsum & _ & Hfin).
  apply runPhases_identity in Hphases. unfold identity in Hphases. cbn in Hphases.
  assert (Hts : Timestamp (summary r) = Timestamp (initialSummary w orgSummary)).
  { rewrite Hsum. cbn. by injection Hphases as -> _ _ _. }
  unfold finish in Hfin.
  destruct (if keepdata fl then Ok () else cleanUpDirectory w); [|discriminate].
  cbn in Hfin. split.
  - intros d Hd Hne. unfold directoryOf in Hfin. rewrite Hd in Hfin. cbn in Hfin.
    apply String.eqb_neq in Hne. rewrite Hne in Hfin. cbn in Hfin.
    destruct (writeFileSync w); [|discriminate]. cbn in Hfin.
    injection Hfin as <-. exists (jsonOfSummary (summary r)).
    destruct (jsonOfSummary_members (summary r))
      as (Mts & Mstate & Mid & _ & _ & Mhealth & Mlimits & Mcode & Mtests & Mmeta).
    split; [by rewrite Hts|]. do 9 (split; [done|]).
    intros c Hc. rewrite Mcode, Hc.
    change (member "RisksPerLineRatio" (jsonOfCode c) = Some (jsonOfNum (RisksPerLineRatio c))).
    apply jsonOfCode_ratio.
  - intros [Hd|Hd]; rewrite Hd in Hfin; cbn in Hfin; by injection Hfin as <-.
Qed.

(** A run over an org without source lines, with an output directory: the
    ratio of the code fragment is not a number, and the file has null in
    its place. *)
Lemma persisted_report_witness :
  exists r json,
    summarizeOrg [] 0 quietWorld outputCodeFlags None = Some (Ok r)
    /\ (RisksPerLineRatio <$> CodeFragment (summary r)) = Some NaN
    /\ persisted r
       = Some (("/srv/reports" +:+ "/" +:+ orgId (getOrgInfo quietWorld) +:+ "/"
                +:+ Timestamp (summary r)) +:+ "/orgsummary.json",
               json)
    /\ json = jsonOfSummary (summary r)
    /\ member "ResultState" json = Some (JString "Completed")
    /\ member "HealthCheck" json = None
    /\ member "Code" json ≫= member "RisksPerLineRatio" = Some JNull.
Proof.
  assert (exists r,
            summarizeOrg [] 0 quietWorld outputCodeFlags None = Some (Ok r)
            /\ (RisksPerLineRatio <$> CodeFragment (summary r)) = Some NaN
            /\ ResultState (summary r) = "Completed"
            /\ HealthCheck (summary r) = None)
    as (r & Hrun & Hnan & Hcompleted & Hnone).
  { vm_compute. eexists. repeat split. }
  destruct (proj1 (persisted_report [] 0 quietWorld outputCodeFlags None r Hrun)
              "/srv/reports" eq_refl ltac:(discriminate))
    as (json & Hfile & Hjson & _ & Hstate & _ & Hhealth & _ & _ & _ & _ & Hratio).
  exists r, json. split; [exact Hrun|]. split; [exact Hnan|].
  split; [exact Hfile|]. split; [exact Hjson|].
  split; [by rewrite Hstate, Hcompleted|]. split; [by rewrite Hhealth, Hnone|].
  destruct (CodeFragment (summary r)) as [c|]; [|discriminate].
  injection Hnan as Hnan. rewrite (Hratio c eq_refl). by rewrite Hnan.
Defined.

(** X12.  A call of [summarizeOrg] is rejected only by the creation of its
    directory and by the two steps of [finish]: the clean-up when the data
    is not kept, and the write when an output directory is given.  No phase
    rejects it. *)
Theorem run_rejections `{Coercions} (dataPoints : list string) (fuel : nat)
    (w : World) (fl : flags) (orgSummary : option OrgSummary) (e : JsError) :
  summarizeOrg dataPoints fuel w fl orgSummary = Some (Throw e) ->
  mkdirSync w = Throw e
  \/ (keepdata fl = false /\ cleanUpDirectory w = Throw e)
  \/ (str_truthy (outputdirectory fl) = true /\ writeFileSync w = Throw e).
Proof.
  unfold summarizeOrg. destruct (mkdirSync w) as [[]|e0]; [|intros [= ->]; by left].
  destruct (runPhases _ _ _ _ _) as [st|]; [|discriminate].
  unfold finish. destruct (keepdata fl).
  - cbn. destruct (str_truthy (outputdirectory fl)); [|discriminate].
    destruct (writeFileSync w) as [[]|e1]; [discriminate|].
    cbn. intros [= ->]. right. right. by split.
  - destruct (cleanUpDirectory w) as [[]|e1]; cbn.
    + destruct (str_truthy (outputdirectory fl)); [|discriminate].
      destruct (writeFileSync w) as [[]|e2]; [discriminate|].
      cbn. intros [= ->]. right. right. by split.
    + intros [= ->]. right. left. by split.
Qed.

Lemma run_rejections_witness :
  summarizeOrg [] 0 readOnlyWorld noFlags None = Some (Throw readOnly)
  /\ (mkdirSync readOnlyWorld = Throw readOnly
      \/ (keepdata noFlags = false /\ cleanUpDirectory readOnlyWorld = Throw readOnly)
      \/ (str_truthy (outputdirectory noFlags) = true
          /\ writeFileSync readOnlyWorld = Throw readOnly)).
Proof.
  split; [reflexivity|].
  exact (run_rejections [] 0 readOnlyWorld noFlags None readOnly eq_refl).
Defined.

Lemma pollLoop_statusAfter (w : World) (jobId : string) (n fuel k : nat) :
  (forall i, k <= i < k + n -> isPending (statusAfter w jobId i) = true) ->
  isPending (statusAfter w jobId (k + n)) = false ->
  n <= fuel ->
  pollLoop fuel w jobId k (statusAfter w jobId k)
  = Some (statusAfter w jobId (k + n), k + n).
Proof.
  revert fuel k. induction n as [|n IH]; intros fuel k Hpending Hfinal Hfuel.
  - rewrite Nat.add_0_r in *. by apply pollLoop_exit.
  - destruct fuel as [|fuel]; [lia|].
    rewrite pollLoop_turn by (apply Hpending; lia).
    change (pollTick w jobId k (statusAfter w jobId k)) with (statusAfter w jobId (S k)).
    replace (k + S n) with (S k + n) in * by lia.
    apply IH; [|assumption|lia]. intros i Hi. apply Hpending. lia.
Qed.

(** X14.  [pollTestRunResult] returns the first status, in the sequence of the
    statuses it reads, that is neither Queued nor Processing, after as many
    turns as it took to read it; with fewer turns allowed it has not
    returned. *)
Theorem poll_returns_first_settled_status (w : World) (jobId : string) (n fuel : nat) :
  (forall i, i < n -> isPending (statusAfter w jobId i) = true) ->
  isPending (statusAfter w jobId n) = false ->
  (n <= fuel -> pollTestRunResult fuel w jobId = Some (statusAfter w jobId n, n))
  /\ (fuel < n -> pollTestRunResult fuel w jobId = None).
Proof.
  intros Hpending Hfinal. split.
  - intros Hfuel. unfold pollTestRunResult.
    apply (pollLoop_statusAfter w jobId n fuel 0); [|assumption|assumption].
    intros i Hi. apply Hpending. lia.
  - intros Hfuel. unfold pollTestRunResult.
    destruct (pollLoop fuel w jobId 0 (VStr "Queued")) as [[final ticks]|] eqn:E; [|reflexivity].
    exfalso.
    assert (Hgen : forall fuel k final ticks,
      pollLoop fuel w jobId k (statusAfter w jobId k) = Some (final, ticks) ->
      final = statusAfter w jobId ticks /\ k <= ticks <= k + fuel).
    { clear. induction fuel as [|fuel IH]; intros k final ticks; cbn.
      - destruct (isPending (statusAfter w jobId k)); [discriminate|].
        intros [= <- <-]. split; [reflexivity|lia].
      - destruct (isPending (statusAfter w jobId k)).
        + change (pollTick w jobId k (statusAfter w jobId k)) with (statusAfter w jobId (S k)).
          intros Hloop. apply IH in Hloop as [-> Hk]. split; [reflexivity|lia].
        + intros [= <- <-]. split; [reflexivity|lia]. }
    destruct (Hgen fuel 0 final ticks E) as [-> Hticks].
    apply pollLoop_result in E as [Hsettled _].
    rewrite (Hpending ticks) in Hsettled; [discriminate|lia].
Qed.

Lemma poll_returns_first_settled_status_witness :
  statusAfter statusRecoversWorld "707xx0000000001" 2 = VStr "Completed"
  /\ (2 <= 5 ->
      pollTestRunResult 5 statusRecoversWorld "707xx0000000001"
      = Some (statusAfter statusRecoversWorld "707xx0000000001" 2, 2))
  /\ (1 < 2 -> pollTestRunResult 1 statusRecoversWorld "707xx0000000001" = None).
Proof.
  split; [reflexivity|].
  assert (forall i, i < 2 ->
            isPending (statusAfter statusRecoversWorld "707xx0000000001" i) = true) as Hpending.
  { intros [|[|i]] Hi; [reflexivity|reflexivity|lia]. }
  split.
  - exact (proj1 (poll_returns_first_settled_status statusRecoversWorld "707xx0000000001"
                    2 5 Hpending eq_refl)).
  - exact (proj2 (poll_returns_first_settled_status statusRecoversWorld "707xx0000000001"
                    2 1 Hpending eq_refl)).
Defined.

(** X15.  A first row without a [Status] column ends the poll at once, with
    [undefined] as the status. *)
Theorem poll_row_without_status (w : World) (jobId : string) (fuel : nat)
    (testJob : CsvRow) (rest : list CsvRow) :
  statusQuery w jobId 0 = Ok (testJob :: rest) ->
  testJob !! "Status" = None ->
  pollTestRunResult (S fuel) w jobId = Some (VUndef, 1).
Proof.
  intros Hq Hcol. unfold pollTestRunResult. rewrite pollLoop_turn by reflexivity.
  rewrite (pollTick_row w jobId 0 _ testJob rest Hq). unfold field. rewrite Hcol.
  by apply pollLoop_exit.
Qed.

Lemma poll_row_without_status_witness :
  statusQuery noStatusWorld "707xx0000000001" 0 = Ok [ {[ "Id" := "707xx0000000001" ]} ]
  /\ pollTestRunResult 1 noStatusWorld "707xx0000000001" = Some (VUndef, 1).
Proof.
  split; [reflexivity|].
  exact (poll_row_without_status noStatusWorld "707xx0000000001" 0 _ [] eq_refl eq_refl).
Defined.

(** ** Lines of code *)

Lemma countCodeLines_balance (w : World) (d e : string) (cl : LinesOfCode) :
  countCodeLines w d e = Ok cl ->
  Code cl = (Z.of_nat (Total cl) - Z.of_nat (Comments cl))%Z.
Proof.
  unfold countCodeLines. destruct (sourceFiles w d e); [|discriminate].
  cbn. by intros [= <-].
Qed.

Lemma fold_left_add_sum {A} (f : A -> nat) (l : list A) (n : nat) :
  fold_left (fun n x => n + f x) l n = n + sum_list (map f l).
Proof.
  revert n. induction l as [|x l IH]; intros n; cbn; [lia|]. rewrite IH. lia.
Qed.

(** X16.  When [calculateCodeLines] returns, [Code] is [Total] minus [Comments]
    for each language and for each of the five directories, and the [Total]
    of a language is the sum of the totals of its directories. *)
Theorem code_lines_balance (w : World) (codeLines : CodeDetails) :
  calculateCodeLines w = Ok codeLines ->
  lang_Code (Apex codeLines)
  = (Z.of_nat (lang_Total (Apex codeLines)) - Z.of_nat (lang_Comments (Apex codeLines)))%Z
  /\ lang_Code (JavaScript codeLines)
     = (Z.of_nat (lang_Total (JavaScript codeLines))
        - Z.of_nat (lang_Comments (JavaScript codeLines)))%Z
  /\ lang_Total (Apex codeLines) = sum_list (map (fun d => Total d.2) (lang_Details (Apex codeLines)))
  /\ lang_Total (JavaScript codeLines)
     = sum_list (map (fun d => Total d.2) (lang_Details (JavaScript codeLines)))
  /\ Forall (fun d => Code d.2 = (Z.of_nat (Total d.2) - Z.of_nat (Comments d.2))%Z)
            (lang_Details (Apex codeLines) ++ lang_Details (JavaScript codeLines)).
Proof.
  unfold calculateCodeLines.
  destruct (countCodeLines w _ ".cls") as [a|] eqn:Ea; [|discriminate].
  destruct (countCodeLines w _ ".trigger") as [t|] eqn:Et; [|discriminate].
  destruct (countCodeLines w "./force-app/main/default/aura" _) as [u|] eqn:Eu; [|discriminate].
  destruct (countCodeLines w "./force-app/main/default/lwc" _) as [l|] eqn:El; [|discriminate].
  destruct (countCodeLines w "./force-app/main/default/staticresources" _) as [s|] eqn:Es;
    [|discriminate].
  cbn. intros [= <-]. cbn.
  apply countCodeLines_balance in Ea, Et, Eu, El, Es.
  repeat split; try lia. repeat constructor; assumption.
Qed.

Lemma code_lines_balance_witness :
  exists codeLines,
    calculateCodeLines codeWorld = Ok codeLines
    /\ lang_Total (Apex codeLines) = 43
    /\ lang_Code (Apex codeLines) = 28%Z
    /\ lang_Code (Apex codeLines)
       = (Z.of_nat (lang_Total (Apex codeLines))
          - Z.of_nat (lang_Comments (Apex codeLines)))%Z
    /\ lang_Code (JavaScript codeLines)
       = (Z.of_nat (lang_Total (JavaScript codeLines))
          - Z.of_nat (lang_Comments (JavaScript codeLines)))%Z
    /\ lang_Total (Apex codeLines)
       = sum_list (map (fun d => Total d.2) (lang_Details (Apex codeLines)))
    /\ lang_Total (JavaScript codeLines)
       = sum_list (map (fun d => Total d.2) (lang_Details (JavaScript codeLines)))
    /\ Forall (fun d => Code d.2 = (Z.of_nat (Total d.2) - Z.of_nat (Comments d.2))%Z)
              (lang_Details (Apex codeLines) ++ lang_Details (JavaScript codeLines)).
Proof.
  eexists. split; [vm_compute; reflexivity|]. split; [reflexivity|]. split; [reflexivity|].
  exact (code_lines_balance codeWorld _ eq_refl).
Defined.

(** X17.  [countCodeLines] adds up, over the files, the lines that are not blank
    and the matches of the comment pattern; [Code] is negative exactly when
    there are more matches than such lines. *)
Theorem code_lines_count_files (w : World) (d e : string) (files : list FileStat) :
  sourceFiles w d e = Ok files ->
  exists cl,
    countCodeLines w d e = Ok cl
    /\ Total cl = sum_list (map nonBlankLines files)
    /\ Comments cl = sum_list (map commentMatches files)
    /\ ((Code cl < 0)%Z
        <-> sum_list (map nonBlankLines files) < sum_list (map commentMatches files)).
Proof.
  intros E. unfold countCodeLines. rewrite E. cbn. eexists. split; [reflexivity|]. cbn.
  rewrite !fold_left_add_sum. cbn. repeat split; lia.
Qed.

Lemma code_lines_count_files_witness :
  exists cl,
    countCodeLines codeWorld "./force-app/main/default/triggers" ".trigger" = Ok cl
    /\ Total cl = sum_list (map nonBlankLines commentedFiles)
    /\ Comments cl = sum_list (map commentMatches commentedFiles)
    /\ ((Code cl < 0)%Z
        <-> sum_list (map nonBlankLines commentedFiles)
            < sum_list (map commentMatches commentedFiles)).
Proof.
  exact (code_lines_count_files codeWorld "./force-app/main/default/triggers" ".trigger"
           commentedFiles eq_refl).
Defined.

(** ** Selection of the data points *)

Lemma split_cons (sep : Ascii.ascii) (s : string) :
  exists segment segments, split sep s = segment :: segments.
Proof.
  induction s as [|c s IH]; cbn; [by eexists _, _|].
  destruct (Ascii.eqb c sep); [by eexists _, _|].
  destruct IH as (segment & segments & ->). by eexists _, _.
Qed.

Lemma split_spec (sep : Ascii.ascii) (s : string) :
  String.concat (String sep "") (split sep s) = s
  /\ length (split sep s) = S (occurrences sep s)
  /\ Forall (fun segment => occurrences sep segment = 0) (split sep s).
Proof.
  induction s as [|c s (Hcat & Hlen & Hall)]; cbn.
  - repeat split; repeat constructor.
  - destruct (Ascii.eqb c sep) eqn:E.
    + apply Ascii.eqb_eq in E as ->. destruct (split_cons sep s) as (segment & segments & Hs).
      rewrite Hs in *. cbn. repeat split.
      * rewrite <- Hcat. reflexivity.
      * cbn in Hlen. lia.
      * constructor; [reflexivity|assumption].
    + destruct (split_cons sep s) as (segment & segments & Hs). rewrite Hs in *.
      repeat split.
      * rewrite <- Hcat. destruct segments; reflexivity.
      * cbn in *. lia.
      * apply Forall_cons in Hall as [Hseg Hall]. constructor; [|assumption].
        cbn. by rewrite E.
Qed.

(** X18.  A [metadata] flag that is not empty selects the segments between its
    commas: there is at least one, joining them with commas gives the flag
    back, there is one more of them than commas in the flag, and none holds
    a comma.  The default list of types is not used. *)
Theorem metadata_flag_round_trip (dataPoints : list string) (fl : flags) (m : string) :
  metadata fl = Some m ->
  m <> "" ->
  exists first rest,
    selectDataPoints dataPoints fl = Some (first :: rest)
    /\ String.concat "," (first :: rest) = m
    /\ length (first :: rest) = S (occurrences comma m)
    /\ Forall (fun name => occurrences comma name = 0) (first :: rest).
Proof.
  intros Hm Hne. unfold selectDataPoints. rewrite Hm.
  destruct m as [|c m]; [done|].
  destruct (split_cons comma (String c m)) as (first & rest & Hs).
  exists first, rest.
  destruct (split_spec comma (String c m)) as (Hcat & Hlen & Hall).
  change (Ascii.ascii_of_nat 44) with comma. rewrite Hs in *.
  split; [reflexivity|]. by repeat split.
Qed.

Lemma metadata_flag_round_trip_witness :
  exists first rest,
    selectDataPoints [] inventoryFlags = Some (first :: rest)
    /\ String.concat "," (first :: rest) = "Type1,Type2"
    /\ length (first :: rest) = S (occurrences comma "Type1,Type2")
    /\ Forall (fun name => occurrences comma name = 0) (first :: rest).
Proof.
  refine (metadata_flag_round_trip [] inventoryFlags "Type1,Type2" eq_refl _).
  discriminate.
Defined.

(** ** The run identifier *)

Lemma code_inj (c : Ascii.ascii) (n : nat) :
  code c = n -> c = Ascii.ascii_of_nat n.
Proof. intros <-. unfold code. by rewrite Ascii.ascii_nat_embedding. Qed.

Lemma append_cons (c : Ascii.ascii) (a b : string) :
  String c a +:+ b = String c (a +:+ b).
Proof. reflexivity. Qed.

Lemma takeAlnum_spec (n : nat) (s id : string) :
  takeAlnum n s = Some id ->
  exists post, s = id +:+ post /\ allChars isAlnum id = true /\ String.length id = n.
Proof.
  revert s id. induction n as [|n IH]; intros s id; cbn.
  - intros [= <-]. by exists s.
  - destruct s as [|c s]; [discriminate|].
    destruct (isAlnum c) eqn:Ec; [|discriminate].
    destruct (takeAlnum n s) as [id'|] eqn:E; [|discriminate].
    cbn. intros [= <-]. destruct (IH _ _ E) as (post & -> & Hall & Hlen).
    exists post. cbn. unfold allChars in *. cbn. rewrite Ec, Hall. by rewrite Hlen.
Qed.

Lemma skipSpaces_spec (s : string) :
  exists ws, s = ws +:+ skipSpaces s /\ allChars isSpace ws = true.
Proof.
  induction s as [|c s (ws & Hs & Hall)]; [by exists ""|].
  cbn. destruct (isSpace c) eqn:Ec.
  - exists (String c ws). split; [by rewrite append_cons, <- Hs|].
    unfold allChars in *. cbn. by rewrite Ec, Hall.
  - by exists "".
Qed.

Lemma matchRunIdAt_spec (s id : string) :
  matchRunIdAt s = Some id ->
  exists ws post,
    s = "-i" +:+ ws +:+ id +:+ post
    /\ allChars isSpace ws = true
    /\ allChars isAlnum id = true
    /\ String.length id = 15.
Proof.
  unfold matchRunIdAt. destruct s as [|c1 [|c2 rest]]; try discriminate.
  destruct (code c1 =? 45)%nat eqn:E1; [|discriminate].
  destruct (code c2 =? 105)%nat eqn:E2; [|discriminate]. cbn [andb].
  apply Nat.eqb_eq, code_inj in E1 as ->. apply Nat.eqb_eq, code_inj in E2 as ->.
  intros Htake. apply takeAlnum_spec in Htake as (post & Hrest & Hall & Hlen).
  destruct (skipSpaces_spec rest) as (ws & Hws & Hspaces).
  exists ws, post. split; [|by repeat split].
  rewrite Hws, Hrest. reflexivity.
Qed.

Lemma matchRunId_spec (s id : string) :
  matchRunId s = Some id ->
  exists pre ws post,
    s = pre +:+ "-i" +:+ ws +:+ id +:+ post
    /\ allChars isSpace ws = true
    /\ allChars isAlnum id = true
    /\ String.length id = 15.
Proof.
  induction s as [|c s IH]; cbn [matchRunId].
  - destruct (matchRunIdAt "") eqn:E; [|discriminate].
    intros [= ->]. apply matchRunIdAt_spec in E as (ws & post & Hs & H). by exists "", ws, post.
  - destruct (matchRunIdAt (String c s)) eqn:E.
    + intros [= ->]. apply matchRunIdAt_spec in E as (ws & post & Hs & H).
      by exists "", ws, post.
    + intros Hrest. destruct (IH Hrest) as (pre & ws & post & -> & H).
      by exists (String c pre), ws, post.
Qed.

Lemma alnum_not_space (c : Ascii.ascii) : isAlnum c = true -> isSpace c = false.
Proof.
  unfold isAlnum, isSpace. generalize (code c). intros n H.
  repeat (apply orb_true_iff in H as [H|H]);
    apply andb_true_iff in H as [H1%Nat.leb_le H2%Nat.leb_le];
    repeat (apply orb_false_iff; split); apply Nat.eqb_neq; lia.
Qed.

Lemma takeAlnum_complete (id post : string) :
  allChars isAlnum id = true ->
  takeAlnum (String.length id) (id +:+ post) = Some id.
Proof.
  unfold allChars. induction id as [|c id IH]; cbn; [done|].
  intros [Hc Hall]%andb_true_iff. rewrite append_cons. cbn. rewrite Hc, (IH Hall). reflexivity.
Qed.

Lemma skipSpaces_complete (ws rest : string) :
  allChars isSpace ws = true ->
  skipSpaces (ws +:+ rest) = skipSpaces rest.
Proof.
  unfold allChars. induction ws as [|c ws IH]; cbn; [done|].
  intros [Hc Hall]%andb_true_iff. rewrite append_cons. cbn. by rewrite Hc, (IH Hall).
Qed.

Lemma matchRunId_prefix (pre s : string) :
  is_Some (matchRunId s) -> is_Some (matchRunId (pre +:+ s)).
Proof.
  intros Hs. induction pre as [|c pre IH]; [assumption|].
  rewrite append_cons. cbn [matchRunId]. by destruct (matchRunIdAt (String c (pre +:+ s))).
Qed.

(** X19.  [extractTestRunId] finds an identifier only in a file that can be read
    and holds the two characters of the option, whitespace, and the
    identifier, which is made of fifteen letters and digits; and it finds one
    in every file that holds such a text. *)
Theorem extractTestRunId_spec (file : result string) :
  (forall id,
     extractTestRunId file = Some id ->
     exists pre ws post,
       file = Ok (pre +:+ "-i" +:+ ws +:+ id +:+ post)
       /\ allChars isSpace ws = true
       /\ allChars isAlnum id = true
       /\ String.length id = 15)
  /\ (forall pre ws id post,
        file = Ok (pre +:+ "-i" +:+ ws +:+ id +:+ post) ->
        allChars isSpace ws = true ->
        allChars isAlnum id = true ->
        String.length id = 15 ->
        is_Some (extractTestRunId file)).
Proof.
  split.
  - intros id. destruct file as [content|e]; [|discriminate]. cbn.
    intros Hm. apply matchRunId_spec in Hm as (pre & ws & post & -> & H).
    by exists pre, ws, post.
  - intros pre ws id post -> Hws Hid Hlen. cbn. apply matchRunId_prefix.
    assert (Hat : matchRunIdAt ("-i" +:+ ws +:+ id +:+ post) = Some id).
    { change ("-i" +:+ ws +:+ id +:+ post)
        with (String (Ascii.ascii_of_nat 45) (String (Ascii.ascii_of_nat 105)
                                                     (ws +:+ id +:+ post))).
      cbn [matchRunIdAt]. change (code (Ascii.ascii_of_nat 45) =? 45)%nat with true.
      change (code (Ascii.ascii_of_nat 105) =? 105)%nat with true. cbn [andb].
      rewrite (skipSpaces_complete ws _ Hws).
      assert (skipSpaces (id +:+ post) = id +:+ post) as ->.
      { destruct id as [|c id]; [discriminate|]. rewrite append_cons. cbn.
        unfold allChars in Hid. cbn in Hid. apply andb_true_iff in Hid as [Hc _].
        by rewrite (alnum_not_space c Hc). }
      rewrite <- Hlen. by apply takeAlnum_complete. }
    remember ("-i" +:+ ws +:+ id +:+ post) as s eqn:E.
    destruct s; cbn [matchRunId]; by rewrite Hat.
Qed.

Lemma extractTestRunId_witness :
  extractTestRunId (Ok testOutput) = Some "707xx0000000001"
  /\ (exists pre ws post,
        Ok testOutput = Ok (pre +:+ "-i" +:+ ws +:+ "707xx0000000001" +:+ post)
        /\ allChars isSpace ws = true
        /\ allChars isAlnum "707xx0000000001" = true
        /\ String.length "707xx0000000001" = 15)
  /\ is_Some (extractTestRunId (Ok testOutput)).
Proof.
  split; [reflexivity|]. split.
  - exact (proj1 (extractTestRunId_spec (Ok testOutput)) "707xx0000000001" eq_refl).
  - exact (proj2 (extractTestRunId_spec (Ok testOutput))
             "Run sfdx force:apex:test:report " " " "707xx0000000001"
             " to retrieve test results." eq_refl eq_refl eq_refl eq_refl).
Defined.

(** ** The scanner file *)

(** X20.  [readCsvFile] returns one record for each line break of the file: a
    file whose last line ends with a line break yields a last record for the
    empty line that follows it. *)
Theorem readCsvFile_count (content : string) :
  exists rows,
    readCsvFile (Ok content) = Ok rows
    /\ length rows = occurrences newline content.
Proof.
  unfold readCsvFile. cbn.
  destruct (split_spec newline content) as (_ & Hlen & _).
  destruct (split newline content) as [|first lines]; [discriminate|].
  eexists. split; [reflexivity|]. rewrite length_map. cbn in Hlen. lia.
Qed.

Lemma csvRecord_fold_other (values : list string) (entries : list (nat * string))
    (acc : gmap string JsVal) (k : string) :
  k ∉ map snd entries \/ k = "__proto__" ->
  fold_left (fun result entry =>
               if String.eqb entry.2 "__proto__" then result
               else <[entry.2 := valueAt values entry.1]> result)
            entries acc !! k
  = acc !! k.
Proof.
  revert acc. induction entries as [|[i h] entries IH]; intros acc Hk; [reflexivity|].
  cbn [fold_left]. rewrite IH.
  - cbn. destruct (String.eqb_spec h "__proto__") as [->|Hproto]; [reflexivity|].
    apply lookup_insert_ne. destruct Hk as [Hk| ->]; [|done].
    cbn in Hk. by apply not_elem_of_cons in Hk as [Hne _].
  - destruct Hk as [Hk| ->]; [left|by right].
    cbn in Hk. by apply not_elem_of_cons in Hk as [_ Hk].
Qed.

Lemma csvRecord_fold_keys (values : list string) (entries : list (nat * string))
    (acc : gmap string JsVal) (k : string) :
  is_Some (fold_left (fun result entry =>
                        if String.eqb entry.2 "__proto__" then result
                        else <[entry.2 := valueAt values entry.1]> result)
                     entries acc !! k)
  <-> (k ∈ map snd entries /\ k <> "__proto__") \/ is_Some (acc !! k).
Proof.
  revert acc. induction entries as [|[i h] entries IH]; intros acc.
  - cbn. split; [by right|]. by intros [[?%elem_of_nil _]|?].
  - cbn [fold_left map]. rewrite IH, elem_of_cons. cbn.
    destruct (String.eqb_spec h "__proto__") as [->|Hproto].
    + split; [intros [[Hk Hne]|Hk]; [left; split; [by right|done]|by right]|].
      intros [[[Hk|Hk] Hne]|Hk]; [done|by left|by right].
    + destruct (decide (h = k)) as [->|Hne].
      * rewrite lookup_insert_eq. split; [intros _; left; split; [by left|done]|].
        intros _. right. by eexists.
      * rewrite lookup_insert_ne by assumption.
        split; [intros [[Hk Hp]|Hk]; [left; split; [by right|done]|by right]|].
        intros [[[Hk|Hk] Hp]|Hk]; [by subst|by left|by right].
Qed.

Lemma csvRecord_fold_value (values : list string) (entries : list (nat * string))
    (acc : gmap string JsVal) (i : nat) (h : string) :
  NoDup (map snd entries) ->
  (i, h) ∈ entries ->
  h <> "__proto__" ->
  fold_left (fun result entry =>
               if String.eqb entry.2 "__proto__" then result
               else <[entry.2 := valueAt values entry.1]> result)
            entries acc !! h
  = Some (valueAt values i).
Proof.
  revert acc. induction entries as [|[j g] entries IH]; intros acc Hnd Hin Hproto.
  - by apply elem_of_nil in Hin.
  - cbn in Hnd. apply NoDup_cons in Hnd as [Hg Hnd]. cbn [fold_left].
    apply elem_of_cons in Hin as [[= -> ->]|Hin].
    + rewrite csvRecord_fold_other by (by left). cbn.
      apply String.eqb_neq in Hproto. rewrite Hproto. apply lookup_insert_eq.
    + by apply IH.
Qed.

Lemma imap_snd (hs : list string) :
  map snd (imap (fun index header => (index, header)) hs) = hs.
Proof.
  assert (forall (f : nat -> nat) (l : list string),
            map snd (imap (fun index header => (f index, header)) l) = l) as Hgen.
  { intros f l. revert f. induction l as [|x l IH]; intros f; [reflexivity|].
    cbn. f_equal. apply (IH (f ∘ S)). }
  apply (Hgen (fun n => n)).
Qed.

Lemma csvRecord_columns (headerNames : list string) (line : string) :
  (forall k, is_Some (csvRecord headerNames line !! k)
             <-> k ∈ headerNames /\ k <> "__proto__")
  /\ (NoDup headerNames ->
      forall index header,
        headerNames !! index = Some header ->
        header <> "__proto__" ->
        csvRecord headerNames line !! header
        = Some (valueAt (map clean (split comma line)) index)).
Proof.
  unfold csvRecord. split.
  - intros k. rewrite csvRecord_fold_keys, imap_snd, lookup_empty.
    split; [intros [?|[? [=]]]; assumption|by left].
  - intros Hnd index header Hlook Hproto. apply csvRecord_fold_value.
    + by rewrite imap_snd.
    + apply elem_of_lookup_imap. by exists index, header.
    + exact Hproto.
Qed.

(** X21.  Every record of [readCsvFile] has as its keys the cleaned names of
    the header line, but for the name [__proto__]: under that name the
    assignment of a string, or of undefined, sets no property.  When the
    names are distinct, each of the others names the cleaned value at its
    position in the line of the record, or [undefined] when the line is too
    short. *)
Theorem readCsvFile_columns (content first : string) (lines : list string)
    (rows : list (gmap string JsVal)) (i : nat) (row : gmap string JsVal) :
  split newline content = first :: lines ->
  readCsvFile (Ok content) = Ok rows ->
  rows !! i = Some row ->
  exists line,
    lines !! i = Some line
    /\ (forall k, is_Some (row !! k)
                  <-> k ∈ map clean (split comma first) /\ k <> "__proto__")
    /\ (NoDup (map clean (split comma first)) ->
        forall index header,
          map clean (split comma first) !! index = Some header ->
          header <> "__proto__" ->
          row !! header = Some (valueAt (map clean (split comma line)) index)).
Proof.
  intros Hsplit Hread Hrow. unfold readCsvFile in Hread. cbn in Hread.
  rewrite Hsplit in Hread. injection Hread as <-.
  apply list_lookup_fmap_Some in Hrow as (line & -> & Hline).
  exists line. split; [exact Hline|]. apply csvRecord_columns.
Qed.

Lemma readCsvFile_columns_witness :
  split newline scannerFile
  = "Problem,Severity,File,Extension"
    :: [ "1,3,/force-app/main/default/classes/A.cls,cls";
         "2,2,/force-app/main/default/lwc/b/b.js,js" ]
  /\ readCsvFile (Ok scannerFile) = Ok scannerRows
  /\ scannerRows !! 1 = Some secondScannerRow
  /\ map clean (split comma "Problem,Severity,File,Extension")
     = ["Problem"; "Severity"; "File"; "Extension"]
  /\ secondScannerRow !! "Extension" = Some (VStr "js")
  /\ exists line,
       [ "1,3,/force-app/main/default/classes/A.cls,cls";
         "2,2,/force-app/main/default/lwc/b/b.js,js" ] !! 1 = Some line
       /\ (forall k, is_Some (secondScannerRow !! k)
                     <-> k ∈ map clean (split comma "Problem,Severity,File,Extension")
                         /\ k <> "__proto__")
       /\ (NoDup (map clean (split comma "Problem,Severity,File,Extension")) ->
           forall index header,
             map clean (split comma "Problem,Severity,File,Extension") !! index = Some header ->
             header <> "__proto__" ->
             secondScannerRow !! header = Some (valueAt (map clean (split comma line)) index)).
Proof.
  assert (split newline scannerFile
          = "Problem,Severity,File,Extension"
            :: [ "1,3,/force-app/main/default/classes/A.cls,cls";
                 "2,2,/force-app/main/default/lwc/b/b.js,js" ]) as Hsplit
    by (vm_compute; reflexivity).
  assert (readCsvFile (Ok scannerFile) = Ok scannerRows) as Hread
    by (vm_compute; reflexivity).
  assert (scannerRows !! 1 = Some secondScannerRow) as Hrow by reflexivity.
  split; [exact Hsplit|]. split; [exact Hread|]. split; [exact Hrow|].
  split; [vm_compute; reflexivity|]. split; [vm_compute; reflexivity|].
  exact (readCsvFile_columns scannerFile _ _ scannerRows 1 secondScannerRow
           Hsplit Hread Hrow).
Defined.

(** A file whose header line names a column [__proto__]: the records have no
    such key. *)
Example readCsvFile_proto_column :
  readCsvFile (Ok (String.concat (String newline EmptyString) ["__proto__,File"; "1,A.cls"]))
  = Ok [ {[ "File" := VStr "A.cls" ]} ].
Proof. vm_compute. reflexivity. Qed.

(** ** The filters of the preprocessed results *)

(** X22.  [filterApexResults] keeps the results whose [Extension] is cls or
    trigger, [filterJavaScriptResults] those whose [Extension] is js, and no
    result passes both. *)
Theorem filtered_results_are_disjoint (preprocessedResults : list (gmap string JsVal))
    (r : gmap string JsVal) :
  (r ∈ filterApexResults preprocessedResults
   <-> r ∈ preprocessedResults
       /\ (r !! "Extension" = Some (VStr "cls") \/ r !! "Extension" = Some (VStr "trigger")))
  /\ (r ∈ filterJavaScriptResults preprocessedResults
      <-> r ∈ preprocessedResults /\ r !! "Extension" = Some (VStr "js"))
  /\ ~ (r ∈ filterApexResults preprocessedResults
        /\ r ∈ filterJavaScriptResults preprocessedResults).
Proof.
  assert (forall ext : string,
            strict_eq (default VUndef (r !! "Extension")) (VStr ext) = true
            <-> r !! "Extension" = Some (VStr ext)) as Hext.
  { intros ext. destruct (r !! "Extension") as [v|]; cbn; [|by split].
    destruct v as [| |b|n|s]; cbn; try by split.
    - by destruct n.
    - destruct (String.eqb_spec s ext) as [->|Hne]; split; try done.
      intros [= ->]. done. }
  assert (r ∈ filterApexResults preprocessedResults
          <-> r ∈ preprocessedResults
              /\ (r !! "Extension" = Some (VStr "cls")
                  \/ r !! "Extension" = Some (VStr "trigger"))) as Hapex.
  { unfold filterApexResults. rewrite list_elem_of_filter, orb_true_iff, !Hext. tauto. }
  assert (r ∈ filterJavaScriptResults preprocessedResults
          <-> r ∈ preprocessedResults /\ r !! "Extension" = Some (VStr "js")) as Hjs.
  { unfold filterJavaScriptResults. rewrite list_elem_of_filter, Hext. tauto. }
  split; [exact Hapex|]. split; [exact Hjs|].
  rewrite Hapex, Hjs. intros [[_ [Ha|Ha]] [_ Hj]]; rewrite Ha in Hj; discriminate.
Qed.

(** ** Upload *)

Section UploadSteps.
Context (c : Connection) (P : Created -> Prop).

Lemma appends_pure {A} (a : A) : appends c P 0 (pure a).
Proof.
  intros trace. exists []. cbn. rewrite app_nil_r. by repeat split.
Qed.

Lemma appends_createRecord (sobject : string) (record : SRecord) :
  P (sobject, record) -> appends c P 1 (createRecord c sobject record).
Proof.
  intros HP trace. unfold createRecord.
  destruct (create c (length trace) sobject record) as [res|e] eqn:E.
  - exists [(sobject, record)]. cbn. repeat split. by constructor.
  - exists []. cbn. rewrite app_nil_r. repeat split; [constructor|lia|].
    by exists sobject, record.
Qed.

Lemma appends_andThen {A B} (m : Step A) (k : A -> Step B) (n n' : nat) :
  appends c P n m -> (forall a, appends c P n' (k a)) ->
  appends c P (n + n') (andThen m k).
Proof.
  intros Hm Hk trace. destruct (Hm trace) as (added & Htrace & HP & Hres).
  unfold andThen. destruct (m trace) as [trace' [a|e]]; cbn in *; subst trace'.
  - destruct (Hk a (trace ++ added)) as (added' & Htrace' & HP' & Hres').
    exists (added ++ added'). rewrite Htrace', <- List.app_assoc. split; [reflexivity|].
    split; [by apply Forall_app|].
    rewrite length_app.
    destruct (k a (trace ++ added)).2 as [b|e]; [lia|].
    destruct Hres' as [Hlt Hcreate]. split; [lia|]. by rewrite List.app_assoc.
  - exists added. split; [reflexivity|]. split; [assumption|].
    destruct Hres as [Hlt Hcreate]. split; [lia|assumption].
Qed.

Lemma appends_createIf {A} (fragment : option A) (sobject : string)
    (record : A -> SRecord) :
  (forall f, fragment = Some f -> P (sobject, record f)) ->
  appends c P (present fragment) (createIf c fragment sobject record).
Proof.
  intros HP. destruct fragment as [f|]; cbn [createIf present]; [|apply appends_pure].
  change 1 with (1 + 0). apply appends_andThen.
  - apply appends_createRecord. by apply HP.
  - intros _. apply appends_pure.
Qed.

Lemma appends_createComponents (metadataSummary : string)
    (metadata : JsObj ComponentSummary) (metadataTypes : list string) :
  (forall entry, P ("Metadata_Component__c", metadataComponentRecord metadataSummary entry)) ->
  Forall (fun metadataType => is_Some (metadata !! metadataType)) metadataTypes ->
  appends c P (length metadataTypes)
          (createComponents c metadataSummary metadata metadataTypes).
Proof.
  intros HP Hown.
  induction Hown as [|metadataType rest [details Hdetails] Hrest IH];
    cbn [createComponents length].
  - apply appends_pure.
  - rewrite Hdetails. change (S (length rest)) with (1 + length rest).
    apply appends_andThen.
    + apply appends_createRecord, HP.
    + intros _. apply IH.
Qed.

End UploadSteps.

Lemma appends_createMetadata (c : Connection) (parent : string)
    (fragment : option (JsObj ComponentSummary)) :
  appends c (linked parent)
          (match fragment with Some m => 1 + length (ownKeys m) | None => 0 end)
          (createMetadata c parent fragment).
Proof.
  destruct fragment as [m|]; cbn [createMetadata]; [|apply appends_pure].
  apply appends_andThen.
  - apply appends_createRecord. by left.
  - intros res. apply appends_createComponents.
    + intros entry. by right.
    + apply Forall_forall. intros metadataType. apply ownKeys_lookup.
Qed.

Lemma appends_createChildren (c : Connection) (s : OrgSummary) (res : UploadSummaryResult) :
  appends c (linked (id res)) (recordCount s - 1) (createChildren c s res).
Proof.
  unfold createChildren, recordCount.
  replace (1 + present (HealthCheck s) + present (CodeFragment s) + present (Tests s)
           + present (Limits s)
           + match Metadata s with Some m => 1 + length (ownKeys m) | None => 0 end - 1)
    with (present (HealthCheck s)
          + (present (CodeFragment s)
             + (present (Tests s)
                + (present (Limits s)
                   + (match Metadata s with Some m => 1 + length (ownKeys m) | None => 0 end + 0)))))
    by lia.
  apply appends_andThen; [apply appends_createIf; intros; by left|intros _].
  apply appends_andThen; [apply appends_createIf; intros; by left|intros _].
  apply appends_andThen; [apply appends_createIf; intros; by left|intros _].
  apply appends_andThen; [apply appends_createIf; intros; by left|intros _].
  apply appends_andThen; [apply appends_createMetadata|intros _].
  apply appends_pure.
Qed.

(** The value that the chain of creates returns is the answer to the first. *)
Lemma andThen_result {A B} (m : Step A) (k : A -> Step B) (trace : list Created) (b : B) :
  (andThen m k trace).2 = Ok b ->
  exists a, (m trace).2 = Ok a /\ (k a (m trace).1).2 = Ok b.
Proof.
  unfold andThen. destruct (m trace) as [trace' [a|e]]; cbn; [|discriminate].
  intros Hk. by exists a.
Qed.

Lemma createChildren_result (c : Connection) (s : OrgSummary)
    (res res' : UploadSummaryResult) (trace : list Created) :
  (createChildren c s res trace).2 = Ok res' -> res' = res.
Proof.
  unfold createChildren. intros Hres.
  repeat (apply andThen_result in Hres as (? & _ & Hres)).
  cbn in Hres. congruence.
Qed.

Lemma uploadSummary_valid (c : Connection) (s : OrgSummary) :
  OrgId s <> "" -> uploadSummary c (inl s) = createAll c s [].
Proof.
  intros Hid. unfold uploadSummary, andThen, pure.
  destruct (String.eqb_spec (OrgId s) ""); [contradiction|reflexivity].
Qed.

Lemma createAll_parent (c : Connection) (s : OrgSummary) (date : string)
    (res : UploadSummaryResult) :
  isoDate c (Timestamp s) = Ok date ->
  create c 0 "OrgSummary__c" (orgSummaryRecord s date) = Ok res ->
  createAll c s [] = createChildren c s res [("OrgSummary__c", orgSummaryRecord s date)].
Proof.
  intros Hdate Hcreate. unfold createAll, andThen, lift, createRecord.
  rewrite Hdate. cbn [length]. by rewrite Hcreate.
Qed.

Lemma createAll_outcomes (c : Connection) (s : OrgSummary) :
  (exists e, isoDate c (Timestamp s) = Throw e /\ createAll c s [] = ([], Throw e))
  \/ (exists date e,
        isoDate c (Timestamp s) = Ok date
        /\ create c 0 "OrgSummary__c" (orgSummaryRecord s date) = Throw e
        /\ createAll c s [] = ([], Throw e))
  \/ (exists date res,
        isoDate c (Timestamp s) = Ok date
        /\ create c 0 "OrgSummary__c" (orgSummaryRecord s date) = Ok res
        /\ createAll c s []
           = createChildren c s res [("OrgSummary__c", orgSummaryRecord s date)]).
Proof.
  destruct (isoDate c (Timestamp s)) as [date|e] eqn:Hdate.
  - destruct (create c 0 "OrgSummary__c" (orgSummaryRecord s date)) as [res|e] eqn:Hcreate.
    + right; right. exists date, res. split; [done|]. split; [done|].
      by apply createAll_parent.
    + right; left. exists date, e. split; [done|]. split; [done|].
      unfold createAll, andThen, lift, createRecord. rewrite Hdate. cbn [length].
      by rewrite Hcreate.
  - left. exists e. split; [reflexivity|].
    unfold createAll, andThen, lift. by rewrite Hdate.
Qed.

Lemma createChildren_trace (c : Connection) (s : OrgSummary) (res : UploadSummaryResult)
    (parent : Created) (trace : list Created) (r : result UploadSummaryResult) :
  createChildren c s res [parent] = (trace, r) ->
  exists rest,
    trace = parent :: rest
    /\ Forall (linked (id res)) rest
    /\ match r with
       | Ok res' => res' = res /\ length trace = recordCount s
       | Throw e =>
           length trace < recordCount s
           /\ exists sobject record, create c (length trace) sobject record = Throw e
       end.
Proof.
  intros E.
  destruct (appends_createChildren c s res [parent]) as (rest & Htrace & Hlinked & Hres).
  pose proof (fun res' => createChildren_result c s res res' [parent]) as Hsame.
  rewrite E in Htrace, Hres, Hsame. cbn [fst snd] in Htrace, Hres, Hsame.
  exists rest. split; [exact Htrace|]. split; [exact Hlinked|].
  assert (1 <= recordCount s) as Hpos by (unfold recordCount; destruct (Metadata s); lia).
  subst trace. cbn [app length] in *. destruct r as [res'|e].
  - split; [by apply Hsame|]. lia.
  - destruct Hres as [Hlt Hcreate]. split; [lia|exact Hcreate].
Qed.

(** X23.  An upload that returns.  The summary names its tenant, the date of the
    summary could be formatted, and the result is the answer to the create of
    the parent record, which is the first record created; every later record
    is a child that names the parent or a component of the inventory; and
    the number of records created is the one the summary asks for. *)
Theorem upload_returns (c : Connection) (s : OrgSummary) (trace : list Created)
    (res : UploadSummaryResult) :
  uploadSummary c (inl s) = (trace, Ok res) ->
  OrgId s <> ""
  /\ exists date rest,
       isoDate c (Timestamp s) = Ok date
       /\ create c 0 "OrgSummary__c" (orgSummaryRecord s date) = Ok res
       /\ trace = ("OrgSummary__c", orgSummaryRecord s date) :: rest
       /\ Forall (linked (id res)) rest
       /\ length trace = recordCount s.
Proof.
  intros Hup.
  assert (OrgId s <> "") as Hid.
  { intros Hid. unfold uploadSummary, andThen, pure in Hup. rewrite Hid in Hup.
    cbn in Hup. discriminate. }
  split; [exact Hid|]. rewrite (uploadSummary_valid c s Hid) in Hup.
  destruct (createAll_outcomes c s)
    as [(e & _ & Hall)|[(date & e & _ & _ & Hall)|(date & res0 & Hdate & Hcreate & Hall)]];
    rewrite Hall in Hup; [discriminate..|].
  apply createChildren_trace in Hup as (rest & Htrace & Hlinked & -> & Hlen).
  by exists date, rest.
Qed.

Lemma upload_returns_witness :
  exists trace res,
    uploadSummary acceptingConnection (inl uploadedSummary) = (trace, Ok res)
    /\ length trace = 5
    /\ id res = "a0Bxx000000000"
    /\ OrgId uploadedSummary <> ""
    /\ exists date rest,
         isoDate acceptingConnection (Timestamp uploadedSummary) = Ok date
         /\ create acceptingConnection 0 "OrgSummary__c" (orgSummaryRecord uploadedSummary date)
            = Ok res
         /\ trace = ("OrgSummary__c", orgSummaryRecord uploadedSummary date) :: rest
         /\ Forall (linked (id res)) rest
         /\ length trace = recordCount uploadedSummary.
Proof.
  eexists. eexists. split; [vm_compute; reflexivity|]. split; [reflexivity|].
  split; [reflexivity|].
  exact (upload_returns acceptingConnection uploadedSummary _ _ eq_refl).
Defined.

(** X24.  An upload that throws.  Either nothing was created (the summary is
    invalid, its date cannot be formatted, or the create of the parent record
    failed), or the parent record and the records created after it stay,
    fewer than the summary asks for, and the error is the one of the create
    that was attempted next: nothing is undone. *)
Theorem upload_throws (c : Connection) (s : OrgSummary) (trace : list Created)
    (e : JsError) :
  uploadSummary c (inl s) = (trace, Throw e) ->
  (trace = []
   /\ ((OrgId s = "" /\ e = invalidSummary)
       \/ isoDate c (Timestamp s) = Throw e
       \/ exists date,
            isoDate c (Timestamp s) = Ok date
            /\ create c 0 "OrgSummary__c" (orgSummaryRecord s date) = Throw e))
  \/ exists date res rest,
       isoDate c (Timestamp s) = Ok date
       /\ create c 0 "OrgSummary__c" (orgSummaryRecord s date) = Ok res
       /\ trace = ("OrgSummary__c", orgSummaryRecord s date) :: rest
       /\ Forall (linked (id res)) rest
       /\ length trace < recordCount s
       /\ exists sobject record, create c (length trace) sobject record = Throw e.
Proof.
  intros Hup. destruct (decide (OrgId s = "")) as [Hid|Hid].
  - left. unfold uploadSummary, andThen, pure in Hup. rewrite Hid in Hup. cbn in Hup.
    injection Hup as <- <-. split; [reflexivity|]. by left.
  - rewrite (uploadSummary_valid c s Hid) in Hup.
    destruct (createAll_outcomes c s)
      as [(e' & Hdate & Hall)|[(date & e' & Hdate & Hcreate & Hall)
                              |(date & res0 & Hdate & Hcreate & Hall)]];
      rewrite Hall in Hup.
    + injection Hup as <- <-. left. split; [reflexivity|]. right. by left.
    + injection Hup as <- <-. left. split; [reflexivity|]. right. right. by exists date.
    + right.
      apply createChildren_trace in Hup as (rest & Htrace & Hlinked & Hlt & Hcreate').
      by exists date, res0, rest.
Qed.

Lemma upload_throws_witness :
  exists trace,
    uploadSummary refusingConnection (inl uploadedSummary) = (trace, Throw storageLimit)
    /\ length trace = 2
    /\ ((trace = []
         /\ ((OrgId uploadedSummary = "" /\ storageLimit = invalidSummary)
             \/ isoDate refusingConnection (Timestamp uploadedSummary) = Throw storageLimit
             \/ exists date,
                  isoDate refusingConnection (Timestamp uploadedSummary) = Ok date
                  /\ create refusingConnection 0 "OrgSummary__c"
                            (orgSummaryRecord uploadedSummary date)
                     = Throw storageLimit))
        \/ exists date res rest,
             isoDate refusingConnection (Timestamp uploadedSummary) = Ok date
             /\ create refusingConnection 0 "OrgSummary__c"
                       (orgSummaryRecord uploadedSummary date) = Ok res
             /\ trace = ("OrgSummary__c", orgSummaryRecord uploadedSummary date) :: rest
             /\ Forall (linked (id res)) rest
             /\ length trace < recordCount uploadedSummary
             /\ exists sobject record,
                  create refusingConnection (length trace) sobject record
                  = Throw storageLimit).
Proof.
  eexists. split; [vm_compute; reflexivity|]. split; [reflexivity|].
  exact (upload_throws refusingConnection uploadedSummary _ storageLimit eq_refl).
Defined.

(** X25.  On a connection that acknowledges every create, the upload of a summary
    that names its tenant, and whose date can be formatted, returns the
    answer to the create of the parent record. *)
Theorem upload_accepted_returns (c : Connection) (s : OrgSummary) (date : string) :
  OrgId s <> "" ->
  isoDate c (Timestamp s) = Ok date ->
  (forall n sobject record, exists res, create c n sobject record = Ok res) ->
  exists trace res,
    uploadSummary c (inl s) = (trace, Ok res)
    /\ create c 0 "OrgSummary__c" (orgSummaryRecord s date) = Ok res.
Proof.
  intros Hid Hdate Hall. destruct (Hall 0 "OrgSummary__c" (orgSummaryRecord s date))
    as [res Hcreate].
  rewrite (uploadSummary_valid c s Hid), (createAll_parent c s date res Hdate Hcreate).
  destruct (createChildren c s res [("OrgSummary__c", orgSummaryRecord s date)])
    as [trace r] eqn:E.
  apply createChildren_trace in E as (rest & Htrace & _ & Hres).
  destruct r as [res'|e].
  - destruct Hres as [-> _]. by exists trace, res.
  - destruct Hres as (_ & sobject & record & Hthrow).
    destruct (Hall (length trace) sobject record) as [res' Hok]. congruence.
Qed.

Lemma upload_accepted_returns_witness :
  OrgId uploadedSummary <> ""
  /\ isoDate acceptingConnection (Timestamp uploadedSummary) = Ok "2023-11-14T22:13:20.000Z"
  /\ exists trace res,
       uploadSummary acceptingConnection (inl uploadedSummary) = (trace, Ok res)
       /\ create acceptingConnection 0 "OrgSummary__c"
                 (orgSummaryRecord uploadedSummary "2023-11-14T22:13:20.000Z")
          = Ok res.
Proof.
  assert (OrgId uploadedSummary <> "") as Hid by discriminate.
  split; [exact Hid|]. split; [reflexivity|].
  exact (upload_accepted_returns acceptingConnection uploadedSummary
           "2023-11-14T22:13:20.000Z" Hid eq_refl
           (fun n _ _ => ex_intro _ (acknowledge n) eq_refl)).
Defined.

(** *** The records of the inventory *)

Lemma andThen_returns {A B} (m : Step A) (k : A -> Step B) (trace trace' : list Created)
    (b : B) :
  andThen m k trace = (trace', Ok b) ->
  exists a trace1, m trace = (trace1, Ok a) /\ k a trace1 = (trace', Ok b).
Proof.
  unfold andThen. destruct (m trace) as [trace1 [a|e]]; [|discriminate].
  intros Hk. by exists a, trace1.
Qed.

Lemma createRecord_returns (c : Connection) (sobject : string) (record : SRecord)
    (trace trace' : list Created) (res : UploadSummaryResult) :
  createRecord c sobject record trace = (trace', Ok res) ->
  create c (length trace) sobject record = Ok res /\ trace' = trace ++ [(sobject, record)].
Proof.
  unfold createRecord. destruct (create c (length trace) sobject record) as [res0|e];
    [|discriminate].
  intros [= <- <-]. by split.
Qed.

Lemma createComponents_returns (c : Connection) (metadataSummary : string)
    (metadata : JsObj ComponentSummary) (metadataTypes : list string)
    (trace trace' : list Created) (u : unit) :
  createComponents c metadataSummary metadata metadataTypes trace = (trace', Ok u) ->
  trace' = trace ++ componentRecords metadataSummary metadata metadataTypes.
Proof.
  revert trace.
  induction metadataTypes as [|metadataType rest IH]; intros trace;
    cbn [createComponents componentRecords omap list_omap].
  - intros [= <-]. by rewrite app_nil_r.
  - destruct (metadata !! metadataType) as [details|]; [|discriminate]. cbn [fmap option_fmap option_map].
    intros Hrun. apply andThen_returns in Hrun as (res & trace1 & Hcreate & Hrest).
    apply createRecord_returns in Hcreate as [_ ->]. apply IH in Hrest as ->.
    by rewrite <- List.app_assoc.
Qed.

(** The component records of the own keys of an inventory: one for each key,
    under its name. *)
Lemma componentRecords_names (metadataSummary : string) (metadata : JsObj ComponentSummary)
    (metadataTypes : list string) :
  Forall (fun metadataType => is_Some (metadata !! metadataType)) metadataTypes ->
  map (fun created : Created => (created.1, fieldOf created.2 "Name",
                                 fieldOf created.2 "Metadata__c"))
      (componentRecords metadataSummary metadata metadataTypes)
  = map (fun metadataType =>
           ("Metadata_Component__c", Some (FVal (VStr metadataType)),
            Some (FVal (VStr metadataSummary))))
        metadataTypes.
Proof.
  intros Hown. induction Hown as [|metadataType rest [details Hdetails] Hrest IH];
    [reflexivity|].
  cbn [componentRecords omap list_omap]. rewrite Hdetails. cbn [fmap option_fmap option_map map].
  f_equal. exact IH.
Qed.

(** X26.  An upload that returns, for a summary with an inventory: the last
    records created are the record of the inventory, which names the parent,
    followed by one component for each key of the inventory, in the order
    of [Object.keys]; each has the name of its key and the total and the
    date of the entry under that key, and names the answer to the create of
    the record of the inventory. *)
Theorem upload_inventory_records (c : Connection) (s : OrgSummary)
    (m : JsObj ComponentSummary) (trace : list Created) (res : UploadSummaryResult) :
  Metadata s = Some m ->
  uploadSummary c (inl s) = (trace, Ok res) ->
  exists front metadataSummaryResult,
    let components := componentRecords (id metadataSummaryResult) m (ownKeys m) in
    create c (length front) "MetadataSummary__c" (metadataSummaryRecord (id res))
    = Ok metadataSummaryResult
    /\ trace = front
               ++ ("MetadataSummary__c", metadataSummaryRecord (id res)) :: components
    /\ map (fun created : Created => (created.1, fieldOf created.2 "Name",
                                      fieldOf created.2 "Metadata__c"))
           components
       = map (fun metadataType =>
                ("Metadata_Component__c", Some (FVal (VStr metadataType)),
                 Some (FVal (VStr (id metadataSummaryResult)))))
             (ownKeys m)
    /\ (forall index metadataType,
          ownKeys m !! index = Some metadataType ->
          exists details,
            m !! metadataType = Some details
            /\ components !! index
               = Some ("Metadata_Component__c",
                       [ ("Name", FVal (VStr metadataType));
                         ("Metadata__c", FVal (VStr (id metadataSummaryResult)));
                         ("Total__c", FVal (VNum (num_of_nat (cs_Total details))));
                         ("Last_Modified__c", FDate (cs_LastModifiedDate details)) ])).
Proof.
  intros Hm Hup.
  assert (OrgId s <> "") as Hid.
  { intros Hid. unfold uploadSummary, andThen, pure in Hup. rewrite Hid in Hup.
    cbn in Hup. discriminate. }
  rewrite (uploadSummary_valid c s Hid) in Hup.
  destruct (createAll_outcomes c s)
    as [(e & _ & Hall)|[(date & e & _ & _ & Hall)|(date & res0 & Hdate & Hcreate & Hall)]];
    rewrite Hall in Hup; [discriminate..|].
  assert (res = res0) as <-.
  { apply (createChildren_result c s res0 res [("OrgSummary__c", orgSummaryRecord s date)]).
    by rewrite Hup. }
  unfold createChildren in Hup. rewrite Hm in Hup.
  apply andThen_returns in Hup as (? & trace1 & _ & Hup).
  apply andThen_returns in Hup as (? & trace2 & _ & Hup).
  apply andThen_returns in Hup as (? & trace3 & _ & Hup).
  apply andThen_returns in Hup as (? & front & _ & Hup).
  apply andThen_returns in Hup as (u & trace5 & Hmeta & Hpure).
  injection Hpure as ->. cbn [createMetadata] in Hmeta.
  apply andThen_returns in Hmeta as (ms & trace4 & Hcreate' & Hcomponents).
  apply createRecord_returns in Hcreate' as [Hcreate' ->].
  apply createComponents_returns in Hcomponents as ->.
  assert (Forall (fun metadataType => is_Some (m !! metadataType)) (ownKeys m)) as Hown.
  { apply Forall_forall. intros metadataType. apply ownKeys_lookup. }
  exists front, ms. cbn zeta. split; [exact Hcreate'|].
  split; [by rewrite <- List.app_assoc|].
  split; [by apply componentRecords_names|].
  intros index metadataType Hindex.
  revert index Hindex. induction Hown as [|key rest [details Hdetails] Hrest IH];
    intros index Hindex; [by destruct index|].
  cbn [componentRecords omap list_omap]. rewrite Hdetails.
  cbn [fmap option_fmap option_map].
  destruct index as [|index].
  - injection Hindex as <-. exists details. by split.
  - apply (IH index Hindex).
Qed.

Lemma upload_inventory_records_witness :
  exists m trace res,
    Metadata uploadedSummary = Some m
    /\ ownKeys m = ["Flow"; "ApexClass"]
    /\ uploadSummary acceptingConnection (inl uploadedSummary) = (trace, Ok res)
    /\ exists front metadataSummaryResult,
         let components := componentRecords (id metadataSummaryResult) m (ownKeys m) in
         create acceptingConnection (length front) "MetadataSummary__c"
                (metadataSummaryRecord (id res))
         = Ok metadataSummaryResult
         /\ trace = front
                    ++ ("MetadataSummary__c", metadataSummaryRecord (id res)) :: components
         /\ map (fun created : Created => (created.1, fieldOf created.2 "Name",
                                           fieldOf created.2 "Metadata__c"))
                components
            = map (fun metadataType =>
                     ("Metadata_Component__c", Some (FVal (VStr metadataType)),
                      Some (FVal (VStr (id metadataSummaryResult)))))
                  ["Flow"; "ApexClass"].
Proof.
  eexists. eexists. eexists. split; [reflexivity|]. split; [reflexivity|].
  split; [vm_compute; reflexivity|].
  destruct (upload_inventory_records acceptingConnection uploadedSummary _ _ _
              eq_refl eq_refl) as (front & ms & Hcreate & Htrace & Hnames & _).
  exists front, ms. by repeat split.
Defined.

(** X27.  A run that cannot resolve the tenant identity and builds its own base
    summary returns a report that [uploadSummary] rejects before any record
    is created. *)
Theorem unresolved_identity_report_is_rejected `{Coercions} (dataPoints : list string)
    (fuel : nat) (w : World) (fl : flags) (e : JsError) (r : RunResult) (c : Connection) :
  orgDisplay w = Throw e ->
  summarizeOrg dataPoints fuel w fl None = Some (Ok r) ->
  uploadSummary c (inl (summary r)) = ([], Throw invalidSummary).
Proof.
  intros Hinfo Hrun.
  assert (OrgId (summary r) = "") as Hid.
  { unfold summarizeOrg in Hrun.
    destruct (mkdirSync w); [|discriminate].
    destruct (runPhases dataPoints fuel w fl (newRun (initialSummary w None)))
      as [st|] eqn:Hphases; [|discriminate].
    destruct (finish w _ _ _ _); [|discriminate].
    injection Hrun as <-. cbn.
    apply runPhases_identity in Hphases. cbn in Hphases. unfold identity in Hphases.
    cbn in Hphases. rewrite (getOrgInfo_unresolved w e Hinfo) in Hphases. cbn in Hphases.
    by injection Hphases as _ -> _ _. }
  unfold uploadSummary, andThen, pure. by rewrite Hid.
Qed.

Lemma unresolved_identity_report_is_rejected_witness :
  orgDisplay orgDownWorld = Throw commandFailed
  /\ exists r,
       summarizeOrg [] 0 orgDownWorld outputFlags None = Some (Ok r)
       /\ uploadSummary acceptingConnection (inl (summary r)) = ([], Throw invalidSummary).
Proof.
  split; [reflexivity|]. eexists. split; [vm_compute; reflexivity|].
  exact (unresolved_identity_report_is_rejected [] 0 orgDownWorld outputFlags commandFailed
           _ acceptingConnection eq_refl eq_refl).
Defined.

(** ** The tests fragment and the identity of the report *)

Lemma getTestRunDetails_none (w : World) (jobId : string) :
  getTestRunDetails w jobId = None
  <-> forall row rest, testRunDetailsQuery w jobId <> Ok (row :: rest).
Proof.
  unfold getTestRunDetails.
  destruct (testRunDetailsQuery w jobId) as [[|row rest]|e] eqn:E.
  - rewrite queryMetadata_ok. split; [discriminate|done].
  - rewrite queryMetadata_ok. split; [discriminate|]. intros Hno. by destruct (Hno row rest).
  - split; [discriminate|]. intros _.
    destruct (stderr e) as [err|] eqn:Herr.
    + by rewrite (queryMetadata_command_failure _ e err Herr).
    + by rewrite (queryMetadata_other_failure _ e Herr).
Qed.

(** X28.  The outcome of the tests fragment is Pass, Fail or N/A.  It is N/A
    exactly when the query of the details of the run gives no first row (it
    answers no row, or fails), and then the four counters are 0; with a
    first row, the outcome is decided on its [Status] and [MethodsFailed],
    and the counters are the fields of the row as they were parsed, or 0
    for a field that the row lacks. *)
Theorem tests_fragment_outcome `{Coercions} (w : World) (testRunId : string) :
  let t := testSummary w testRunId in
  (TestOutcome t = "Pass" \/ TestOutcome t = "Fail" \/ TestOutcome t = "N/A")
  /\ (TestOutcome t = "N/A"
      <-> forall row rest, testRunDetailsQuery w testRunId <> Ok (row :: rest))
  /\ (TestOutcome t = "N/A" ->
      ApexUnitTests t = VNum (Fin 0) /\ TestDuration t = VNum (Fin 0)
      /\ TestMethodsCompleted t = VNum (Fin 0) /\ TestMethodsFailed t = VNum (Fin 0))
  /\ (forall row rest,
        testRunDetailsQuery w testRunId = Ok (row :: rest) ->
        TestOutcome t = testRunOutcome (field row "Status") (field row "MethodsFailed")
        /\ ApexUnitTests t = TestMethodsCompleted t
        /\ TestMethodsCompleted t = nullish_or (field row "MethodsCompleted") (VNum (Fin 0))
        /\ TestMethodsFailed t = nullish_or (field row "MethodsFailed") (VNum (Fin 0))
        /\ TestDuration t = nullish_or (field row "TestTime") (VNum (Fin 0))).
Proof.
  cbn zeta. unfold testSummary. cbn [TestOutcome ApexUnitTests TestDuration
    TestMethodsCompleted TestMethodsFailed].
  pose proof (getTestRunDetails_none w testRunId) as Hnone.
  destruct (getTestRunDetails w testRunId) as [details|] eqn:Hdetails.
  - assert (exists row rest,
              testRunDetailsQuery w testRunId = Ok (row :: rest)
              /\ details
                 = {| outcome := testRunOutcome (field row "Status") (field row "MethodsFailed");
                      runtime := field row "TestTime";
                      methodsCompleted := field row "MethodsCompleted";
                      methodsFailed := field row "MethodsFailed" |}) as (row & rest & Hq & ->).
    { unfold getTestRunDetails in Hdetails.
      destruct (testRunDetailsQuery w testRunId) as [[|row rest]|e] eqn:E.
      - by rewrite queryMetadata_ok in Hdetails.
      - rewrite queryMetadata_ok in Hdetails. injection Hdetails as <-. by exists row, rest.
      - destruct (stderr e) as [err|] eqn:Herr.
        + by rewrite (queryMetadata_command_failure _ e err Herr) in Hdetails.
        + by rewrite (queryMetadata_other_failure _ e Herr) in Hdetails. }
    cbn [outcome runtime methodsCompleted methodsFailed].
    assert (testRunOutcome (field row "Status") (field row "MethodsFailed") <> "N/A") as Hna.
    { unfold testRunOutcome. by destruct (_ && _). }
    split; [|split; [|split]].
    + unfold testRunOutcome. destruct (_ && _); [by left|by right; left].
    + split; [done|]. intros Hno. by destruct (Hno row rest).
    + done.
    + intros row' rest' Hq'. rewrite Hq in Hq'. injection Hq' as <- <-. by repeat split.
  - split; [by right; right|]. split; [|split].
    + split; [intros _; by apply Hnone|done].
    + intros _. by repeat split.
    + intros row rest Hq. destruct (proj1 Hnone eq_refl row rest Hq).
Qed.

Lemma tests_fragment_outcome_witness :
  testRunDetailsQuery completedWorld "707xx0000000001" = Ok [completedRow]
  /\ TestOutcome (testSummary completedWorld "707xx0000000001") = "Fail"
  /\ TestMethodsFailed (testSummary completedWorld "707xx0000000001") = VStr "0"
  /\ TestDuration (testSummary completedWorld "707xx0000000001") = VStr "3400"
  /\ TestOutcome (testSummary quietWorld "707xx0000000001") = "N/A"
  /\ ApexUnitTests (testSummary quietWorld "707xx0000000001") = VNum (Fin 0).
Proof.
  split; [reflexivity|].
  destruct (tests_fragment_outcome completedWorld "707xx0000000001") as (_ & _ & _ & Hrow).
  destruct (Hrow completedRow [] eq_refl) as (Hout & _ & _ & Hfailed & Htime).
  split; [exact Hout|]. split; [exact Hfailed|]. split; [exact Htime|].
  destruct (tests_fragment_outcome quietWorld "707xx0000000001") as (_ & Hna & Hzero & _).
  assert (TestOutcome (testSummary quietWorld "707xx0000000001") = "N/A") as Hquiet.
  { apply Hna. intros row rest. discriminate. }
  split; [exact Hquiet|]. exact (proj1 (Hzero Hquiet)).
Defined.

(** X29.  No phase changes the identity of the report: its timestamp, tenant,
    instance and user are those of the summary the run started from, which
    are the ones of the caller's summary when one is supplied, and otherwise
    the time of the run and what [getOrgInfo] returned. *)
Theorem report_identity `{Coercions} (dataPoints : list string) (fuel : nat)
    (w : World) (fl : flags) (orgSummary : option OrgSummary) (r : RunResult) :
  summarizeOrg dataPoints fuel w fl orgSummary = Some (Ok r) ->
  identity (summary r) = identity (initialSummary w orgSummary)
  /\ (forall s, orgSummary = Some s -> identity (summary r) = identity s)
  /\ (orgSummary = None ->
      identity (summary r)
      = (now w, orgId (getOrgInfo w), instanceUrl (getOrgInfo w), username (getOrgInfo w))).
Proof.
  intros Hrun.
  apply summarizeOrg_returns_inv in Hrun as (st & Hphases & Hsummary & _ & _).
  apply runPhases_identity in Hphases. cbn in Hphases.
  assert (identity (summary r) = identity (initialSummary w orgSummary)) as Hid.
  { rewrite Hsummary. exact Hphases. }
  split; [exact Hid|]. split.
  - intros s ->. exact Hid.
  - intros ->. exact Hid.
Qed.

Lemma report_identity_witness :
  exists r,
    summarizeOrg [] 0 healthWorld healthFlags (Some previousSummary) = Some (Ok r)
    /\ identity (summary r) = identity previousSummary
    /\ OrgId (summary r) = "00Dxx0000001gPL".
Proof.
  eexists. split; [vm_compute; reflexivity|]. split; [|reflexivity].
  exact (proj1 (proj2 (report_identity [] 0 healthWorld healthFlags (Some previousSummary)
                         _ eq_refl)) previousSummary eq_refl).
Defined.

(** ** Coverage of the classes *)

(** X30.  [getApexClassCoverageDetails] returns one entry for each row of its
    query, in order, with the percentage that [calculateCoveragePercentage]
    gives on the two fields of the row as they were parsed, and with the
    name of the row, or N/A for a row whose name is missing or empty; it
    returns no entry when the query fails.  The name of an entry is never
    empty. *)
Theorem class_coverage_details_entries `{Coercions} (w : World) :
  (forall rows,
     classCoverageQuery w = Ok rows ->
     Forall2
       (fun (row : CsvRow) entry =>
          apex_Name entry
          = match row !! "ApexClassOrTrigger.Name" with
            | Some s => if String.eqb s "" then VStr "N/A" else VStr s
            | None => VStr "N/A"
            end
          /\ apex_CoveragePercentage entry
             = calculateCoveragePercentage (field row "NumLinesCovered")
                                           (field row "NumLinesUncovered"))
       rows (getApexClassCoverageDetails w))
  /\ (forall e, classCoverageQuery w = Throw e -> getApexClassCoverageDetails w = [])
  /\ Forall (fun entry => exists s, apex_Name entry = VStr s /\ s <> "")
            (getApexClassCoverageDetails w).
Proof.
  unfold getApexClassCoverageDetails. split; [|split].
  - intros rows ->. rewrite queryMetadata_ok.
    induction rows as [|row rows IH]; cbn [map]; constructor; [|exact IH].
    cbn [apex_Name apex_CoveragePercentage]. split; [|reflexivity].
    unfold field. destruct (row !! "ApexClassOrTrigger.Name") as [s|]; cbn; [|reflexivity].
    by destruct (String.eqb s "").
  - intros e ->. destruct (stderr e) as [err|] eqn:Herr.
    + by rewrite (queryMetadata_command_failure _ e err Herr).
    + by rewrite (queryMetadata_other_failure _ e Herr).
  - destruct (queryMetadata _ (classCoverageQuery w)) as [results|e]; [|constructor].
    apply Forall_forall. intros entry Hin. apply list_elem_of_fmap in Hin as (row & -> & _).
    cbn [apex_Name]. unfold field.
    destruct (row !! "ApexClassOrTrigger.Name") as [s|]; cbn.
    + destruct (String.eqb_spec s "") as [->|Hne]; cbn; [by exists "N/A"|by exists s].
    + by exists "N/A".
Qed.

Lemma class_coverage_details_witness :
  classCoverageQuery classCoverageWorld = Ok classCoverageRows
  /\ map apex_Name (getApexClassCoverageDetails classCoverageWorld)
     = [VStr "AccountService"; VStr "N/A"]
  /\ Forall2
       (fun (row : CsvRow) entry =>
          apex_Name entry
          = match row !! "ApexClassOrTrigger.Name" with
            | Some s => if String.eqb s "" then VStr "N/A" else VStr s
            | None => VStr "N/A"
            end
          /\ apex_CoveragePercentage entry
             = calculateCoveragePercentage (field row "NumLinesCovered")
                                           (field row "NumLinesUncovered"))
       classCoverageRows (getApexClassCoverageDetails classCoverageWorld).
Proof.
  split; [reflexivity|]. split; [reflexivity|].
  exact (proj1 (class_coverage_details_entries classCoverageWorld) classCoverageRows eq_refl).
Defined.
